(** * Comparsa / Nosa Terra: the client-side synchronisation layer

    A shallow embedding of the React views of the front end
    (Feed, Post, Announcements, Events, AdminPanel, Profile) and of the
    JavaScript built-ins their handlers rely on, followed by the properties
    of the state-synchronisation contracts. *)

From stdpp Require Import base list strings gmap.
From Stdlib Require Import ZArith NArith Ascii Lia Sorted Permutation.

(** ** JavaScript values used by the views *)

Module JS.

(** A JavaScript string is a sequence of UTF-16 code units. *)
Abbreviation jsstring := (list N).

(** A string literal of the source, one code unit per character. *)
Fixpoint lit (s : string) : jsstring :=
  match s with
  | EmptyString => []
  | String a s' => N_of_ascii a :: lit s'
  end.

(** ECMAScript WhiteSpace and LineTerminator code points: what
    [String.prototype.trim] strips. *)
Definition is_whitespace (c : N) : bool :=
  ((c =? 9) || (c =? 10) || (c =? 11) || (c =? 12) || (c =? 13)
   || (c =? 32) || (c =? 160) || (c =? 5760)
   || ((8192 <=? c) && (c <=? 8202))
   || (c =? 8232) || (c =? 8233) || (c =? 8239) || (c =? 8287)
   || (c =? 12288) || (c =? 65279))%N.

Fixpoint trimStart (s : jsstring) : jsstring :=
  match s with
  | [] => []
  | c :: s' => if is_whitespace c then trimStart s' else s
  end.

Definition trimEnd (s : jsstring) : jsstring := rev (trimStart (rev s)).

(** [s.trim()] *)
Definition trim (s : jsstring) : jsstring := trimEnd (trimStart s).

(** ToBoolean on a string: only the empty string is falsy. *)
Definition truthy (s : jsstring) : bool :=
  match s with [] => false | _ => true end.

(** [s.split(sep)] for a separator of one code unit. The result is never
    empty: the empty string splits into one empty field. *)
Fixpoint split (sep : N) (s : jsstring) : list jsstring :=
  match s with
  | [] => [[]]
  | c :: s' =>
      if (c =? sep)%N then [] :: split sep s'
      else match split sep s' with
           | w :: ws => (c :: w) :: ws
           | [] => [[c]]
           end
  end.

(** [s[0]]: a string of one code unit, or [undefined] (None) when [s] is
    empty. *)
Definition index0 (s : jsstring) : option jsstring :=
  match s with
  | [] => None
  | c :: _ => Some [c]
  end.

(** [arr.join(sep)]: [undefined] elements are rendered as the empty
    string. *)
Fixpoint join (sep : jsstring) (arr : list (option jsstring)) : jsstring :=
  match arr with
  | [] => []
  | [x] => default [] x
  | x :: rest => default [] x ++ sep ++ join sep rest
  end.

(** [s.substring(a, b)]: the arguments are swapped when [a > b] and
    clamped to the length. *)
Definition substring (a b : nat) (s : jsstring) : jsstring :=
  take (Nat.max a b - Nat.min a b) (drop (Nat.min a b) s).

(** [|| fallback] on an optional string: [undefined] and the empty string
    are falsy. *)
Definition or_else (o : option string) (fallback : string) : string :=
  match o with
  | Some EmptyString | None => fallback
  | Some d => d
  end.

(** The ASCII part of [String.prototype.toUpperCase], used to evaluate
    the helpers on concrete names. *)
Definition ascii_toUpperCase (s : jsstring) : jsstring :=
  List.map (fun c => if ((97 <=? c) && (c <=? 122))%N then (c - 32)%N else c) s.

(** [arr.slice(a, b)] for non-negative indices. *)
Definition slice {A} (a b : nat) (arr : list A) : list A :=
  take (b - a) (drop a arr).

(** SortCompare of [Array.prototype.sort]: the comparator's result as a
    number, a NaN result counting as [+0]. *)
Definition SortCompare {A} (comparefn : A -> A -> option Z) (x y : A) : Z :=
  default 0%Z (comparefn x y).

(** [comparefn] is a consistent comparator for the values of [S]
    (ECMAScript, Array.prototype.sort): its results are numbers, never NaN,
    and they order the values: [=CF] is an equivalence, [<CF] and [>CF] are
    transitive. *)
Definition consistent {A} (comparefn : A -> A -> option Z) (S : list A) : Prop :=
  (forall a b, a ∈ S -> b ∈ S -> is_Some (comparefn a b)) /\
  (forall a, a ∈ S -> SortCompare comparefn a a = 0%Z) /\
  (forall a b, a ∈ S -> b ∈ S ->
     SortCompare comparefn a b = 0%Z -> SortCompare comparefn b a = 0%Z) /\
  (forall a b c, a ∈ S -> b ∈ S -> c ∈ S ->
     SortCompare comparefn a b = 0%Z -> SortCompare comparefn b c = 0%Z ->
     SortCompare comparefn a c = 0%Z) /\
  (forall a b c, a ∈ S -> b ∈ S -> c ∈ S ->
     (SortCompare comparefn a b < 0)%Z -> (SortCompare comparefn b c < 0)%Z ->
     (SortCompare comparefn a c < 0)%Z) /\
  (forall a b c, a ∈ S -> b ∈ S -> c ∈ S ->
     (SortCompare comparefn a b > 0)%Z -> (SortCompare comparefn b c > 0)%Z ->
     (SortCompare comparefn a c > 0)%Z).

(** The arrangement ECMAScript prescribes for a consistent comparator: the
    array sorted, the elements that compare equal keeping their order.
    It is computed here by insertion: an element goes in front of the first
    later element that it does not compare greater than. *)
Fixpoint stable_insert {A} (comparefn : A -> A -> option Z) (x : A) (l : list A)
  : list A :=
  match l with
  | [] => [x]
  | y :: l' =>
      if (SortCompare comparefn x y <=? 0)%Z then x :: y :: l'
      else y :: stable_insert comparefn x l'
  end.

Fixpoint stable_sort {A} (comparefn : A -> A -> option Z) (arr : list A) : list A :=
  match arr with
  | [] => []
  | x :: arr' => stable_insert comparefn x (stable_sort comparefn arr')
  end.

(** [arr.sort(comparefn)] is the engine's. What ECMAScript fixes of it:
    the result is always a rearrangement of the array; for a consistent
    comparator it is the stable sorted arrangement; for any other
    comparator (one that returns NaN, as the difference of two dates does
    when one is an Invalid Date) the order is implementation-defined. The
    views are embedded over any [sort] and the properties are stated for
    the sorts that keep this contract. *)
Definition sort_contract {A}
    (sort : (A -> A -> option Z) -> list A -> list A) : Prop :=
  (forall comparefn arr, sort comparefn arr ≡ₚ arr) /\
  (forall comparefn arr,
     consistent comparefn arr -> sort comparefn arr = stable_sort comparefn arr).

(** [a > b] on two dates: both are converted to their time values, and
    a comparison with NaN is false. *)
Definition date_gt (a b : option Z) : bool :=
  match a, b with
  | Some x, Some y => (y <? x)%Z
  | _, _ => false
  end.

(** [a - b] on two dates: NaN as soon as one of them is invalid. *)
Definition date_sub (a b : option Z) : option Z :=
  match a, b with
  | Some x, Some y => Some (x - y)%Z
  | _, _ => None
  end.

(** ToBoolean on a string held as an opaque value (tokens, route
    parameters): only the empty string is falsy. *)
Definition truthy_string (s : string) : bool :=
  match s with EmptyString => false | String _ _ => true end.

(** [arr.includes(x)] on an array of strings. *)
Definition includes (x : string) (arr : list string) : bool :=
  existsb (String.eqb x) arr.

Section Initials.

(** [String.prototype.toUpperCase] is the host's Unicode mapping (it
    may change the length of a string); the helper is embedded over
    any such mapping. *)
Variable toUpperCase : jsstring -> jsstring.

(** [getInitials] of Post and Profile (the Feed header inlines the same
    expression):
    [name.split(' ').map(n => n[0]).join('').toUpperCase().substring(0, 2)] *)
Definition getInitials (name : jsstring) : jsstring :=
  substring 0 2
    (toUpperCase (join [] (List.map (fun n => index0 n) (split 32 name)))).

End Initials.

(** *** The initials as the specification words them *)

(** The first code units of the words of [s], in order, a word being a
    maximal run of code units that are not separators: a code unit opens
    a word when it is not a separator and comes first or right after a
    separator. *)
Fixpoint word_initials (sep : N -> bool) (after_sep : bool) (s : jsstring)
  : jsstring :=
  match s with
  | [] => []
  | c :: s' =>
      if sep c then word_initials sep true s'
      else if after_sep then c :: word_initials sep false s'
      else word_initials sep false s'
  end.

(** "the uppercased first characters of the whitespace-separated words
    of name taken in order, truncated to 2" *)
Definition initials_of_whitespace_words
    (toUpperCase : jsstring -> jsstring) (name : jsstring) : jsstring :=
  take 2 (toUpperCase (word_initials is_whitespace true name)).

(** The same with the words separated by U+0020 only. *)
Definition initials_of_space_words
    (toUpperCase : jsstring -> jsstring) (name : jsstring) : jsstring :=
  take 2 (toUpperCase (word_initials (fun c => (c =? 32)%N) true name)).

End JS.

(** ** Server-owned entities, as the client receives them *)

Abbreviation Id := string.

(** [a === b] on identifiers. *)
Definition id_eq (a b : Id) : bool := String.eqb a b.

(** role ∈ {member, admin} *)
Inductive Role := member | admin.

Definition role_is_admin (r : Role) : bool :=
  match r with admin => true | member => false end.

(** status ∈ {attending, maybe, not_attending} *)
Inductive Status := attending | maybe | not_attending.

Definition status_eq (a b : Status) : bool :=
  match a, b with
  | attending, attending | maybe, maybe | not_attending, not_attending => true
  | _, _ => false
  end.

(** The time value of a [Date] object: milliseconds since the epoch, or
    [None] for an Invalid Date (NaN). *)
Abbreviation TimeValue := (option Z).

Module User.
Record t := mk {
  id : Id;
  name : JS.jsstring;
  email : JS.jsstring;
  role : Role;
  avatar : option JS.jsstring;
  bio : option JS.jsstring;
  position : option JS.jsstring;
  phone : option JS.jsstring;
  location : option JS.jsstring;
  created_at : string
}.

(** [{ ...u, role: r }] *)
Definition with_role (u : t) (r : Role) : t :=
  mk (id u) (name u) (email u) r (avatar u) (bio u) (position u) (phone u)
     (location u) (created_at u).
End User.

Module Post.
Record t := mk {
  id : Id;
  user_id : Id;
  user_name : JS.jsstring;
  user_avatar : option JS.jsstring;
  content : JS.jsstring;
  image_url : option JS.jsstring;
  category : string;
  created_at : string;
  likes : option (list Id)
}.
End Post.

Module Comment.
Record t := mk {
  id : Id;
  post_id : Id;
  user_id : Id;
  user_name : JS.jsstring;
  user_avatar : option JS.jsstring;
  content : JS.jsstring
}.
End Comment.

Module Announcement.
Record t := mk {
  id : Id;
  title : JS.jsstring;
  content : JS.jsstring;
  category : string;
  created_by_name : JS.jsstring;
  created_at : string
}.
End Announcement.

Module Event.
(** [start_date] and [end_date] hold the time values that
    [new Date(event.start_date)] and [new Date(event.end_date)] denote. *)
Record t := mk {
  id : Id;
  title : JS.jsstring;
  description : JS.jsstring;
  location : JS.jsstring;
  start_date : TimeValue;
  end_date : TimeValue;
  category : string
}.
End Event.

Module Attendance.
Record t := mk {
  id : Id;
  event_id : Id;
  user_id : Id;
  user_name : JS.jsstring;
  status : Status
}.
End Attendance.

Module Stats.
Record t := mk {
  total_users : Z;
  total_posts : Z;
  total_events : Z;
  total_announcements : Z
}.
End Stats.

(** Form drafts sent as request bodies. *)

Module NewPost.
Record t := mk { content : JS.jsstring; image_url : JS.jsstring; category : string }.
(** [{ content: '', image_url: '', category: 'general' }] *)
Definition blank : t := mk [] [] "general".
End NewPost.

Module NewAnnouncement.
Record t := mk { title : JS.jsstring; content : JS.jsstring; category : string }.
Definition blank : t := mk [] [] "general".
End NewAnnouncement.

Module NewEvent.
Record t := mk {
  title : JS.jsstring;
  description : JS.jsstring;
  location : JS.jsstring;
  start_date : JS.jsstring;
  end_date : JS.jsstring;
  category : string
}.
Definition blank : t := mk [] [] [] [] [] "general".
End NewEvent.

Module ProfileForm.
Record t := mk {
  name : JS.jsstring;
  avatar : JS.jsstring;
  bio : JS.jsstring;
  position : JS.jsstring;
  phone : JS.jsstring;
  location : JS.jsstring
}.
End ProfileForm.

(** ** The REST calls the views issue through the shared [api] client *)

Inductive Request :=
| GetPosts (category : option string)       (* GET /posts *)
| CreatePost (body : NewPost.t)             (* POST /posts *)
| DeletePost (post : Id)                    (* DELETE /posts/{id} *)
| LikePost (post : Id)                      (* POST /posts/{id}/like *)
| GetComments (post : Id)                   (* GET /posts/{id}/comments *)
| AddComment (post : Id) (content : JS.jsstring) (* POST /posts/{id}/comments *)
| DeleteComment (comment : Id)              (* DELETE /comments/{id} *)
| GetAnnouncements                          (* GET /announcements *)
| CreateAnnouncement (body : NewAnnouncement.t) (* POST /announcements *)
| DeleteAnnouncement (announcement : Id)    (* DELETE /announcements/{id} *)
| GetEvents                                 (* GET /events *)
| CreateEvent (body : NewEvent.t)           (* POST /events *)
| DeleteEvent (event : Id)                  (* DELETE /events/{id} *)
| GetAttendances (event : Id)               (* GET /events/{id}/attendances *)
| Attend (event : Id) (status : Status)     (* POST /events/{id}/attend *)
| GetStats                                  (* GET /admin/stats *)
| GetUsers                                  (* GET /admin/users *)
| DeleteUser (user : Id)                    (* DELETE /admin/users/{id} *)
| PutRole (user : Id) (role : Role)         (* PUT /admin/users/{id}/role?role= *)
| PutProfile (body : ProfileForm.t)         (* PUT /users/profile *)
| GetUser (user : Id).                      (* GET /users/{id} *)

(** The shape of [response.data] for each call. The like toggle answers
    [{ likes: n }]; the bodies of deletions, role changes and attendance
    writes are never read by the client. *)
Definition Resp (r : Request) : Type :=
  match r with
  | GetPosts _ => list Post.t
  | CreatePost _ => Post.t
  | LikePost _ => Z
  | GetComments _ => list Comment.t
  | AddComment _ _ => Comment.t
  | GetAnnouncements => list Announcement.t
  | CreateAnnouncement _ => Announcement.t
  | GetEvents => list Event.t
  | CreateEvent _ => Event.t
  | GetAttendances _ => list Attendance.t
  | GetStats => Stats.t
  | GetUsers => list User.t
  | PutProfile _ => User.t
  | GetUser _ => User.t
  | DeletePost _ | DeleteComment _ | DeleteAnnouncement _ | DeleteEvent _
  | Attend _ _ | DeleteUser _ | PutRole _ _ => unit
  end.

(** The outcome of an awaited call: the promise resolves with the data, or
    rejects with an error that may carry the server's
    [error.response.data.detail]. *)
Inductive Response (A : Type) :=
| Ok (data : A)
| Failed (detail : option string).
Arguments Ok {A} data.
Arguments Failed {A} detail.

(** What a handler shows to the user or writes to the console. *)
Inductive Notice :=
| toast_success (msg : string)
| toast_error (msg : string)
| console_error (msg : string).

(** ** Handlers as interaction trees

    An async handler closes over the state [S] of the render it was
    created in, talks to the user ([window.confirm]), the clock
    ([new Date()]) and the server (awaited [api] calls), and ends with the
    state its setters leave behind. *)
Inductive Prog (S : Type) : Type :=
| Ret (s : S)
| Confirm (msg : string) (k : bool -> Prog S)
| Clock (k : Z -> Prog S)
| Call (r : Request) (k : Response (Resp r) -> Prog S)
| Notify (n : Notice) (k : Prog S)
| Reload (k : Prog S).
Arguments Ret {S} s.
Arguments Confirm {S} msg k.
Arguments Clock {S} k.
Arguments Call {S} r k.
Arguments Notify {S} n k.
Arguments Reload {S} k.

(** What an observer of the browser sees of a run. *)
Inductive Action :=
| AConfirm (msg : string) (answer : bool)
| ARequest (r : Request)
| ANotice (n : Notice)
| AReload.

(** The environment of a run: the user's answers to confirmations, the
    clock, and a server with its own state [Sigma]. *)
Record World (Sigma : Type) := mkWorld {
  confirms : string -> bool;
  clock : Z;
  serve : forall r : Request, Sigma -> Response (Resp r) * Sigma
}.
Arguments mkWorld {Sigma} confirms clock serve.
Arguments confirms {Sigma} w msg.
Arguments clock {Sigma} w.
Arguments serve {Sigma} w r sigma.

Record Outcome (Sigma S : Type) := mkOutcome {
  final : S;
  trace : list Action;
  server_state : Sigma
}.
Arguments mkOutcome {Sigma S} final trace server_state.
Arguments final {Sigma S} o.
Arguments trace {Sigma S} o.
Arguments server_state {Sigma S} o.

Definition observe {Sigma S} (a : Action) (o : Outcome Sigma S) : Outcome Sigma S :=
  mkOutcome (final o) (a :: trace o) (server_state o).

Fixpoint run {Sigma S} (w : World Sigma) (p : Prog S) (sigma : Sigma)
  : Outcome Sigma S :=
  match p with
  | Ret s => mkOutcome s [] sigma
  | Confirm msg k =>
      observe (AConfirm msg (confirms w msg)) (run w (k (confirms w msg)) sigma)
  | Clock k => run w (k (clock w)) sigma
  | Call r k =>
      observe (ARequest r) (run w (k (fst (serve w r sigma))) (snd (serve w r sigma)))
  | Notify n k => observe (ANotice n) (run w k sigma)
  | Reload k => observe AReload (run w k sigma)
  end.

(** The requests of a trace, in the order they were sent. *)
Definition requests (t : list Action) : list Request :=
  omap (fun a => match a with ARequest r => Some r | _ => None end) t.

(** ** Feed: the post list and the upcoming-events sidebar *)

Module Feed.

Record State := mk {
  posts : list Post.t;
  events : list Event.t;
  loading : bool;
  showNewPost : bool;
  newPost : NewPost.t;
  categoryFilter : string
}.

Definition setPosts v s :=
  mk v (events s) (loading s) (showNewPost s) (newPost s) (categoryFilter s).
Definition setEvents v s :=
  mk (posts s) v (loading s) (showNewPost s) (newPost s) (categoryFilter s).
Definition setLoading v s :=
  mk (posts s) (events s) v (showNewPost s) (newPost s) (categoryFilter s).
Definition setShowNewPost v s :=
  mk (posts s) (events s) (loading s) v (newPost s) (categoryFilter s).
Definition setNewPost v s :=
  mk (posts s) (events s) (loading s) (showNewPost s) v (categoryFilter s).

Definition fetchPosts (s : State) : Prog State :=
  let params :=
    if negb (String.eqb (categoryFilter s) "all") then Some (categoryFilter s)
    else None in
  Call (GetPosts params) (fun response =>
    match response with
    | Ok data => Ret (setLoading false (setPosts data s))
    | Failed _ =>
        Notify (toast_error "Error al cargar publicaciones")
          (Ret (setLoading false s))
    end).

Section Engine.

(** [Array.prototype.sort] of the engine the page runs on. *)
Variable sort : (Event.t -> Event.t -> option Z) -> list Event.t -> list Event.t.

(** The derivation inside [fetchUpcomingEvents]:
    [response.data
       .filter(event => new Date(event.end_date) > now)
       .sort((a, b) => new Date(a.start_date) - new Date(b.start_date))
       .slice(0, 5)] *)
Definition upcomingEvents (now : Z) (data : list Event.t) : list Event.t :=
  JS.slice 0 5
    (sort
       (fun a b => JS.date_sub (Event.start_date a) (Event.start_date b))
       (List.filter (fun event => JS.date_gt (Event.end_date event) (Some now))
          data)).

Definition fetchUpcomingEvents (s : State) : Prog State :=
  Call GetEvents (fun response =>
    match response with
    | Ok data => Clock (fun now => Ret (setEvents (upcomingEvents now data) s))
    | Failed _ => Notify (console_error "Error al cargar eventos") (Ret s)
    end).

End Engine.

Definition handleCreatePost (s : State) : Prog State :=
  if negb (JS.truthy (JS.trim (NewPost.content (newPost s)))) then
    Notify (toast_error "El contenido no puede estar vacío") (Ret s)
  else
    Call (CreatePost (newPost s)) (fun response =>
      match response with
      | Ok data =>
          Notify (toast_success "¡Publicación creada!")
            (Ret (setShowNewPost false
                    (setNewPost NewPost.blank (setPosts (data :: posts s) s))))
      | Failed _ => Notify (toast_error "Error al crear publicación") (Ret s)
      end).

Definition handleDeletePost (postId : Id) (s : State) : Prog State :=
  Confirm "¿Eliminar esta publicación?" (fun confirmed =>
    if negb confirmed then Ret s
    else
      Call (DeletePost postId) (fun response =>
        match response with
        | Ok _ =>
            Notify (toast_success "Publicación eliminada")
              (Ret (setPosts
                      (List.filter (fun p => negb (id_eq (Post.id p) postId))
                         (posts s))
                      s))
        | Failed _ =>
            Notify (toast_error "Error al eliminar publicación") (Ret s)
        end)).

End Feed.

(** ** Post: like toggle and comment thread of one post *)

Module PostView.

Record State := mk {
  liked : bool;
  likesCount : Z;
  showComments : bool;
  comments : list Comment.t;
  commentsCount : Z;
  newComment : JS.jsstring;
  loadingComments : bool
}.

Definition setLiked v s :=
  mk v (likesCount s) (showComments s) (comments s) (commentsCount s)
     (newComment s) (loadingComments s).
Definition setLikesCount v s :=
  mk (liked s) v (showComments s) (comments s) (commentsCount s)
     (newComment s) (loadingComments s).
Definition setShowComments v s :=
  mk (liked s) (likesCount s) v (comments s) (commentsCount s)
     (newComment s) (loadingComments s).
Definition setComments v s :=
  mk (liked s) (likesCount s) (showComments s) v (commentsCount s)
     (newComment s) (loadingComments s).
Definition setCommentsCount v s :=
  mk (liked s) (likesCount s) (showComments s) (comments s) v
     (newComment s) (loadingComments s).
Definition setNewComment v s :=
  mk (liked s) (likesCount s) (showComments s) (comments s) (commentsCount s)
     v (loadingComments s).
Definition setLoadingComments v s :=
  mk (liked s) (likesCount s) (showComments s) (comments s) (commentsCount s)
     (newComment s) v.

Section Component.

Variable post : Post.t.
Variable currentUser : User.t.

(** The [useState] initial values. *)
Definition initial : State :=
  mk false
     (match Post.likes post with
      | Some l => Z.of_nat (length l)
      | None => 0%Z
      end)
     false [] 0%Z [] false.

Definition loadCommentsCount (s : State) : Prog State :=
  Call (GetComments (Post.id post)) (fun response =>
    match response with
    | Ok data => Ret (setCommentsCount (Z.of_nat (length data)) s)
    | Failed _ =>
        Notify (console_error "Error al cargar conteo de comentarios") (Ret s)
    end).

(** The mount effect:
    [setLiked(post.likes?.includes(currentUser.id) || false)] and then
    the comment count. *)
Definition mount : Prog State :=
  loadCommentsCount
    (setLiked
       (match Post.likes post with
        | Some l => JS.includes (User.id currentUser) l
        | None => false
        end)
       initial).

Definition handleLike (s : State) : Prog State :=
  Call (LikePost (Post.id post)) (fun response =>
    match response with
    | Ok data => Ret (setLiked (negb (liked s)) (setLikesCount data s))
    | Failed _ => Notify (toast_error "Error al dar me gusta") (Ret s)
    end).

Definition fetchComments (s : State) : Prog State :=
  if (0 <? length (comments s))%nat then
    Ret (setShowComments (negb (showComments s)) s)
  else
    Call (GetComments (Post.id post)) (fun response =>
      match response with
      | Ok data =>
          Ret (setLoadingComments false
                 (setShowComments true
                    (setComments data (setLoadingComments true s))))
      | Failed _ =>
          Notify (toast_error "Error al cargar comentarios")
            (Ret (setLoadingComments false (setLoadingComments true s)))
      end).

Definition handleComment (s : State) : Prog State :=
  if negb (JS.truthy (JS.trim (newComment s))) then Ret s
  else
    Call (AddComment (Post.id post) (newComment s)) (fun response =>
      match response with
      | Ok data =>
          Notify (toast_success "Comentario agregado")
            (Ret (setNewComment []
                    (setCommentsCount (commentsCount s + 1)%Z
                       (setComments (comments s ++ [data]) s))))
      | Failed _ =>
          Notify (toast_error "Error al agregar comentario") (Ret s)
      end).

Definition handleDeleteComment (commentId : Id) (s : State) : Prog State :=
  Confirm "Â¿Eliminar este comentario?" (fun confirmed =>
    if negb confirmed then Ret s
    else
      Call (DeleteComment commentId) (fun response =>
        match response with
        | Ok _ =>
            Notify (toast_success "Comentario eliminado")
              (Ret (setCommentsCount (commentsCount s - 1)%Z
                      (setComments
                         (List.filter
                            (fun c => negb (id_eq (Comment.id c) commentId))
                            (comments s))
                         s)))
        | Failed _ =>
            Notify (toast_error "Error al eliminar comentario") (Ret s)
        end)).

(** [currentUser.id === post.user_id || currentUser.role === 'admin'] *)
Definition canDelete : bool :=
  id_eq (User.id currentUser) (Post.user_id post)
  || role_is_admin (User.role currentUser).

(** [currentUser.id === comment.user_id || currentUser.role === 'admin'] *)
Definition canDeleteComment (comment : Comment.t) : bool :=
  id_eq (User.id currentUser) (Comment.user_id comment)
  || role_is_admin (User.role currentUser).

(** The comments rendered with an "Eliminar" button, each running
    [handleDeleteComment(comment.id)]: the thread is rendered when
    [showComments] holds and the comments are not being loaded. *)
Definition commentDeleteButtons (s : State) : list Comment.t :=
  if showComments s then
    if loadingComments s then []
    else List.filter (fun comment => canDeleteComment comment) (comments s)
  else [].

End Component.

End PostView.

(** ** Announcements *)

Module Announcements.

Record State := mk {
  announcements : list Announcement.t;
  loading : bool;
  showNewAnnouncement : bool;
  newAnnouncement : NewAnnouncement.t
}.

Definition setAnnouncements v s :=
  mk v (loading s) (showNewAnnouncement s) (newAnnouncement s).
Definition setLoading v s :=
  mk (announcements s) v (showNewAnnouncement s) (newAnnouncement s).
Definition setShowNewAnnouncement v s :=
  mk (announcements s) (loading s) v (newAnnouncement s).
Definition setNewAnnouncement v s :=
  mk (announcements s) (loading s) (showNewAnnouncement s) v.

Definition fetchAnnouncements (s : State) : Prog State :=
  Call GetAnnouncements (fun response =>
    match response with
    | Ok data => Ret (setLoading false (setAnnouncements data s))
    | Failed _ =>
        Notify (toast_error "Error al cargar anuncios") (Ret (setLoading false s))
    end).

Definition handleCreateAnnouncement (s : State) : Prog State :=
  if negb (JS.truthy (JS.trim (NewAnnouncement.title (newAnnouncement s))))
     || negb (JS.truthy (JS.trim (NewAnnouncement.content (newAnnouncement s))))
  then Notify (toast_error "Complete todos los campos") (Ret s)
  else
    Call (CreateAnnouncement (newAnnouncement s)) (fun response =>
      match response with
      | Ok data =>
          Notify (toast_success "¡Anuncio creado!")
            (Ret (setShowNewAnnouncement false
                    (setNewAnnouncement NewAnnouncement.blank
                       (setAnnouncements (data :: announcements s) s))))
      | Failed detail =>
          Notify
            (toast_error
               (JS.or_else detail
                  "Error al crear anuncio. Solo administradores pueden crear anuncios."))
            (Ret s)
      end).

Definition handleDeleteAnnouncement (id : Id) (s : State) : Prog State :=
  Confirm "¿Eliminar este anuncio?" (fun confirmed =>
    if negb confirmed then Ret s
    else
      Call (DeleteAnnouncement id) (fun response =>
        match response with
        | Ok _ =>
            Notify (toast_success "Anuncio eliminado")
              (Ret (setAnnouncements
                      (List.filter (fun a => negb (id_eq (Announcement.id a) id))
                         (announcements s))
                      s))
        | Failed _ => Notify (toast_error "Error al eliminar anuncio") (Ret s)
        end)).

End Announcements.

(** ** Events and attendance *)

Module Events.

Record State := mk {
  events : list Event.t;
  loading : bool;
  showNewEvent : bool;
  selectedEvent : option Event.t;
  attendances : list Attendance.t;
  newEvent : NewEvent.t
}.

Definition setEvents v s :=
  mk v (loading s) (showNewEvent s) (selectedEvent s) (attendances s) (newEvent s).
Definition setLoading v s :=
  mk (events s) v (showNewEvent s) (selectedEvent s) (attendances s) (newEvent s).
Definition setShowNewEvent v s :=
  mk (events s) (loading s) v (selectedEvent s) (attendances s) (newEvent s).
Definition setSelectedEvent v s :=
  mk (events s) (loading s) (showNewEvent s) v (attendances s) (newEvent s).
Definition setAttendances v s :=
  mk (events s) (loading s) (showNewEvent s) (selectedEvent s) v (newEvent s).
Definition setNewEvent v s :=
  mk (events s) (loading s) (showNewEvent s) (selectedEvent s) (attendances s) v.

Definition fetchEvents (s : State) : Prog State :=
  Call GetEvents (fun response =>
    match response with
    | Ok data => Ret (setLoading false (setEvents data s))
    | Failed _ =>
        Notify (toast_error "Error al cargar eventos") (Ret (setLoading false s))
    end).

Definition fetchAttendances (eventId : Id) (s : State) : Prog State :=
  Call (GetAttendances eventId) (fun response =>
    match response with
    | Ok data => Ret (setAttendances data s)
    | Failed _ => Notify (toast_error "Error al cargar asistencias") (Ret s)
    end).

Definition handleCreateEvent (s : State) : Prog State :=
  if negb (JS.truthy (JS.trim (NewEvent.title (newEvent s))))
     || negb (JS.truthy (NewEvent.start_date (newEvent s)))
     || negb (JS.truthy (NewEvent.end_date (newEvent s)))
  then Notify (toast_error "Complete todos los campos requeridos") (Ret s)
  else
    Call (CreateEvent (newEvent s)) (fun response =>
      match response with
      | Ok data =>
          Notify (toast_success "¡Evento creado!")
            (Ret (setShowNewEvent false
                    (setNewEvent NewEvent.blank
                       (setEvents (events s ++ [data]) s))))
      | Failed _ => Notify (toast_error "Error al crear evento") (Ret s)
      end).

Definition handleDeleteEvent (id : Id) (s : State) : Prog State :=
  Confirm "¿Eliminar este evento?" (fun confirmed =>
    if negb confirmed then Ret s
    else
      Call (DeleteEvent id) (fun response =>
        match response with
        | Ok _ =>
            Notify (toast_success "Evento eliminado")
              (Ret (setSelectedEvent None
                      (setEvents
                         (List.filter (fun e => negb (id_eq (Event.id e) id))
                            (events s))
                         s)))
        | Failed _ =>
            Notify
              (toast_error
                 "Error al eliminar evento. Solo administradores pueden eliminar eventos.")
              (Ret s)
        end)).

Definition attendance_label (status : Status) : string :=
  match status with
  | attending => "Asistiré"
  | maybe => "Tal vez"
  | not_attending => "No asistiré"
  end.

(** [selectedEvent && selectedEvent.id === eventId] *)
Definition is_selected (eventId : Id) (s : State) : bool :=
  match selectedEvent s with
  | Some e => id_eq (Event.id e) eventId
  | None => false
  end.

Definition handleAttendance (eventId : Id) (status : Status) (s : State)
  : Prog State :=
  Call (Attend eventId status) (fun response =>
    match response with
    | Ok _ =>
        Notify
          (toast_success ("Asistencia marcada: " +:+ attendance_label status))
          (if is_selected eventId s then fetchAttendances eventId s else Ret s)
    | Failed _ => Notify (toast_error "Error al marcar asistencia") (Ret s)
    end).

Definition handleSelectEvent (event : Event.t) (s : State) : Prog State :=
  fetchAttendances (Event.id event) (setSelectedEvent (Some event) s).

(** What the detail pane derives from the roster on every render. *)

(** [selectedEvent ? attendances.find(a => a.user_id === user.id) : null] *)
Definition userAttendance (user : User.t) (s : State) : option Attendance.t :=
  match selectedEvent s with
  | Some _ =>
      List.find (fun a => id_eq (Attendance.user_id a) (User.id user))
        (attendances s)
  | None => None
  end.

(** [attendances.filter(a => a.status === 'attending')] and its length,
    the count in the "Asistentes" header. *)
Definition attendees (s : State) : list Attendance.t :=
  List.filter (fun a => status_eq (Attendance.status a) attending) (attendances s).

Definition attendingCount (s : State) : nat := length (attendees s).

End Events.

(** ** Admin panel *)

Module AdminPanel.

Record State := mk {
  stats : option Stats.t;
  users : list User.t;
  loading : bool
}.

Definition setStats v s := mk v (users s) (loading s).
Definition setUsers v s := mk (stats s) v (loading s).
Definition setLoading v s := mk (stats s) (users s) v.

Definition fetchStats (s : State) : Prog State :=
  Call GetStats (fun response =>
    match response with
    | Ok data => Ret (setStats (Some data) s)
    | Failed _ => Notify (toast_error "Error al cargar estadísticas") (Ret s)
    end).

Definition fetchUsers (s : State) : Prog State :=
  Call GetUsers (fun response =>
    match response with
    | Ok data => Ret (setLoading false (setUsers data s))
    | Failed _ =>
        Notify (toast_error "Error al cargar usuarios") (Ret (setLoading false s))
    end).

Definition handleDeleteUser (userId : Id) (s : State) : Prog State :=
  Confirm "¿Eliminar este usuario y todo su contenido?" (fun confirmed =>
    if negb confirmed then Ret s
    else
      Call (DeleteUser userId) (fun response =>
        match response with
        | Ok _ =>
            Notify (toast_success "Usuario eliminado")
              (fetchStats
                 (setUsers
                    (List.filter (fun u => negb (id_eq (User.id u) userId))
                       (users s))
                    s))
        | Failed detail =>
            Notify (toast_error (JS.or_else detail "Error al eliminar usuario"))
              (Ret s)
        end)).

(** [currentRole === 'admin' ? 'member' : 'admin'] *)
Definition newRole (currentRole : Role) : Role :=
  if role_is_admin currentRole then member else admin.

Definition role_name (r : Role) : string :=
  match r with admin => "admin" | member => "member" end.

Definition handleToggleRole (userId : Id) (currentRole : Role) (s : State)
  : Prog State :=
  Confirm ("¿Cambiar rol a " +:+ role_name (newRole currentRole) +:+ "?")
    (fun confirmed =>
      if negb confirmed then Ret s
      else
        Call (PutRole userId (newRole currentRole)) (fun response =>
          match response with
          | Ok _ =>
              Notify (toast_success "Rol actualizado")
                (Ret (setUsers
                        (List.map
                           (fun u =>
                              if id_eq (User.id u) userId
                              then User.with_role u (newRole currentRole)
                              else u)
                           (users s))
                        s))
          | Failed _ => Notify (toast_error "Error al actualizar rol") (Ret s)
          end)).

End AdminPanel.

(** ** Profile *)

Module Profile.

Record State := mk {
  user : option User.t;
  loading : bool;
  editing : bool;
  formData : ProfileForm.t
}.

Definition setUser v s := mk v (loading s) (editing s) (formData s).
Definition setLoading v s := mk (user s) v (editing s) (formData s).
Definition setEditing v s := mk (user s) (loading s) v (formData s).
Definition setFormData v s := mk (user s) (loading s) (editing s) v.

Definition handleSaveProfile (s : State) : Prog State :=
  Call (PutProfile (formData s)) (fun response =>
    match response with
    | Ok data =>
        Notify (toast_success "¡Perfil actualizado!")
          (Reload (Ret (setEditing false (setUser (Some data) s))))
    | Failed _ => Notify (toast_error "Error al actualizar perfil") (Ret s)
    end).

Section Route.

(** The props and the route parameter of [/profile/:userId]
    ([useParams]): [None] on [/profile]. *)
Variable currentUser : User.t.
Variable userId : option Id.

(** [!userId || userId === currentUser.id] *)
Definition isOwnProfile : bool :=
  match userId with
  | None => true
  | Some id => negb (JS.truthy_string id) || id_eq id (User.id currentUser)
  end.

(** [field || ''] on an optional field. *)
Definition or_empty (field : option JS.jsstring) : JS.jsstring := default [] field.

(** The form filled from the current user. *)
Definition form_of (u : User.t) : ProfileForm.t :=
  ProfileForm.mk (User.name u) (or_empty (User.avatar u)) (or_empty (User.bio u))
    (or_empty (User.position u)) (or_empty (User.phone u))
    (or_empty (User.location u)).

Definition fetchUserProfile (s : State) : Prog State :=
  if isOwnProfile then
    Ret (setLoading false (setFormData (form_of currentUser)
                             (setUser (Some currentUser) s)))
  else
    match userId with
    | Some id =>
        Call (GetUser id) (fun response =>
          match response with
          | Ok data => Ret (setLoading false (setUser (Some data) s))
          | Failed _ =>
              Notify (toast_error "Error al cargar perfil") (Ret (setLoading false s))
          end)
    | None => Ret s
    end.

(** The "Editar Perfil" button and the inputs of the form. *)
Definition startEdit (s : State) : State := setEditing true s.

Definition editForm (draft : ProfileForm.t) (s : State) : State :=
  setFormData draft s.

(** The "Cancelar" button: [setEditing(false); fetchUserProfile()] *)
Definition cancelEdit (s : State) : Prog State :=
  fetchUserProfile (setEditing false s).

(** What a render of the page evaluates to. After the early return of the
    loading screen the markup reads [user.avatar] (when not editing) and
    [user.email] (always): with [user] still [null] the render throws a
    TypeError, which is [None] here. *)
Inductive Screen :=
| LoadingScreen
| ProfileScreen (shown : User.t) (own : bool) (edited : bool).

Definition render (s : State) : option Screen :=
  if loading s then Some LoadingScreen
  else
    match user s with
    | Some u => Some (ProfileScreen u isOwnProfile (editing s))
    | None => None
    end.

End Route.

(** The [useState] initial values. *)
Definition initial : State :=
  mk None true false (ProfileForm.mk [] [] [] [] [] []).

End Profile.

(** ** App: the session *)

Module App.

Record State := mk {
  user : option User.t;
  loading : bool
}.

Definition setUser v s := mk v (loading s).
Definition setLoading v s := mk (user s) v.

(** The [useState] initial values. *)
Definition initial : State := mk None true.

(** [localStorage], of which the client uses the ['token'] key only:
    [getItem] answers [null] (None) or the stored string. *)
Abbreviation Storage := (option string).

(** The request interceptor of the shared [api] client: the stored token,
    when truthy, is attached as a bearer credential. *)
Definition interceptor (storage : Storage) (headers : gmap string string)
  : gmap string string :=
  match storage with
  | Some token =>
      if JS.truthy_string token
      then <["Authorization" := "Bearer " +:+ token]> headers
      else headers
  | None => headers
  end.

(** The outcome of a step of the session: the view state, the storage and
    the headers of the requests sent to [/auth/me]. *)
Record Step := mkStep {
  state : State;
  storage : Storage;
  sent : list (gmap string string)
}.

(** The mount effect. [auth_me] is the server's answer to [GET /auth/me]
    for the headers it receives. *)
Definition startup (auth_me : gmap string string -> Response User.t)
    (s : State) (stored : Storage) : Step :=
  match stored with
  | Some token =>
      if JS.truthy_string token then
        match auth_me (interceptor stored ∅) with
        | Ok data =>
            mkStep (setLoading false (setUser (Some data) s)) stored
              [interceptor stored ∅]
        | Failed _ => mkStep (setLoading false s) None [interceptor stored ∅]
        end
      else mkStep (setLoading false s) stored []
  | None => mkStep (setLoading false s) stored []
  end.

Definition handleLogin (userData : User.t) (token : string) (s : State)
    (stored : Storage) : Step :=
  mkStep (setUser (Some userData) s) (Some token) [].

Definition handleLogout (s : State) (stored : Storage) : Step :=
  mkStep (setUser None s) None [].

(** A page reload: the state starts again from its initial values, the
    storage survives, and the mount effect runs. *)
Definition reload (auth_me : gmap string string -> Response User.t)
    (stored : Storage) : Step :=
  startup auth_me initial stored.

End App.

(** ** Login *)

Module Login.

Record FormData := mkForm {
  email : JS.jsstring;
  password : JS.jsstring;
  name : JS.jsstring
}.

Record State := mk {
  isLogin : bool;
  formData : FormData;
  loading : bool
}.

Definition setLoading v s := mk (isLogin s) (formData s) v.

(** [isLogin ? '/auth/login' : '/auth/register'] *)
Definition endpoint (s : State) : string :=
  if isLogin s then "/auth/login" else "/auth/register".

Record Outcome := mkOutcome {
  view : State;
  session : App.Step;
  notices : list Notice
}.

(** [handleSubmit]. [auth] is the server's answer to the POST on the
    endpoint with the form as body: [{ user, access_token }]. The call goes
    through [axios] directly, not through the [api] client. On success
    [onLogin] is [App.handleLogin]. *)
Definition handleSubmit
    (auth : string -> FormData -> Response (User.t * string))
    (s : State) (app : App.State) (stored : App.Storage) : Outcome :=
  match auth (endpoint s) (formData s) with
  | Ok data =>
      mkOutcome (setLoading false (setLoading true s))
        (App.handleLogin (fst data) (snd data) app stored)
        [toast_success
           (if isLogin s then "¡Bienvenido!" else "¡Cuenta creada exitosamente!")]
  | Failed detail =>
      mkOutcome (setLoading false (setLoading true s))
        (App.mkStep app stored [])
        [toast_error (JS.or_else detail "Error en la autenticación")]
  end.

End Login.

(** ** What the markup offers

    The buttons a render puts on the page, as the data their click
    handlers are called with. *)

Module Markup.

(** Feed: while not loading, each post is rendered as a [Post] whose
    delete button, shown when [canDelete], runs
    [handleDeletePost(post.id)]. *)
Definition postDeleteButtons (user : User.t) (s : Feed.State) : list Post.t :=
  if Feed.loading s then []
  else List.filter (fun post => PostView.canDelete post user) (Feed.posts s).

(** Announcements: the delete button of each announcement and the
    creation form are rendered for administrators only. *)
Definition announcementDeleteButtons (user : User.t) (s : Announcements.State)
  : list Announcement.t :=
  if Announcements.loading s then []
  else if role_is_admin (User.role user) then Announcements.announcements s
  else [].

Definition announcementFormShown (user : User.t) (s : Announcements.State) : bool :=
  Announcements.showNewAnnouncement s && role_is_admin (User.role user).

(** Events: the detail pane of the selected event carries the delete
    button (administrators only) and the three attendance buttons, all
    called with [selectedEvent.id]. *)
Definition eventDeleteButton (user : User.t) (s : Events.State) : option Id :=
  if Events.loading s then None
  else
    match Events.selectedEvent s with
    | Some e => if role_is_admin (User.role user) then Some (Event.id e) else None
    | None => None
    end.

Definition attendanceButtons (s : Events.State) : list (Id * Status) :=
  if Events.loading s then []
  else
    match Events.selectedEvent s with
    | Some e =>
        [(Event.id e, attending); (Event.id e, maybe); (Event.id e, not_attending)]
    | None => []
    end.

(** Admin panel: the rows with the role and delete buttons are those of
    the other users ([u.id !== user.id]). *)
Definition adminRowButtons (user : User.t) (s : AdminPanel.State) : list User.t :=
  if AdminPanel.loading s then []
  else List.filter (fun u => negb (id_eq (User.id u) (User.id user)))
         (AdminPanel.users s).

End Markup.

(** ** The like-toggle endpoint *)

(** Modelled from the spec: the backend's [POST /posts/{id}/like], which is
    not part of the front-end sources. "A like toggle flips exactly the
    current user's membership in a post's like set" and "the server returns
    the new total like count". The server state maps each post to its like
    set; the bearer credential identifies the user [u]. Every other call is
    refused: only the current user's like toggles reach this server. *)
Definition toggle_membership (u : Id) (likes : gset Id) : gset Id :=
  if decide (u ∈ likes) then likes ∖ {[u]} else likes ∪ {[u]}.

(** Modelled from the spec: the answer of [POST /posts/{id}/like] for a
    request of user [u], "the new total like count", and the like sets
    after the toggle. *)
Definition like_endpoint (u : Id) (post : Id) (db : gmap Id (gset Id))
  : Response Z * gmap Id (gset Id) :=
  match db !! post with
  | Some likes =>
      (Ok (Z.of_nat (size (toggle_membership u likes))),
       <[post := toggle_membership u likes]> db)
  | None => (Failed (Some "Post not found"), db)
  end.

(** Modelled from the spec: a world in which the only working endpoint is
    the like toggle of user [u] (single-user interaction). *)
Definition like_server (u : Id) : World (gmap Id (gset Id)) :=
  mkWorld (fun _ => true) 0%Z
    (fun r =>
       match r return gmap Id (gset Id) -> Response (Resp r) * gmap Id (gset Id) with
       | LikePost post => like_endpoint u post
       | _ => fun db => (Failed None, db)
       end).

(** ** Runs and traces *)

(** The user triggers the same handler [n] times in succession, each time
    on the state the previous run rendered. *)
Fixpoint repeat_handler {Sigma S} (w : World Sigma) (h : S -> Prog S) (n : nat)
    (s : S) (sigma : Sigma) : S * Sigma :=
  match n with
  | O => (s, sigma)
  | S n' =>
      repeat_handler w h n' (final (run w (h s) sigma))
        (server_state (run w (h s) sigma))
  end.

(** The awaited call rejects. *)
Definition rejects {Sigma} (w : World Sigma) (r : Request) (sigma : Sigma) : Prop :=
  exists detail, fst (serve w r sigma) = Failed detail.

(** The awaited call resolves with [data]. *)
Definition resolves {Sigma} (w : World Sigma) (r : Request) (sigma : Sigma)
    (data : Resp r) : Prop :=
  fst (serve w r sigma) = Ok data.

(** Every selected request of the trace is preceded by a confirmation that
    the user accepted, each confirmation covering one request. *)
Fixpoint guarded_by_confirmation (selected : Request -> bool) (confirmed : bool)
    (t : list Action) : bool :=
  match t with
  | [] => true
  | AConfirm _ answer :: t' => guarded_by_confirmation selected answer t'
  | ARequest r :: t' =>
      if selected r then confirmed && guarded_by_confirmation selected false t'
      else guarded_by_confirmation selected confirmed t'
  | _ :: t' => guarded_by_confirmation selected confirmed t'
  end.

Definition is_add_comment (r : Request) : bool :=
  match r with AddComment _ _ => true | _ => false end.

Definition is_delete_comment (r : Request) : bool :=
  match r with DeleteComment _ => true | _ => false end.

Definition is_confirmation (a : Action) : bool :=
  match a with AConfirm _ _ => true | _ => false end.

(** The contract of a mutation handler [h] whose awaited call is [r]: when
    the server rejects the call, the run ends in the state it started from,
    and either nothing was sent (a local guard stopped the handler) or the
    rejected call is the only request and the run ends with an error
    toast. *)
Definition atomic_on_failure {Sigma S} (w : World Sigma) (sigma : Sigma)
    (r : S -> Request) (h : S -> Prog S) : Prop :=
  forall s : S,
    rejects w (r s) sigma ->
    final (run w (h s) sigma) = s /\
    (requests (trace (run w (h s) sigma)) = [] \/
     (requests (trace (run w (h s) sigma)) = [r s] /\
      exists msg,
        last (trace (run w (h s) sigma)) = Some (ANotice (toast_error msg)))).

(** A world in which the user accepts every confirmation and the server
    refuses every call. *)
Definition refusing_world : World unit :=
  mkWorld (fun _ => true) 0%Z (fun r sigma => (Failed None, sigma)).

(** ** Vocabulary of the properties *)

(** [a] does not come after [b] in the order of the keys, both keys being
    numbers. *)
Definition key_le {A} (key : A -> option Z) (a b : A) : Prop :=
  exists x y, key a = Some x /\ key b = Some y /\ (x <= y)%Z.

(** [event]'s end date is a valid date strictly after [now]. *)
Definition ends_after (now : Z) (event : Event.t) : Prop :=
  exists t, Event.end_date event = Some t /\ (now < t)%Z.

(** The order "starts no later than" on events with valid start dates. *)
Definition starts_no_later : Event.t -> Event.t -> Prop :=
  key_le Event.start_date.

(** The events kept by the filter of the derivation. *)
Definition still_running (now : Z) (data : list Event.t) : list Event.t :=
  List.filter (fun e => JS.date_gt (Event.end_date e) (Some now)) data.

(** The number of entries of a roster whose status is "attending". *)
Fixpoint count_attending (roster : list Attendance.t) : nat :=
  match roster with
  | [] => O
  | a :: rest =>
      match Attendance.status a with
      | attending => S (count_attending rest)
      | maybe | not_attending => count_attending rest
      end
  end.

(** The first entry of the user [uid] in a roster, if there is one. *)
Fixpoint entry_of (uid : Id) (roster : list Attendance.t) : option Attendance.t :=
  match roster with
  | [] => None
  | a :: rest =>
      if decide (Attendance.user_id a = uid) then Some a else entry_of uid rest
  end.

(** An input of the profile form shows an optional field of the user: the
    field's text, or the empty text when the user has no such field. *)
Definition shows (field : option JS.jsstring) (input : JS.jsstring) : Prop :=
  match field with
  | Some text => input = text
  | None => input = []
  end.

(** The form [f] is filled from the fields of the user [u]. *)
Definition filled_from (u : User.t) (f : ProfileForm.t) : Prop :=
  ProfileForm.name f = User.name u /\
  shows (User.avatar u) (ProfileForm.avatar f) /\
  shows (User.bio u) (ProfileForm.bio f) /\
  shows (User.position u) (ProfileForm.position f) /\
  shows (User.phone u) (ProfileForm.phone f) /\
  shows (User.location u) (ProfileForm.location f).

(** The view of [post] and the server agree, and nobody but [u] likes the
    post. *)
Definition in_lockstep (post : Post.t) (u : Id) (s : PostView.State)
    (db : gmap Id (gset Id)) : Prop :=
  exists likes : gset Id,
    db !! Post.id post = Some likes /\
    likes ⊆ {[u]} /\
    PostView.liked s = bool_decide (u ∈ likes) /\
    PostView.likesCount s = Z.of_nat (size likes).

(** "the other of the two roles" *)
Definition other_role (r : Role) : Role :=
  match r with
  | admin => member
  | member => admin
  end.

(** [u'] is [u] with at most the role changed. *)
Definition same_but_role (u u' : User.t) : Prop :=
  User.id u' = User.id u /\ User.name u' = User.name u /\
  User.email u' = User.email u /\ User.avatar u' = User.avatar u /\
  User.bio u' = User.bio u /\ User.position u' = User.position u /\
  User.phone u' = User.phone u /\ User.location u' = User.location u /\
  User.created_at u' = User.created_at u.

(** The draft is blank: empty, or made of whitespace only. *)
Definition blank (content : JS.jsstring) : Prop :=
  Forall (fun c => JS.is_whitespace c = true) content.

(** [event] starts at the time value [k]. *)
Definition starts_at (k : Z) (event : Event.t) : bool :=
  match Event.start_date event with
  | Some x => (x =? k)%Z
  | None => false
  end.

(** By how much the displayed comment count exceeds the length of the
    loaded thread. *)
Definition count_offset (s : PostView.State) : Z :=
  (PostView.commentsCount s - Z.of_nat (length (PostView.comments s)))%Z.

(** [after] is [before] without the entries whose id is [target]: the
    same entries in the same order, none with that id, no other missing. *)
Definition removed_by_id {A} (id : A -> Id) (target : Id) (before after : list A)
  : Prop :=
  sublist after before /\
  forall x, x ∈ after <-> x ∈ before /\ id x <> target.

(** The user triggers the handler [h] again on the state its first run
    rendered. *)
Definition resubmission {Sigma S} (w : World Sigma) (sigma : Sigma)
    (h : S -> Prog S) (s : S) : Outcome Sigma S :=
  run w (h (final (run w (h s) sigma))) (server_state (run w (h s) sigma)).

(** The headers of a request that carries [token] as bearer credential. *)
Definition bearer (token : string) : gmap string string :=
  {["Authorization" := "Bearer " +:+ token]}.

(** ** Sample data *)

Module Sample.

Definition event (id : Id) (start finish : Z) : Event.t :=
  Event.mk id (JS.lit id) [] [] (Some start) (Some finish) "general".

(** Six events ending at [now - 1], [now + 1], ..., [now + 5] for
    [now = 100], listed latest start first. *)
Definition events : list Event.t :=
  [event "e0" 60 99; event "e1" 50 101; event "e2" 40 102;
   event "e3" 30 103; event "e4" 20 104; event "e5" 10 105].

(** Six events that end after time 0; those named by a letter start at the
    same time, after the others. *)
Definition tied : list Event.t :=
  [event "a" 7 9; event "1" 1 9; event "b" 7 9; event "2" 2 9; event "c" 7 9;
   event "3" 3 9].

(** Three events that end after time 0; the start date of the second is
    not a valid date. *)
Definition undated : list Event.t :=
  [Event.mk "M" (JS.lit "M") [] [] (Some 5%Z) (Some 9%Z) "general";
   Event.mk "n" (JS.lit "n") [] [] None (Some 9%Z) "general";
   Event.mk "e" (JS.lit "e") [] [] (Some 3%Z) (Some 9%Z) "general"].

Definition user (id : Id) (r : Role) : User.t :=
  User.mk id (JS.lit id) (JS.lit "x@example.org") r None None None None None
    "2024-01-01T00:00:00".

(** A user with a biography and a phone number, and no avatar. *)
Definition ana : User.t :=
  User.mk "u1" (JS.lit "Ana") (JS.lit "ana@example.org") member None
    (Some (JS.lit "Gaiteira")) None (Some (JS.lit "600")) None
    "2024-01-01T00:00:00".

Definition post (id : Id) (likes : list Id) : Post.t :=
  Post.mk id "u1" (JS.lit "Ana") None (JS.lit "Ola") None "general"
    "2024-01-01T00:00:00" (Some likes).

Definition comment (id : Id) : Comment.t :=
  Comment.mk id "p1" "u1" (JS.lit "Ana") None (JS.lit "Parabens").

Definition attendance (id user : Id) (st : Status) : Attendance.t :=
  Attendance.mk id "e1" user (JS.lit user) st.

(** A server that accepts every call, answering with fixed records. *)
Definition accepting_world : World unit :=
  mkWorld (fun _ => true) 100%Z
    (fun r =>
       match r return unit -> Response (Resp r) * unit with
       | GetPosts _ => fun u => (Ok [post "p1" []], u)
       | CreatePost body =>
           fun u =>
             (Ok (Post.mk "p9" "u1" (JS.lit "Ana") None (NewPost.content body)
                    None (NewPost.category body) "2024-01-02T00:00:00" (Some [])),
              u)
       | LikePost _ => fun u => (Ok 1%Z, u)
       | GetComments _ => fun u => (Ok [], u)
       | AddComment p c =>
           fun u => (Ok (Comment.mk "c9" p "u1" (JS.lit "Ana") None c), u)
       | GetAnnouncements => fun u => (Ok [], u)
       | CreateAnnouncement body =>
           fun u =>
             (Ok (Announcement.mk "a9" (NewAnnouncement.title body)
                    (NewAnnouncement.content body)
                    (NewAnnouncement.category body) (JS.lit "Ana")
                    "2024-01-02T00:00:00"),
              u)
       | GetEvents => fun u => (Ok events, u)
       | CreateEvent body =>
           fun u =>
             (Ok (Event.mk "e9" (NewEvent.title body) (NewEvent.description body)
                    (NewEvent.location body) None None (NewEvent.category body)),
              u)
       | GetAttendances _ =>
           fun u =>
             (Ok [attendance "a1" "u1" attending; attendance "a2" "u2" maybe], u)
       | GetStats => fun u => (Ok (Stats.mk 2 1 6 0), u)
       | GetUsers => fun u => (Ok [user "u1" admin; user "u2" member], u)
       | PutProfile body =>
           fun u =>
             (Ok (User.mk "u1" (ProfileForm.name body) (JS.lit "x@example.org")
                    member None None None None None "2024-01-01T00:00:00"),
              u)
       | GetUser id => fun u => (Ok (user id member), u)
       | DeletePost _ | DeleteComment _ | DeleteAnnouncement _ | DeleteEvent _
       | Attend _ _ | DeleteUser _ | PutRole _ _ => fun u => (Ok tt, u)
       end).

(** View states used to evaluate the handlers. *)

Definition feed : Feed.State :=
  Feed.mk [post "p1" []; post "p2" ["u2"]; post "p3" []] [] false true
    (NewPost.mk (JS.lit "Ola a todos") [] "general") "all".

Definition feed_blank_draft : Feed.State :=
  Feed.setNewPost (NewPost.mk [32; 9; 160]%N [] "general") feed.

Definition thread : PostView.State :=
  PostView.mk false 0 true [comment "c1"] 1 (JS.lit "Moi ben") false.

Definition roster : AdminPanel.State :=
  AdminPanel.mk None [user "u1" admin; user "u2" member; user "u3" member] false.

Definition calendar : Events.State :=
  Events.mk events false false (Some (event "e1" 50 101))
    [attendance "a2" "u2" maybe] NewEvent.blank.

Definition likes_db : gmap Id (gset Id) := {["p1" := ∅]}.

(** The thread of a post without comments, after the user opened it
    once: the first load answered with the empty list. *)
Definition loaded_empty_thread : PostView.State :=
  final (run accepting_world
           (PostView.fetchComments (post "p1" []) (PostView.initial (post "p1" [])))
           tt).

End Sample.

(** * Properties *)

(** ** Proof automation for handler runs *)

Create HintDb handlers.
#[local] Hint Unfold
  Feed.handleCreatePost Feed.handleDeletePost
  PostView.handleLike PostView.handleComment PostView.handleDeleteComment
  Announcements.handleCreateAnnouncement Announcements.handleDeleteAnnouncement
  Events.handleCreateEvent Events.handleDeleteEvent Events.handleAttendance
  AdminPanel.handleDeleteUser AdminPanel.handleToggleRole
  Profile.handleSaveProfile : handlers.

(** Decide the local guards of a handler, one branch at a time. *)
Ltac split_guards :=
  repeat match goal with
         | |- context [run _ (if ?b then _ else _) _] =>
             lazymatch type of b with
             | bool => destruct b eqn:?; simpl
             end
         end.

(** The rejected call of the running handler. *)
Ltac use_rejection H :=
  match goal with
  | |- context [serve ?w ?r ?sigma] =>
      let resp := fresh "resp" in
      let sigma' := fresh "sigma'" in
      destruct (serve w r sigma) as [resp sigma']; simpl in H; subst resp; simpl
  end.

Ltac rejected_handler :=
  intros s [detail Hrej]; autounfold with handlers; simpl; split_guards;
  try use_rejection Hrej;
  (split; [reflexivity|]);
  first [left; reflexivity | right; split; [reflexivity|eexists; reflexivity]].

(** ** Strings *)

Section StringFacts.
Import JS.

Lemma join_empty_cons (x : option jsstring) (arr : list (option jsstring)) :
  join [] (x :: arr) = default [] x ++ join [] arr.
Proof.
  destruct arr as [|y arr]; simpl; [now rewrite app_nil_r|reflexivity].
Qed.

(** Joining the first characters of the fields: an empty field has no
    [n[0]] and contributes nothing. *)
Lemma join_index0 (ws : list jsstring) :
  join [] (List.map (fun n => index0 n) ws) = mjoin (List.map (take 1) ws).
Proof.
  induction ws as [|w ws IH]; [reflexivity|].
  cbn [List.map]. rewrite join_empty_cons, IH.
  destruct w as [|c w]; reflexivity.
Qed.

Lemma split_nonempty (sep : N) (s : jsstring) : split sep s <> [].
Proof.
  destruct s as [|c s]; simpl; [discriminate|].
  destruct (c =? sep)%N; [discriminate|].
  destruct (split sep s); discriminate.
Qed.

(** The first characters of the fields of [split] are the word initials.
    The second part is the invariant inside a word: the first field then
    continues the current word and opens none. *)
Lemma split_word_initials (s : jsstring) :
  mjoin (List.map (take 1) (split 32 s))
  = word_initials (fun c => (c =? 32)%N) true s /\
  (forall w ws,
     split 32 s = w :: ws ->
     mjoin (List.map (take 1) ws) = word_initials (fun c => (c =? 32)%N) false s).
Proof.
  induction s as [|c s [IHa IHb]]; simpl.
  - split; [reflexivity|]. now intros w ws [= <- <-].
  - destruct (c =? 32)%N.
    + split; [exact IHa|]. now intros w ws [= <- <-].
    + destruct (split 32 s) as [|w' ws'] eqn:E.
      * destruct (split_nonempty 32 s E).
      * split.
        -- simpl. f_equal. now apply (IHb w' ws').
        -- intros w ws [= <- <-]. now apply (IHb w' ws').
Qed.

Lemma substring_0 (n : nat) (s : jsstring) : substring 0 n s = take n s.
Proof. unfold substring. simpl. now rewrite Nat.sub_0_r. Qed.

Lemma trimStart_blank (s : jsstring) :
  trimStart s = [] <-> Forall (fun c => is_whitespace c = true) s.
Proof.
  induction s as [|c s IH]; simpl.
  - split; auto.
  - destruct (is_whitespace c) eqn:E.
    + rewrite IH. split; [now constructor|now inversion 1].
    + split; [discriminate|]. inversion 1; congruence.
Qed.

Lemma trimStart_head (s : jsstring) c t :
  trimStart s = c :: t -> is_whitespace c = false.
Proof.
  induction s as [|d s IH]; simpl; [discriminate|].
  destruct (is_whitespace d) eqn:E; [exact IH|].
  intros [= -> _]. exact E.
Qed.

(** [s.trim()] is empty exactly for the blank strings: the empty one and
    those made of whitespace only. *)
Lemma trim_blank (s : jsstring) :
  truthy (trim s) = false <-> Forall (fun c => is_whitespace c = true) s.
Proof.
  unfold trim, trimEnd. split.
  - intros H. apply trimStart_blank.
    destruct (rev (trimStart (rev (trimStart s)))) eqn:E; [|discriminate].
    apply (f_equal (@rev N)) in E. rewrite rev_involutive in E. simpl in E.
    apply trimStart_blank in E.
    destruct (trimStart s) as [|c t] eqn:Et; [reflexivity|].
    apply trimStart_head in Et.
    rewrite Forall_forall in E.
    assert (Hc : is_whitespace c = true).
    { apply E. apply list_elem_of_In, in_rev. rewrite rev_involutive.
      now left. }
    congruence.
  - intros H. apply trimStart_blank in H. rewrite H. reflexivity.
Qed.

End StringFacts.

(** ** Avatar initials *)

Example getInitials_two_words :
  JS.getInitials JS.ascii_toUpperCase (JS.lit "ana maria lopez") = JS.lit "AM".
Proof. reflexivity. Qed.

Example getInitials_empty : JS.getInitials JS.ascii_toUpperCase [] = [].
Proof. reflexivity. Qed.

Example getInitials_single_word :
  JS.getInitials JS.ascii_toUpperCase (JS.lit "xoan") = JS.lit "X".
Proof. reflexivity. Qed.

Example getInitials_consecutive_spaces :
  JS.getInitials JS.ascii_toUpperCase (JS.lit " a   b c") = JS.lit "AB".
Proof. reflexivity. Qed.

(** C10, as stated, fails on a name whose words are separated by a tab
    (U+0009): [split(' ')] cuts at U+0020 only, so "a<TAB>b" is one word and
    its initials are "A", whereas its whitespace-separated words are "a" and
    "b", with initials "AB". *)
Lemma getInitials_tab_separated_words :
  JS.getInitials JS.ascii_toUpperCase [97; 9; 98]%N = [65]%N /\
  JS.initials_of_whitespace_words JS.ascii_toUpperCase [97; 9; 98]%N = [65; 66]%N.
Proof. split; reflexivity. Qed.

(** C10 (amended): for every string [name] and every upper-casing of the
    host, [getInitials] is defined, returns at most 2 code units, and
    returns the upper-cased first characters of the words of [name]
    separated by the space character U+0020 (consecutive spaces separate
    no word), taken in order and truncated to 2. *)
Theorem getInitials_space_words :
  forall (toUpperCase : JS.jsstring -> JS.jsstring) (name : JS.jsstring),
    (length (JS.getInitials toUpperCase name) <= 2)%nat /\
    JS.getInitials toUpperCase name = JS.initials_of_space_words toUpperCase name.
Proof.
  intros toUpperCase name. unfold JS.getInitials. rewrite substring_0. split.
  - rewrite length_take. lia.
  - unfold JS.initials_of_space_words.
    now rewrite join_index0, (proj1 (split_word_initials name)).
Qed.

(** ** Upcoming events *)

Section SortFacts.
Context {A : Type}.
Variable key : A -> option Z.

Let comparefn (a b : A) : option Z := JS.date_sub (key a) (key b).

Lemma sort_insert_perm (cmp : A -> A -> option Z) (x : A) (l : list A) :
  JS.stable_insert cmp x l ≡ₚ x :: l.
Proof.
  induction l as [|y l IH]; simpl; [reflexivity|].
  destruct (JS.SortCompare cmp x y <=? 0)%Z; [reflexivity|].
  rewrite IH. apply perm_swap.
Qed.

Lemma sort_perm (cmp : A -> A -> option Z) (l : list A) : JS.stable_sort cmp l ≡ₚ l.
Proof.
  induction l as [|x l IH]; simpl; [reflexivity|].
  now rewrite sort_insert_perm, IH.
Qed.

Lemma SortCompare_valid (a b : A) x y :
  key a = Some x -> key b = Some y ->
  JS.SortCompare comparefn a b = (x - y)%Z.
Proof.
  intros Ha Hb. unfold JS.SortCompare, comparefn, JS.date_sub.
  now rewrite Ha, Hb.
Qed.

Lemma sort_insert_sorted (x : A) (l : list A) :
  is_Some (key x) -> Forall (fun a => is_Some (key a)) l ->
  StronglySorted (key_le key) l ->
  StronglySorted (key_le key) (JS.stable_insert comparefn x l).
Proof.
  intros [kx Hx] Hl Hs. induction Hs as [|y l Hs IH Hy]; simpl.
  - repeat constructor.
  - inversion Hl as [|? ? [ky Hky] Hl']; subst.
    rewrite (SortCompare_valid x y kx ky Hx Hky).
    destruct (Z.leb_spec (kx - ky) 0) as [Hle|Hgt].
    + constructor; [now constructor|].
      constructor.
      * exists kx, ky. repeat split; auto; lia.
      * eapply Forall_impl; [exact Hy|].
        intros a (u & v & Hu & Hv & Huv). exists kx, v.
        rewrite Hky in Hu. injection Hu as <-.
        repeat split; auto; lia.
    + constructor; [now apply IH|].
      apply Forall_forall. intros a Ha.
      apply list_elem_of_In in Ha.
      apply (Permutation_in _ (sort_insert_perm comparefn x l)) in Ha.
      destruct Ha as [<-|Ha].
      * exists ky, kx. repeat split; auto; lia.
      * rewrite Forall_forall in Hy. apply Hy. now apply list_elem_of_In.
Qed.

Lemma sort_sorted (l : list A) :
  Forall (fun a => is_Some (key a)) l ->
  StronglySorted (key_le key) (JS.stable_sort comparefn l).
Proof.
  induction 1 as [|x l Hx Hl IH]; simpl; [constructor|].
  apply sort_insert_sorted; auto.
  apply Forall_forall. intros a Ha. apply list_elem_of_In in Ha.
  apply (Permutation_in _ (sort_perm comparefn l)) in Ha.
  rewrite Forall_forall in Hl. apply Hl. now apply list_elem_of_In.
Qed.

(** The difference of valid keys is a consistent comparator. *)
Lemma date_comparator_consistent (l : list A) :
  Forall (fun a => is_Some (key a)) l -> JS.consistent comparefn l.
Proof.
  intros Hvalid. rewrite Forall_forall in Hvalid.
  unfold JS.consistent, JS.SortCompare, comparefn, JS.date_sub.
  split; [|split; [|split; [|split; [|split]]]].
  - intros a b Ha Hb. destruct (Hvalid a Ha) as [x ->], (Hvalid b Hb) as [y ->]. eauto.
  - intros a Ha. destruct (Hvalid a Ha) as [x ->]. simpl. lia.
  - intros a b Ha Hb. destruct (Hvalid a Ha) as [x ->], (Hvalid b Hb) as [y ->].
    simpl. lia.
  - intros a b c Ha Hb Hc.
    destruct (Hvalid a Ha) as [x ->], (Hvalid b Hb) as [y ->], (Hvalid c Hc) as [z ->].
    simpl. lia.
  - intros a b c Ha Hb Hc.
    destruct (Hvalid a Ha) as [x ->], (Hvalid b Hb) as [y ->], (Hvalid c Hc) as [z ->].
    simpl. lia.
  - intros a b c Ha Hb Hc.
    destruct (Hvalid a Ha) as [x ->], (Hvalid b Hb) as [y ->], (Hvalid c Hc) as [z ->].
    simpl. lia.
Qed.

End SortFacts.

Lemma date_gt_ends_after (now : Z) (event : Event.t) :
  JS.date_gt (Event.end_date event) (Some now) = true <-> ends_after now event.
Proof.
  unfold ends_after, JS.date_gt. destruct (Event.end_date event) as [t|].
  - rewrite Z.ltb_lt. split; [eauto|]. now intros (? & [= <-] & ?).
  - split; [discriminate|]. now intros (? & ? & ?).
Qed.

Lemma still_running_elem (now : Z) (data : list Event.t) (e : Event.t) :
  e ∈ still_running now data <-> e ∈ data /\ ends_after now e.
Proof.
  unfold still_running.
  rewrite !list_elem_of_In, filter_In, date_gt_ends_after. reflexivity.
Qed.

(** On events with valid start dates the comparator of the derivation is
    consistent, so every engine arranges them as the stable sort does. *)
Lemma sort_by_valid_start_dates
    (sort : (Event.t -> Event.t -> option Z) -> list Event.t -> list Event.t)
    (l : list Event.t) :
  JS.sort_contract sort ->
  Forall (fun e => is_Some (Event.start_date e)) l ->
  sort (fun a b => JS.date_sub (Event.start_date a) (Event.start_date b)) l
  = JS.stable_sort (fun a b => JS.date_sub (Event.start_date a) (Event.start_date b)) l.
Proof.
  intros [_ Hstable] Hvalid. apply Hstable.
  now apply (date_comparator_consistent Event.start_date).
Qed.

Lemma upcomingEvents_sorted_prefix
    (sort : (Event.t -> Event.t -> option Z) -> list Event.t -> list Event.t)
    (now : Z) (data : list Event.t) :
  JS.sort_contract sort ->
  exists arranged,
    arranged ≡ₚ still_running now data /\
    Feed.upcomingEvents sort now data = take 5 arranged /\
    (Forall (fun e => is_Some (Event.start_date e)) (still_running now data) ->
     StronglySorted starts_no_later arranged).
Proof.
  intros Hsort. eexists. split; [apply (proj1 Hsort)|]. split; [reflexivity|].
  intros Hvalid. fold (still_running now data).
  rewrite (sort_by_valid_start_dates sort _ Hsort Hvalid).
  apply sort_sorted. exact Hvalid.
Qed.

Lemma upcomingEvents_elem
    (sort : (Event.t -> Event.t -> option Z) -> list Event.t -> list Event.t)
    (now : Z) (data : list Event.t) (e : Event.t) :
  JS.sort_contract sort ->
  e ∈ Feed.upcomingEvents sort now data -> e ∈ data /\ ends_after now e.
Proof.
  intros Hsort. unfold Feed.upcomingEvents, JS.slice. intros He.
  apply elem_of_take in He. destruct He as (i & He & _).
  apply list_elem_of_lookup_2, list_elem_of_In in He.
  apply (Permutation_in _ (proj1 Hsort _ _)) in He.
  apply filter_In in He. destruct He as [He Hend].
  split; [now apply list_elem_of_In|now apply date_gt_ends_after].
Qed.

Lemma upcomingEvents_length
    (sort : (Event.t -> Event.t -> option Z) -> list Event.t -> list Event.t)
    (now : Z) (data : list Event.t) :
  (length (Feed.upcomingEvents sort now data) <= 5)%nat.
Proof. unfold Feed.upcomingEvents, JS.slice. rewrite length_take. lia. Qed.

Lemma fetchUpcomingEvents_resolved {Sigma}
    (sort : (Event.t -> Event.t -> option Z) -> list Event.t -> list Event.t)
    (w : World Sigma) sigma s data :
  resolves w GetEvents sigma data ->
  Feed.events (final (run w (Feed.fetchUpcomingEvents sort s) sigma))
  = Feed.upcomingEvents sort (clock w) data.
Proof. unfold resolves. simpl. intros ->. reflexivity. Qed.

Lemma stable_sort_contract {A} : JS.sort_contract (@JS.stable_sort A).
Proof. split; [intros cmp arr; apply sort_perm|reflexivity]. Qed.

(** In a sorted list of two or more events every start date is valid. *)
Lemma sorted_starts_valid (l : list Event.t) :
  StronglySorted starts_no_later l -> (2 <= length l)%nat ->
  Forall (fun e => is_Some (Event.start_date e)) l.
Proof.
  intros Hs Hlen. destruct Hs as [|x t Hs Hx]; [simpl in Hlen; lia|].
  destruct t as [|y t]; [simpl in Hlen; lia|].
  constructor.
  - inversion Hx as [|? ? (a & b & Ha & _) _]; subst. eauto.
  - eapply Forall_impl; [exact Hx|]. intros z (a & b & _ & Hb & _). eauto.
Qed.

(** Whatever the engine, the three events of [Sample.undated] are all
    shown and no arrangement of them is in ascending order of start date:
    one of them has no start date to compare. *)
Lemma undated_never_sorted
    (sort : (Event.t -> Event.t -> option Z) -> list Event.t -> list Event.t) :
  JS.sort_contract sort ->
  ~ StronglySorted starts_no_later (Feed.upcomingEvents sort 0 Sample.undated).
Proof.
  intros Hsort Hs.
  assert (Hperm : Feed.upcomingEvents sort 0 Sample.undated ≡ₚ Sample.undated).
  { pose proof (proj1 Hsort
                  (fun a b => JS.date_sub (Event.start_date a) (Event.start_date b))
                  Sample.undated) as Hp.
    change (Feed.upcomingEvents sort 0 Sample.undated)
      with (take 5 (sort (fun a b => JS.date_sub (Event.start_date a) (Event.start_date b))
                      Sample.undated)).
    rewrite take_ge; [exact Hp|].
    rewrite (Permutation_length Hp). vm_compute. lia. }
  apply sorted_starts_valid in Hs;
    [|rewrite (Permutation_length Hperm); simpl; lia].
  rewrite Hperm in Hs. inversion Hs as [|? ? _ Hrest]; subst.
  inversion Hrest as [|? ? [v Hv] _]; subst. discriminate Hv.
Qed.

(** C1, as stated, fails on a list with an invalid start date: the
    comparator of the sort returns NaN on it, and the three events of
    [Sample.undated], which all end after time 0, are shown in an order
    that is not ascending. An engine that sorts stably by insertion leaves
    them as fetched, with start dates 5, NaN, 3; and with any engine the
    list shown is not sorted. *)
Lemma upcoming_events_unsorted_on_invalid_start :
  JS.sort_contract (@JS.stable_sort Event.t) /\
  still_running 0 Sample.undated = Sample.undated /\
  Feed.upcomingEvents JS.stable_sort 0 Sample.undated = Sample.undated /\
  List.map Event.start_date (Feed.upcomingEvents JS.stable_sort 0 Sample.undated)
  = [Some 5%Z; None; Some 3%Z] /\
  ~ StronglySorted starts_no_later
      (Feed.upcomingEvents JS.stable_sort 0 Sample.undated) /\
  (forall sort,
     JS.sort_contract sort ->
     ~ StronglySorted starts_no_later (Feed.upcomingEvents sort 0 Sample.undated)).
Proof.
  split; [apply stable_sort_contract|]. split; [reflexivity|].
  split; [reflexivity|]. split; [reflexivity|].
  split; [apply undated_never_sorted, stable_sort_contract|].
  apply undated_never_sorted.
Qed.

(** C1 (amended): for every list of fetched events, every current time and
    every engine, the upcoming-events derivation returns the first 5 of an
    arrangement of exactly the events whose end date is strictly after
    now, and that arrangement is in ascending order of start date whenever
    the start dates of those events are valid dates; the sidebar state
    receives that list. In the scenario of the specification (end times
    now-1, now+1, ..., now+5, valid start dates) exactly the 5 events
    ending after now are shown, in ascending order of start time. *)
Theorem upcoming_events_derivation :
  forall (sort : (Event.t -> Event.t -> option Z) -> list Event.t -> list Event.t),
    JS.sort_contract sort ->
    (forall (now : Z) (data : list Event.t),
       (forall e, e ∈ still_running now data <-> e ∈ data /\ ends_after now e) /\
       (exists arranged,
          arranged ≡ₚ still_running now data /\
          Feed.upcomingEvents sort now data = take 5 arranged /\
          (Forall (fun e => is_Some (Event.start_date e)) (still_running now data) ->
           StronglySorted starts_no_later arranged)) /\
       (length (Feed.upcomingEvents sort now data) <= 5)%nat /\
       (forall Sigma (w : World Sigma) sigma s,
          now = clock w -> resolves w GetEvents sigma data ->
          Feed.events (final (run w (Feed.fetchUpcomingEvents sort s) sigma))
          = Feed.upcomingEvents sort now data)) /\
    (forall (now : Z) (e0 e1 e2 e3 e4 e5 : Event.t),
       Event.end_date e0 = Some (now - 1)%Z ->
       Event.end_date e1 = Some (now + 1)%Z ->
       Event.end_date e2 = Some (now + 2)%Z ->
       Event.end_date e3 = Some (now + 3)%Z ->
       Event.end_date e4 = Some (now + 4)%Z ->
       Event.end_date e5 = Some (now + 5)%Z ->
       Forall (fun e => is_Some (Event.start_date e)) [e1; e2; e3; e4; e5] ->
       Feed.upcomingEvents sort now [e0; e1; e2; e3; e4; e5] ≡ₚ [e1; e2; e3; e4; e5] /\
       StronglySorted starts_no_later
         (Feed.upcomingEvents sort now [e0; e1; e2; e3; e4; e5])).
Proof.
  intros sort Hsort. split.
  - intros now data.
    split; [intros e; apply still_running_elem|].
    split; [now apply upcomingEvents_sorted_prefix|].
    split; [apply upcomingEvents_length|].
    intros Sigma w sigma s -> Hres. now apply fetchUpcomingEvents_resolved.
  - intros now e0 e1 e2 e3 e4 e5 H0 H1 H2 H3 H4 H5 Hvalid.
    assert (Hrun : still_running now [e0; e1; e2; e3; e4; e5] = [e1; e2; e3; e4; e5]).
    { unfold still_running. simpl. rewrite H0, H1, H2, H3, H4, H5. simpl.
      rewrite (proj2 (Z.ltb_ge _ _)) by lia.
      rewrite !(proj2 (Z.ltb_lt _ _)) by lia. reflexivity. }
    assert (Hup : Feed.upcomingEvents sort now [e0; e1; e2; e3; e4; e5]
                  = JS.stable_sort
                      (fun a b => JS.date_sub (Event.start_date a) (Event.start_date b))
                      [e1; e2; e3; e4; e5]).
    { unfold Feed.upcomingEvents, JS.slice. fold (still_running now [e0; e1; e2; e3; e4; e5]).
      rewrite Hrun, (sort_by_valid_start_dates sort _ Hsort Hvalid).
      simpl drop. apply take_ge.
      rewrite (Permutation_length (sort_perm _ _)). simpl. lia. }
    rewrite Hup. split; [apply sort_perm|].
    apply sort_sorted. exact Hvalid.
Qed.

Lemma upcoming_events_derivation_witness :
  JS.sort_contract (@JS.stable_sort Event.t) /\
  (Event.end_date (Sample.event "e0" 60 99) = Some (100 - 1)%Z /\
   Event.end_date (Sample.event "e1" 50 101) = Some (100 + 1)%Z /\
   Event.end_date (Sample.event "e2" 40 102) = Some (100 + 2)%Z /\
   Event.end_date (Sample.event "e3" 30 103) = Some (100 + 3)%Z /\
   Event.end_date (Sample.event "e4" 20 104) = Some (100 + 4)%Z /\
   Event.end_date (Sample.event "e5" 10 105) = Some (100 + 5)%Z) /\
  Forall (fun e => is_Some (Event.start_date e))
    [Sample.event "e1" 50 101; Sample.event "e2" 40 102; Sample.event "e3" 30 103;
     Sample.event "e4" 20 104; Sample.event "e5" 10 105] /\
  Feed.upcomingEvents JS.stable_sort 100 Sample.events
  = [Sample.event "e5" 10 105; Sample.event "e4" 20 104; Sample.event "e3" 30 103;
     Sample.event "e2" 40 102; Sample.event "e1" 50 101] /\
  StronglySorted starts_no_later (Feed.upcomingEvents JS.stable_sort 100 Sample.events).
Proof.
  assert (Hvalid : Forall (fun e => is_Some (Event.start_date e))
                     [Sample.event "e1" 50 101; Sample.event "e2" 40 102;
                      Sample.event "e3" 30 103; Sample.event "e4" 20 104;
                      Sample.event "e5" 10 105]).
  { repeat constructor; eexists; reflexivity. }
  split; [apply stable_sort_contract|].
  split; [repeat split|]. split; [exact Hvalid|]. split; [reflexivity|].
  exact (proj2 (proj2 (upcoming_events_derivation JS.stable_sort stable_sort_contract)
                  100%Z
                  (Sample.event "e0" 60 99) (Sample.event "e1" 50 101)
                  (Sample.event "e2" 40 102) (Sample.event "e3" 30 103)
                  (Sample.event "e4" 20 104) (Sample.event "e5" 10 105)
                  eq_refl eq_refl eq_refl eq_refl eq_refl eq_refl Hvalid)).
Defined.

(** ** Like toggle *)

Lemma handleLike_outcome {Sigma} (w : World Sigma) sigma (post : Post.t)
    (s : PostView.State) :
  final (run w (PostView.handleLike post s) sigma)
  = match fst (serve w (LikePost (Post.id post)) sigma) with
    | Ok count =>
        PostView.setLiked (negb (PostView.liked s)) (PostView.setLikesCount count s)
    | Failed _ => s
    end.
Proof.
  simpl. destruct (serve w (LikePost (Post.id post)) sigma) as [[count|d] sigma'];
    reflexivity.
Qed.

Lemma handleLike_server_state {Sigma} (w : World Sigma) sigma (post : Post.t)
    (s : PostView.State) :
  server_state (run w (PostView.handleLike post s) sigma)
  = snd (serve w (LikePost (Post.id post)) sigma).
Proof.
  simpl. destruct (serve w (LikePost (Post.id post)) sigma) as [[count|d] sigma'];
    reflexivity.
Qed.

Section SingleUserLikes.

Variable post : Post.t.
Variable u : Id.

Lemma toggle_membership_single (likes : gset Id) :
  likes ⊆ {[u]} ->
  toggle_membership u likes ⊆ {[u]} /\
  bool_decide (u ∈ toggle_membership u likes) = negb (bool_decide (u ∈ likes)).
Proof.
  intros Hsub. unfold toggle_membership.
  destruct (decide (u ∈ likes)) as [Hin|Hout].
  - split.
    + intros x Hx. apply elem_of_difference in Hx as [Hx _]. exact (Hsub x Hx).
    + rewrite (bool_decide_eq_true_2 _ Hin).
      apply bool_decide_eq_false_2.
      rewrite elem_of_difference, elem_of_singleton. intros [_ Hne]. now apply Hne.
  - split.
    + intros x Hx. apply elem_of_union in Hx as [Hx|Hx]; [exact (Hsub x Hx)|exact Hx].
    + rewrite (bool_decide_eq_false_2 _ Hout).
      apply bool_decide_eq_true_2, elem_of_union_r, elem_of_singleton. reflexivity.
Qed.

Lemma single_user_size (likes : gset Id) :
  likes ⊆ {[u]} ->
  Z.odd (Z.of_nat (size likes)) = bool_decide (u ∈ likes).
Proof.
  intros Hsub. destruct (decide (u ∈ likes)) as [Hin|Hout].
  - assert (Heq : likes = {[u]}).
    { apply set_eq. intros x. split; [apply Hsub|].
      intros Hx. apply elem_of_singleton in Hx. now subst x. }
    rewrite (bool_decide_eq_true_2 _ Hin), Heq, size_singleton.
    reflexivity.
  - assert (Heq : likes = ∅).
    { apply set_eq. intros x. split; [|intros Hx; now apply not_elem_of_empty in Hx].
      intros Hx. exfalso. apply Hout.
      pose proof (Hsub x Hx) as Hu. apply elem_of_singleton in Hu. now subst x. }
    rewrite (bool_decide_eq_false_2 _ Hout), Heq, size_empty.
    reflexivity.
Qed.

Lemma handleLike_lockstep (s : PostView.State) (db : gmap Id (gset Id)) :
  in_lockstep post u s db ->
  in_lockstep post u (final (run (like_server u) (PostView.handleLike post s) db))
    (server_state (run (like_server u) (PostView.handleLike post s) db)) /\
  PostView.liked (final (run (like_server u) (PostView.handleLike post s) db))
  = negb (PostView.liked s).
Proof.
  intros (likes & Hdb & Hsub & Hliked & Hcount).
  rewrite handleLike_outcome, handleLike_server_state. simpl.
  unfold like_endpoint. rewrite Hdb. simpl.
  destruct (toggle_membership_single likes Hsub) as [Hsub' Hmem].
  split; [|reflexivity].
  exists (toggle_membership u likes). split; [apply lookup_insert_eq|].
  split; [exact Hsub'|]. split; [|reflexivity].
  rewrite Hmem, Hliked. reflexivity.
Qed.

Lemma repeat_handleLike_lockstep (n : nat) :
  forall (s : PostView.State) (db : gmap Id (gset Id)),
    in_lockstep post u s db ->
    in_lockstep post u
      (fst (repeat_handler (like_server u) (PostView.handleLike post) n s db))
      (snd (repeat_handler (like_server u) (PostView.handleLike post) n s db)) /\
    PostView.liked
      (fst (repeat_handler (like_server u) (PostView.handleLike post) n s db))
    = xorb (PostView.liked s) (Nat.odd n).
Proof.
  induction n as [|n IH]; intros s db Hinv.
  - simpl. split; [exact Hinv|]. now rewrite xorb_false_r.
  - cbn [repeat_handler].
    destruct (handleLike_lockstep s db Hinv) as [Hinv' Hflip].
    destruct (IH _ _ Hinv') as [Hinv'' Hliked].
    split; [exact Hinv''|].
    rewrite Hliked, Hflip, Nat.odd_succ, <- Nat.negb_odd.
    destruct (PostView.liked s), (Nat.odd n); reflexivity.
Qed.

Lemma in_lockstep_parity (s : PostView.State) (db : gmap Id (gset Id)) :
  in_lockstep post u s db -> PostView.liked s = Z.odd (PostView.likesCount s).
Proof.
  intros (likes & _ & Hsub & -> & ->). symmetry. now apply single_user_size.
Qed.

End SingleUserLikes.

(** C2: a successful like toggle takes the displayed count from the
    response and negates the local boolean, leaving the rest of the view
    alone. With a single user and a post nobody likes yet, after any number
    of successful toggles the boolean is the parity of the server-reported
    count (odd: liked, even: unliked), and two toggles in succession
    restore the boolean. *)
Theorem like_toggle_lockstep :
  (forall Sigma (w : World Sigma) sigma (post : Post.t) (s : PostView.State)
          (count : Z),
     resolves w (LikePost (Post.id post)) sigma count ->
     final (run w (PostView.handleLike post s) sigma)
     = PostView.setLiked (negb (PostView.liked s)) (PostView.setLikesCount count s) /\
     PostView.likesCount (final (run w (PostView.handleLike post s) sigma)) = count /\
     PostView.liked (final (run w (PostView.handleLike post s) sigma))
     = negb (PostView.liked s)) /\
  (forall (post : Post.t) (currentUser : User.t) (db : gmap Id (gset Id)) (n : nat),
     (forall l, Post.likes post = Some l -> l = []) ->
     db !! Post.id post = Some ∅ ->
     let w := like_server (User.id currentUser) in
     let mounted := run w (PostView.mount post currentUser) db in
     let after :=
       repeat_handler w (PostView.handleLike post) n (final mounted)
         (server_state mounted) in
     PostView.liked (fst after) = Z.odd (PostView.likesCount (fst after)) /\
     PostView.liked (fst after) = Nat.odd n /\
     exists likes : gset Id,
       snd after !! Post.id post = Some likes /\
       PostView.likesCount (fst after) = Z.of_nat (size likes) /\
       PostView.liked (fst after) = bool_decide (User.id currentUser ∈ likes)) /\
  (forall Sigma (w : World Sigma) sigma (post : Post.t) (s : PostView.State)
          (count1 count2 : Z),
     let first := run w (PostView.handleLike post s) sigma in
     let second := run w (PostView.handleLike post (final first)) (server_state first) in
     resolves w (LikePost (Post.id post)) sigma count1 ->
     resolves w (LikePost (Post.id post)) (server_state first) count2 ->
     PostView.liked (final second) = PostView.liked s /\
     PostView.likesCount (final second) = count2).
Proof.
  split; [|split].
  - intros Sigma w sigma post s count Hres.
    unfold resolves in Hres. rewrite !handleLike_outcome, Hres. repeat split.
  - intros post currentUser db n Hlikes Hdb w mounted after.
    assert (Hinv : in_lockstep post (User.id currentUser) (final mounted)
                     (server_state mounted)).
    { exists ∅. subst mounted w. simpl.
      split; [exact Hdb|]. split; [apply empty_subseteq|].
      destruct (Post.likes post) as [l|] eqn:E; simpl.
      - rewrite (Hlikes l eq_refl). split; reflexivity.
      - split; reflexivity. }
    destruct (repeat_handleLike_lockstep post (User.id currentUser) n _ _ Hinv)
      as [Hinv' Hliked].
    fold w in Hinv', Hliked. fold after in Hinv', Hliked.
    split; [exact (in_lockstep_parity _ _ _ _ Hinv')|]. split.
    + rewrite Hliked. subst mounted w. simpl.
      destruct (Post.likes post) as [l|] eqn:E; simpl; [|reflexivity].
      now rewrite (Hlikes l eq_refl).
    + destruct Hinv' as (likes & Hdb' & _ & Hl & Hc). eauto.
  - intros Sigma w sigma post s count1 count2 first second Hres1 Hres2.
    unfold resolves in Hres1, Hres2. subst second.
    rewrite !handleLike_outcome, Hres2. subst first.
    rewrite !handleLike_outcome, Hres1. simpl.
    split; [apply negb_involutive|reflexivity].
Qed.

Lemma like_toggle_lockstep_witness :
  (forall l, Post.likes (Sample.post "p1" []) = Some l -> l = []) /\
  Sample.likes_db !! Post.id (Sample.post "p1" []) = Some ∅ /\
  PostView.liked
    (fst (repeat_handler (like_server "u1") (PostView.handleLike (Sample.post "p1" [])) 3
            (final (run (like_server "u1")
                      (PostView.mount (Sample.post "p1" []) (Sample.user "u1" member))
                      Sample.likes_db))
            (server_state (run (like_server "u1")
                      (PostView.mount (Sample.post "p1" []) (Sample.user "u1" member))
                      Sample.likes_db))))
  = Nat.odd 3.
Proof.
  assert (H1 : forall l, Post.likes (Sample.post "p1" []) = Some l -> l = []).
  { intros l [= <-]. reflexivity. }
  assert (H2 : Sample.likes_db !! Post.id (Sample.post "p1" []) = Some ∅)
    by apply lookup_singleton_eq.
  split; [exact H1|]. split; [exact H2|].
  exact (proj1 (proj2 (proj1 (proj2 like_toggle_lockstep)
                         (Sample.post "p1" []) (Sample.user "u1" member)
                         Sample.likes_db 3%nat H1 H2))).
Defined.

(** ** Failed mutations *)

(** C3: for every mutation of the synchronisers (create and delete post;
    like, add comment, delete comment; create and delete announcement;
    create and delete event, mark attendance; delete user, toggle role;
    save profile), when the server rejects the call the view ends in the
    state it had before the call, nothing else is requested, and the
    failure only shows as an error toast. *)
Theorem failed_mutation_leaves_state :
  forall Sigma (w : World Sigma) (sigma : Sigma),
    atomic_on_failure w sigma (fun s => CreatePost (Feed.newPost s))
      Feed.handleCreatePost /\
    (forall postId,
       atomic_on_failure w sigma (fun _ => DeletePost postId)
         (Feed.handleDeletePost postId)) /\
    (forall post,
       atomic_on_failure w sigma (fun _ => LikePost (Post.id post))
         (PostView.handleLike post)) /\
    (forall post,
       atomic_on_failure w sigma
         (fun s => AddComment (Post.id post) (PostView.newComment s))
         (PostView.handleComment post)) /\
    (forall commentId,
       atomic_on_failure w sigma (fun _ => DeleteComment commentId)
         (PostView.handleDeleteComment commentId)) /\
    atomic_on_failure w sigma
      (fun s => CreateAnnouncement (Announcements.newAnnouncement s))
      Announcements.handleCreateAnnouncement /\
    (forall id,
       atomic_on_failure w sigma (fun _ => DeleteAnnouncement id)
         (Announcements.handleDeleteAnnouncement id)) /\
    atomic_on_failure w sigma (fun s => CreateEvent (Events.newEvent s))
      Events.handleCreateEvent /\
    (forall id,
       atomic_on_failure w sigma (fun _ => DeleteEvent id)
         (Events.handleDeleteEvent id)) /\
    (forall eventId status,
       atomic_on_failure w sigma (fun _ => Attend eventId status)
         (Events.handleAttendance eventId status)) /\
    (forall userId,
       atomic_on_failure w sigma (fun _ => DeleteUser userId)
         (AdminPanel.handleDeleteUser userId)) /\
    (forall userId currentRole,
       atomic_on_failure w sigma
         (fun _ => PutRole userId (AdminPanel.newRole currentRole))
         (AdminPanel.handleToggleRole userId currentRole)) /\
    atomic_on_failure w sigma (fun s => PutProfile (Profile.formData s))
      Profile.handleSaveProfile.
Proof.
  intros Sigma w sigma.
  repeat match goal with |- _ /\ _ => split end; intros; rejected_handler.
Qed.

Lemma failed_mutation_leaves_state_witness :
  rejects refusing_world (CreatePost (Feed.newPost Sample.feed)) tt /\
  final (run refusing_world (Feed.handleCreatePost Sample.feed) tt) = Sample.feed /\
  trace (run refusing_world (Feed.handleCreatePost Sample.feed) tt)
  = [ARequest (CreatePost (Feed.newPost Sample.feed));
     ANotice (toast_error "Error al crear publicación")].
Proof.
  assert (Hrej : rejects refusing_world (CreatePost (Feed.newPost Sample.feed)) tt).
  { exists None. reflexivity. }
  split; [exact Hrej|].
  split; [|reflexivity].
  exact (proj1 (proj1 (failed_mutation_leaves_state unit refusing_world tt)
                  Sample.feed Hrej)).
Defined.

(** ** Comment thread *)

Lemma handleComment_trace {Sigma} (w : World Sigma) sigma (post : Post.t)
    (s : PostView.State) :
  List.filter is_confirmation (trace (run w (PostView.handleComment post s) sigma)) = [] /\
  requests (trace (run w (PostView.handleComment post s) sigma))
  = if JS.truthy (JS.trim (PostView.newComment s))
    then [AddComment (Post.id post) (PostView.newComment s)]
    else [].
Proof.
  unfold PostView.handleComment.
  destruct (JS.truthy (JS.trim (PostView.newComment s))); simpl.
  - destruct (serve w (AddComment (Post.id post) (PostView.newComment s)) sigma)
      as [[data|detail] sigma']; simpl; split; reflexivity.
  - split; reflexivity.
Qed.

Lemma handleDeleteComment_trace {Sigma} (w : World Sigma) sigma (commentId : Id)
    (s : PostView.State) :
  guarded_by_confirmation is_delete_comment false
    (trace (run w (PostView.handleDeleteComment commentId s) sigma)) = true /\
  requests (trace (run w (PostView.handleDeleteComment commentId s) sigma))
  = if confirms w "Â¿Eliminar este comentario?" then [DeleteComment commentId] else [].
Proof.
  unfold PostView.handleDeleteComment. simpl.
  destruct (confirms w "Â¿Eliminar este comentario?"); simpl.
  - destruct (serve w (DeleteComment commentId) sigma) as [[data|detail] sigma'];
      simpl; split; reflexivity.
  - split; reflexivity.
Qed.

(** C4, as stated, fails for adding a comment: with a non-blank draft the
    add-comment request is sent although no confirmation was asked. *)
Lemma handleComment_sends_unconfirmed :
  trace (run Sample.accepting_world
           (PostView.handleComment (Sample.post "p1" []) Sample.thread) tt)
  = [ARequest (AddComment "p1" (JS.lit "Moi ben"));
     ANotice (toast_success "Comentario agregado")] /\
  guarded_by_confirmation is_add_comment false
    (trace (run Sample.accepting_world
              (PostView.handleComment (Sample.post "p1" []) Sample.thread) tt))
  = false.
Proof. split; reflexivity. Qed.

(** C4 (amended): deleting a comment asks for a confirmation first, and
    the delete request is sent exactly when the user accepts it; adding a
    comment asks for no confirmation: its only local step is the check
    that the trimmed draft is not empty, and the add request is sent
    exactly when that check passes. *)
Theorem comment_requests_local_steps :
  forall Sigma (w : World Sigma) (sigma : Sigma) (post : Post.t) (commentId : Id)
         (s : PostView.State),
    (guarded_by_confirmation is_delete_comment false
       (trace (run w (PostView.handleDeleteComment commentId s) sigma)) = true /\
     requests (trace (run w (PostView.handleDeleteComment commentId s) sigma))
     = if confirms w "Â¿Eliminar este comentario?"
       then [DeleteComment commentId] else []) /\
    (List.filter is_confirmation
       (trace (run w (PostView.handleComment post s) sigma)) = [] /\
     requests (trace (run w (PostView.handleComment post s) sigma))
     = if JS.truthy (JS.trim (PostView.newComment s))
       then [AddComment (Post.id post) (PostView.newComment s)]
       else []).
Proof.
  intros. split; [apply handleDeleteComment_trace|apply handleComment_trace].
Qed.

Lemma fetchComments_cached {Sigma} (w : World Sigma) sigma (post : Post.t)
    (s : PostView.State) :
  PostView.comments s <> [] ->
  trace (run w (PostView.fetchComments post s) sigma) = [] /\
  final (run w (PostView.fetchComments post s) sigma)
  = PostView.setShowComments (negb (PostView.showComments s)) s.
Proof.
  intros Hne. unfold PostView.fetchComments.
  destruct (PostView.comments s) as [|c cs]; [congruence|].
  split; reflexivity.
Qed.

(** C5 on a thread that was loaded and has zero comments: the guard of
    [fetchComments] is [comments.length > 0], so the empty cached thread is
    fetched again on every toggle, and the visibility flag is set instead
    of flipped (an open empty thread stays open). *)
Theorem fetchComments_empty_thread_refetches :
  forall Sigma (w : World Sigma) (sigma : Sigma) (post : Post.t)
         (s : PostView.State) (data : list Comment.t),
    PostView.comments s = [] ->
    resolves w (GetComments (Post.id post)) sigma data ->
    requests (trace (run w (PostView.fetchComments post s) sigma))
    = [GetComments (Post.id post)] /\
    PostView.showComments (final (run w (PostView.fetchComments post s) sigma))
    = true /\
    PostView.comments (final (run w (PostView.fetchComments post s) sigma)) = data.
Proof.
  intros Sigma w sigma post s data Hempty Hres.
  unfold PostView.fetchComments, resolves in *. rewrite Hempty. simpl.
  destruct (serve w (GetComments (Post.id post)) sigma) as [resp sigma'].
  simpl in Hres. subst resp. simpl. repeat split.
Qed.

Lemma fetchComments_empty_thread_refetches_witness :
  PostView.comments Sample.loaded_empty_thread = [] /\
  PostView.showComments Sample.loaded_empty_thread = true /\
  resolves Sample.accepting_world (GetComments (Post.id (Sample.post "p1" []))) tt
    ([] : list Comment.t) /\
  requests
    (trace (run Sample.accepting_world
              (PostView.fetchComments (Sample.post "p1" []) Sample.loaded_empty_thread)
              tt))
  = [GetComments "p1"] /\
  PostView.showComments
    (final (run Sample.accepting_world
              (PostView.fetchComments (Sample.post "p1" []) Sample.loaded_empty_thread)
              tt))
  = true.
Proof.
  assert (H1 : PostView.comments Sample.loaded_empty_thread = []) by reflexivity.
  assert (H2 : resolves Sample.accepting_world
                 (GetComments (Post.id (Sample.post "p1" []))) tt
                 ([] : list Comment.t)) by reflexivity.
  split; [exact H1|]. split; [reflexivity|]. split; [exact H2|].
  destruct (fetchComments_empty_thread_refetches unit Sample.accepting_world tt
              (Sample.post "p1" []) Sample.loaded_empty_thread [] H1 H2)
    as (Hreq & Hshow & _).
  split; [exact Hreq|exact Hshow].
Defined.

(** ** Role toggle *)

Lemma id_eq_true (a b : Id) : id_eq a b = true <-> a = b.
Proof. apply String.eqb_eq. Qed.

Lemma id_eq_false (a b : Id) : id_eq a b = false <-> a <> b.
Proof. apply String.eqb_neq. Qed.

Lemma unique_id_row (users : list User.t) (row u : User.t) :
  NoDup (List.map User.id users) ->
  row ∈ users -> u ∈ users -> User.id u = User.id row -> u = row.
Proof.
  induction users as [|x users IH]; intros Hnd Hrow Hu Hid.
  - inversion Hrow.
  - cbn [List.map] in Hnd. apply NoDup_cons in Hnd as [Hx Hnd].
    apply elem_of_cons in Hrow as [->|Hrow]; apply elem_of_cons in Hu as [->|Hu].
    + reflexivity.
    + exfalso. apply Hx. rewrite <- Hid. apply list_elem_of_In, in_map.
      now apply list_elem_of_In.
    + exfalso. apply Hx. rewrite Hid. apply list_elem_of_In, in_map.
      now apply list_elem_of_In.
    + now apply IH.
Qed.

Lemma handleToggleRole_accepted {Sigma} (w : World Sigma) sigma userId currentRole
    (s : AdminPanel.State) :
  confirms w ("¿Cambiar rol a " +:+ AdminPanel.role_name (AdminPanel.newRole currentRole)
              +:+ "?") = true ->
  resolves w (PutRole userId (AdminPanel.newRole currentRole)) sigma tt ->
  final (run w (AdminPanel.handleToggleRole userId currentRole s) sigma)
  = AdminPanel.setUsers
      (List.map (fun u => if id_eq (User.id u) userId
                          then User.with_role u (AdminPanel.newRole currentRole)
                          else u)
         (AdminPanel.users s)) s /\
  requests (trace (run w (AdminPanel.handleToggleRole userId currentRole s) sigma))
  = [PutRole userId (AdminPanel.newRole currentRole)].
Proof.
  intros Hconfirm Hres. unfold AdminPanel.handleToggleRole, resolves in *.
  cbn [run]. rewrite Hconfirm. cbn [negb run].
  destruct (serve w (PutRole userId (AdminPanel.newRole currentRole)) sigma)
    as [resp sigma'].
  simpl in Hres. subst resp. split; reflexivity.
Qed.

Lemma lookup_List_map {A B} (f : A -> B) (l : list A) (i : nat) :
  List.map f l !! i = f <$> l !! i.
Proof.
  revert i. induction l as [|x l IH]; intros [|i]; simpl; auto.
Qed.

Lemma newRole_other (r : Role) : AdminPanel.newRole r = other_role r.
Proof. destruct r; reflexivity. Qed.

(** C6: a confirmed and accepted role toggle on a roster row keeps the
    roster's length and order; a row whose id is the toggled one keeps all
    its fields except the role, which becomes the other of the two roles;
    every row with another id is unchanged; with unique ids the only row
    that changes is the toggled one; and the only request is the role
    update (the roster is not fetched again). *)
Theorem role_toggle_patches_row :
  forall Sigma (w : World Sigma) (sigma : Sigma) (s : AdminPanel.State)
         (row : User.t),
    row ∈ AdminPanel.users s ->
    confirms w ("¿Cambiar rol a "
                +:+ AdminPanel.role_name (AdminPanel.newRole (User.role row))
                +:+ "?") = true ->
    resolves w (PutRole (User.id row) (AdminPanel.newRole (User.role row))) sigma tt ->
    let o := run w (AdminPanel.handleToggleRole (User.id row) (User.role row) s) sigma in
    length (AdminPanel.users (final o)) = length (AdminPanel.users s) /\
    (forall i u,
       AdminPanel.users s !! i = Some u ->
       exists u',
         AdminPanel.users (final o) !! i = Some u' /\
         same_but_role u u' /\
         (User.id u = User.id row -> User.role u' = other_role (User.role row)) /\
         (User.id u <> User.id row -> u' = u)) /\
    (NoDup (List.map User.id (AdminPanel.users s)) ->
     forall i u,
       AdminPanel.users s !! i = Some u -> u <> row ->
       AdminPanel.users (final o) !! i = Some u) /\
    AdminPanel.stats (final o) = AdminPanel.stats s /\
    AdminPanel.loading (final o) = AdminPanel.loading s /\
    requests (trace o) = [PutRole (User.id row) (other_role (User.role row))].
Proof.
  intros Sigma w sigma s row Hrow Hconfirm Hres o.
  destruct (handleToggleRole_accepted w sigma _ _ s Hconfirm Hres) as [Hfinal Hreq].
  fold o in Hfinal, Hreq. rewrite Hfinal, Hreq. simpl.
  split; [apply length_map|].
  assert (Hpatch : forall i u,
             AdminPanel.users s !! i = Some u ->
             List.map (fun u => if id_eq (User.id u) (User.id row)
                                then User.with_role u (AdminPanel.newRole (User.role row))
                                else u) (AdminPanel.users s) !! i
             = Some (if id_eq (User.id u) (User.id row)
                     then User.with_role u (AdminPanel.newRole (User.role row))
                     else u)).
  { intros i u Hi. now rewrite lookup_List_map, Hi. }
  split; [|split; [|split; [reflexivity|split; [reflexivity|]]]].
  - intros i u Hi. eexists. split; [exact (Hpatch i u Hi)|].
    destruct (id_eq (User.id u) (User.id row)) eqn:E.
    + apply id_eq_true in E. split; [repeat split|]. split.
      * intros _. apply newRole_other.
      * congruence.
    + apply id_eq_false in E. split; [repeat split|]. split.
      * congruence.
      * reflexivity.
  - intros Hnd i u Hi Hne. rewrite (Hpatch i u Hi).
    destruct (id_eq (User.id u) (User.id row)) eqn:E; [|reflexivity].
    apply id_eq_true in E. exfalso. apply Hne.
    apply (unique_id_row (AdminPanel.users s)); auto.
    now apply list_elem_of_lookup_2 in Hi.
  - now rewrite newRole_other.
Qed.

Lemma role_toggle_patches_row_witness :
  Sample.user "u2" member ∈ AdminPanel.users Sample.roster /\
  confirms Sample.accepting_world "¿Cambiar rol a admin?" = true /\
  resolves Sample.accepting_world (PutRole "u2" admin) tt tt /\
  AdminPanel.users
    (final (run Sample.accepting_world
              (AdminPanel.handleToggleRole "u2" member Sample.roster) tt))
  = [Sample.user "u1" admin; Sample.user "u2" admin; Sample.user "u3" member] /\
  requests
    (trace (run Sample.accepting_world
              (AdminPanel.handleToggleRole "u2" member Sample.roster) tt))
  = [PutRole "u2" admin].
Proof.
  assert (H1 : Sample.user "u2" member ∈ AdminPanel.users Sample.roster).
  { apply list_elem_of_In. right. left. reflexivity. }
  assert (H2 : confirms Sample.accepting_world "¿Cambiar rol a admin?" = true)
    by reflexivity.
  assert (H3 : resolves Sample.accepting_world (PutRole "u2" admin) tt tt)
    by reflexivity.
  split; [exact H1|]. split; [exact H2|]. split; [exact H3|].
  split; [reflexivity|].
  exact (proj2 (proj2 (proj2 (proj2 (proj2
           (role_toggle_patches_row unit Sample.accepting_world tt Sample.roster
              (Sample.user "u2" member) H1 H2 H3)))))).
Defined.

(** ** Deleting a post *)

Lemma filter_out_absent (postId : Id) (l : list Post.t) :
  postId ∉ List.map Post.id l ->
  List.filter (fun p => negb (id_eq (Post.id p) postId)) l = l.
Proof.
  induction l as [|p l IH]; intros Hout; [reflexivity|].
  cbn [List.map] in Hout. apply not_elem_of_cons in Hout as [Hp Hl].
  cbn [List.filter].
  destruct (id_eq (Post.id p) postId) eqn:E.
  - apply id_eq_true in E. congruence.
  - simpl. now rewrite IH.
Qed.

Lemma filter_out_unique (postId : Id) (l : list Post.t) :
  NoDup (List.map Post.id l) ->
  postId ∈ List.map Post.id l ->
  exists before p after,
    l = before ++ p :: after /\ Post.id p = postId /\
    List.filter (fun p => negb (id_eq (Post.id p) postId)) l = before ++ after.
Proof.
  induction l as [|x l IH]; intros Hnd Hin.
  - inversion Hin.
  - cbn [List.map] in Hnd, Hin. apply NoDup_cons in Hnd as [Hx Hnd].
    cbn [List.filter]. destruct (id_eq (Post.id x) postId) eqn:E.
    + apply id_eq_true in E. exists [], x, l. repeat split; auto.
      simpl. apply filter_out_absent. congruence.
    + apply id_eq_false in E. apply elem_of_cons in Hin as [Hin|Hin]; [congruence|].
      destruct (IH Hnd Hin) as (before & p & after & -> & Hp & Hf).
      exists (x :: before), p, after. simpl. rewrite Hf. repeat split; auto.
Qed.

(** C7: with unique post ids, a confirmed and acknowledged delete of a
    present id removes exactly the entry with that id and keeps the other
    entries in their order; the confirmation precedes the request; and
    the list is left as it was when the user declines or the server
    rejects the deletion. *)
Theorem delete_post_removes_one :
  forall Sigma (w : World Sigma) (sigma : Sigma) (s : Feed.State) (postId : Id),
    NoDup (List.map Post.id (Feed.posts s)) ->
    postId ∈ List.map Post.id (Feed.posts s) ->
    let o := run w (Feed.handleDeletePost postId s) sigma in
    (confirms w "¿Eliminar esta publicación?" = true ->
     resolves w (DeletePost postId) sigma tt ->
     (exists before p after,
        Feed.posts s = before ++ p :: after /\ Post.id p = postId /\
        Feed.posts (final o) = before ++ after) /\
     trace o = [AConfirm "¿Eliminar esta publicación?" true;
                ARequest (DeletePost postId);
                ANotice (toast_success "Publicación eliminada")]) /\
    (confirms w "¿Eliminar esta publicación?" = false ->
     final o = s /\ requests (trace o) = []) /\
    (rejects w (DeletePost postId) sigma -> final o = s).
Proof.
  intros Sigma w sigma s postId Hnd Hin o. subst o.
  unfold Feed.handleDeletePost, resolves, rejects. cbn [run].
  destruct (confirms w "¿Eliminar esta publicación?"); cbn [negb run];
    destruct (serve w (DeletePost postId) sigma) as [[[]|detail] sigma']; simpl;
    (split; [|split]); try discriminate; try (intros; split; reflexivity);
    try reflexivity.
  - intros _ _. split; [|reflexivity]. now apply filter_out_unique.
  - intros (? & ?). discriminate.
Qed.

Lemma delete_post_removes_one_witness :
  NoDup (List.map Post.id (Feed.posts Sample.feed)) /\
  "p2" ∈ List.map Post.id (Feed.posts Sample.feed) /\
  confirms Sample.accepting_world "¿Eliminar esta publicación?" = true /\
  resolves Sample.accepting_world (DeletePost "p2") tt tt /\
  Feed.posts (final (run Sample.accepting_world (Feed.handleDeletePost "p2" Sample.feed) tt))
  = [Sample.post "p1" []; Sample.post "p3" []] /\
  trace (run Sample.accepting_world (Feed.handleDeletePost "p2" Sample.feed) tt)
  = [AConfirm "¿Eliminar esta publicación?" true;
     ARequest (DeletePost "p2");
     ANotice (toast_success "Publicación eliminada")].
Proof.
  assert (H1 : NoDup (List.map Post.id (Feed.posts Sample.feed))).
  { exact (bool_decide_unpack (NoDup ["p1"; "p2"; "p3"]) I). }
  assert (H2 : "p2" ∈ List.map Post.id (Feed.posts Sample.feed)).
  { apply list_elem_of_In. right. left. reflexivity. }
  assert (H3 : confirms Sample.accepting_world "¿Eliminar esta publicación?" = true)
    by reflexivity.
  assert (H4 : resolves Sample.accepting_world (DeletePost "p2") tt tt)
    by reflexivity.
  split; [exact H1|]. split; [exact H2|]. split; [exact H3|]. split; [exact H4|].
  split; [reflexivity|].
  exact (proj2 (proj1 (delete_post_removes_one unit Sample.accepting_world tt
                         Sample.feed "p2" H1 H2) H3 H4)).
Defined.

(** ** Attendance *)

Lemma find_entry_of (uid : Id) (roster : list Attendance.t) :
  List.find (fun a => id_eq (Attendance.user_id a) uid) roster = entry_of uid roster.
Proof.
  induction roster as [|a rest IH]; [reflexivity|].
  cbn [List.find entry_of]. unfold id_eq at 1.
  destruct (String.eqb_spec (Attendance.user_id a) uid) as [Heq|Hne];
    destruct (decide (Attendance.user_id a = uid)); try contradiction;
    [reflexivity|exact IH].
Qed.

Lemma filter_attending_length (roster : list Attendance.t) :
  length (List.filter (fun a => status_eq (Attendance.status a) attending) roster)
  = count_attending roster.
Proof.
  induction roster as [|a rest IH]; [reflexivity|].
  cbn [List.filter count_attending].
  destruct (Attendance.status a); simpl; now rewrite IH.
Qed.

(** C8: after a successful attendance write for the event that is
    selected (an event is selected and its id is the id written to) the
    roster of that event is requested again; when that read succeeds the
    same event is still selected, the roster shown is the fresh one, the
    user's own status is the user's first entry in it and the attending
    count is the number of its entries with status attending; when the read
    fails the view is left as it was (the roster is never patched
    locally). A write while no event is selected, or for an event whose id
    is not that of the selected one, requests nothing more and leaves the
    view unchanged. *)
Theorem attendance_write_refetches :
  forall Sigma (w : World Sigma) (sigma : Sigma) (user : User.t) (eventId : Id)
         (status : Status) (s : Events.State),
    resolves w (Attend eventId status) sigma tt ->
    let o := run w (Events.handleAttendance eventId status s) sigma in
    let sigma' := snd (serve w (Attend eventId status) sigma) in
    (forall e : Event.t,
       Events.selectedEvent s = Some e -> Event.id e = eventId ->
       requests (trace o) = [Attend eventId status; GetAttendances eventId] /\
       (forall roster : list Attendance.t,
          resolves w (GetAttendances eventId) sigma' roster ->
          Events.selectedEvent (final o) = Some e /\
          Events.events (final o) = Events.events s /\
          Events.attendances (final o) = roster /\
          Events.userAttendance user (final o) = entry_of (User.id user) roster /\
          Events.attendingCount (final o) = count_attending roster) /\
       (rejects w (GetAttendances eventId) sigma' -> final o = s)) /\
    (Events.selectedEvent s = None \/
     (exists e : Event.t, Events.selectedEvent s = Some e /\ Event.id e <> eventId) ->
     requests (trace o) = [Attend eventId status] /\ final o = s).
Proof.
  intros Sigma w sigma user eventId status s Hres o sigma'. subst o sigma'.
  unfold Events.handleAttendance, resolves, rejects in *. cbn [run].
  destruct (serve w (Attend eventId status) sigma) as [resp sigma1].
  simpl in Hres. subst resp. cbn [fst snd].
  split.
  - intros e Hsel Hid.
    assert (Hguard : Events.is_selected eventId s = true).
    { unfold Events.is_selected, id_eq. rewrite Hsel. now apply String.eqb_eq. }
    rewrite Hguard. unfold Events.fetchAttendances. cbn [run].
    destruct (serve w (GetAttendances eventId) sigma1) as [[data|detail] sigma2];
      simpl.
    + split; [reflexivity|]. split; [|intros (? & ?); discriminate].
      intros roster [= <-]. split; [exact Hsel|]. split; [reflexivity|].
      split; [reflexivity|]. split.
      * unfold Events.userAttendance. simpl. rewrite Hsel. apply find_entry_of.
      * unfold Events.attendingCount, Events.attendees. simpl.
        apply filter_attending_length.
    + split; [reflexivity|]. split; [discriminate|reflexivity].
  - intros Hother.
    assert (Hguard : Events.is_selected eventId s = false).
    { unfold Events.is_selected, id_eq.
      destruct Hother as [->|(e & -> & Hne)]; [reflexivity|].
      now apply String.eqb_neq. }
    rewrite Hguard. simpl. split; reflexivity.
Qed.

Lemma attendance_write_refetches_witness :
  resolves Sample.accepting_world (Attend "e1" attending) tt tt /\
  (Events.selectedEvent Sample.calendar = Some (Sample.event "e1" 50 101) /\
   Event.id (Sample.event "e1" 50 101) = "e1") /\
  resolves Sample.accepting_world (GetAttendances "e1")
    (snd (serve Sample.accepting_world (Attend "e1" attending) tt))
    [Sample.attendance "a1" "u1" attending; Sample.attendance "a2" "u2" maybe] /\
  requests
    (trace (run Sample.accepting_world
              (Events.handleAttendance "e1" attending Sample.calendar) tt))
  = [Attend "e1" attending; GetAttendances "e1"] /\
  Events.attendances
    (final (run Sample.accepting_world
              (Events.handleAttendance "e1" attending Sample.calendar) tt))
  = [Sample.attendance "a1" "u1" attending; Sample.attendance "a2" "u2" maybe] /\
  Events.userAttendance (Sample.user "u1" member)
    (final (run Sample.accepting_world
              (Events.handleAttendance "e1" attending Sample.calendar) tt))
  = Some (Sample.attendance "a1" "u1" attending) /\
  Events.attendingCount
    (final (run Sample.accepting_world
              (Events.handleAttendance "e1" attending Sample.calendar) tt))
  = 1%nat /\
  (exists e : Event.t,
     Events.selectedEvent Sample.calendar = Some e /\ Event.id e <> "e2") /\
  requests
    (trace (run Sample.accepting_world
              (Events.handleAttendance "e2" attending Sample.calendar) tt))
  = [Attend "e2" attending].
Proof.
  assert (H1 : resolves Sample.accepting_world (Attend "e1" attending) tt tt)
    by reflexivity.
  assert (H2 : Events.selectedEvent Sample.calendar = Some (Sample.event "e1" 50 101))
    by reflexivity.
  assert (H3 : Event.id (Sample.event "e1" 50 101) = "e1") by reflexivity.
  assert (H4 : resolves Sample.accepting_world (GetAttendances "e1")
                 (snd (serve Sample.accepting_world (Attend "e1" attending) tt))
                 [Sample.attendance "a1" "u1" attending;
                  Sample.attendance "a2" "u2" maybe]) by reflexivity.
  assert (H5 : resolves Sample.accepting_world (Attend "e2" attending) tt tt)
    by reflexivity.
  assert (H6 : exists e : Event.t,
             Events.selectedEvent Sample.calendar = Some e /\ Event.id e <> "e2").
  { exists (Sample.event "e1" 50 101). split; [reflexivity|discriminate]. }
  split; [exact H1|]. split; [split; [exact H2|exact H3]|]. split; [exact H4|].
  destruct (proj1 (attendance_write_refetches unit Sample.accepting_world tt
                     (Sample.user "u1" member) "e1" attending Sample.calendar H1)
              (Sample.event "e1" 50 101) H2 H3)
    as (Hreq & Hfresh & _).
  destruct (Hfresh _ H4) as (_ & _ & Hroster & Hown & Hcount).
  split; [exact Hreq|]. split; [exact Hroster|]. split; [exact Hown|].
  split; [exact Hcount|]. split; [exact H6|].
  exact (proj1 (proj2 (attendance_write_refetches unit Sample.accepting_world tt
                         (Sample.user "u1" member) "e2" attending Sample.calendar H5)
                  (or_intror H6))).
Defined.

(** ** Creating a post *)

(** C9: a create-post attempt with blank content sends nothing and leaves
    the view, hence the post list, unchanged; a create with non-blank
    content that the server accepts puts the returned post in front of the
    posts that were there, which follow unchanged. *)
Theorem create_post_guard_and_prepend :
  forall Sigma (w : World Sigma) (sigma : Sigma) (s : Feed.State),
    let o := run w (Feed.handleCreatePost s) sigma in
    (blank (NewPost.content (Feed.newPost s)) ->
     requests (trace o) = [] /\ final o = s) /\
    (~ blank (NewPost.content (Feed.newPost s)) ->
     forall created : Post.t,
       resolves w (CreatePost (Feed.newPost s)) sigma created ->
       requests (trace o) = [CreatePost (Feed.newPost s)] /\
       Feed.posts (final o) = created :: Feed.posts s).
Proof.
  intros Sigma w sigma s o. subst o. unfold Feed.handleCreatePost, blank, resolves.
  destruct (JS.truthy (JS.trim (NewPost.content (Feed.newPost s)))) eqn:E; simpl.
  - split.
    + intros Hblank. apply trim_blank in Hblank. congruence.
    + intros _ created Hres.
      destruct (serve w (CreatePost (Feed.newPost s)) sigma) as [resp sigma'].
      simpl in Hres. subst resp. split; reflexivity.
  - split; [intros _; split; reflexivity|].
    intros Hnb. exfalso. apply Hnb. now apply trim_blank.
Qed.

Lemma create_post_guard_and_prepend_witness :
  blank (NewPost.content (Feed.newPost Sample.feed_blank_draft)) /\
  requests
    (trace (run Sample.accepting_world (Feed.handleCreatePost Sample.feed_blank_draft) tt))
  = [] /\
  Feed.posts
    (final (run Sample.accepting_world (Feed.handleCreatePost Sample.feed_blank_draft) tt))
  = Feed.posts Sample.feed_blank_draft /\
  ~ blank (NewPost.content (Feed.newPost Sample.feed)) /\
  Feed.posts (final (run Sample.accepting_world (Feed.handleCreatePost Sample.feed) tt))
  = Post.mk "p9" "u1" (JS.lit "Ana") None (JS.lit "Ola a todos") None "general"
      "2024-01-02T00:00:00" (Some [])
    :: Feed.posts Sample.feed.
Proof.
  assert (H : blank (NewPost.content (Feed.newPost Sample.feed_blank_draft))).
  { repeat constructor. }
  assert (Hnb : ~ blank (NewPost.content (Feed.newPost Sample.feed))).
  { intros Hb. inversion Hb as [|c l Hc _]. discriminate Hc. }
  split; [exact H|].
  destruct (proj1 (create_post_guard_and_prepend unit Sample.accepting_world tt
                     Sample.feed_blank_draft) H) as [Hreq Hfinal].
  split; [exact Hreq|]. split; [now rewrite Hfinal|]. split; [exact Hnb|].
  exact (proj2 (proj2 (create_post_guard_and_prepend unit Sample.accepting_world tt
                         Sample.feed) Hnb _ eq_refl)).
Defined.


(** * Further properties of the views *)

(** ** Order of the upcoming events *)

Section SortOrder.
Context {A : Type}.
Variable key : A -> option Z.

Let comparefn (a b : A) : option Z := JS.date_sub (key a) (key b).

Let has_key (k : Z) (a : A) : bool :=
  match key a with Some x => (x =? k)%Z | None => false end.

(** An element is only moved past elements with a smaller key. *)
Lemma sort_insert_stable (k : Z) (x : A) (l : list A) :
  List.filter (has_key k) (JS.stable_insert comparefn x l)
  = List.filter (has_key k) (x :: l).
Proof.
  induction l as [|y l IH]; [reflexivity|].
  cbn [JS.stable_insert].
  destruct (JS.SortCompare comparefn x y <=? 0)%Z eqn:E; [reflexivity|].
  cbn [List.filter] in *. rewrite IH.
  apply Z.leb_gt in E. unfold JS.SortCompare, comparefn, JS.date_sub, has_key in *.
  destruct (key x) as [kx|]; [|simpl in E; lia].
  destruct (key y) as [ky|]; [|simpl in E; lia]. simpl in E.
  destruct (Z.eqb_spec kx k), (Z.eqb_spec ky k); try reflexivity; lia.
Qed.

Lemma sort_stable (k : Z) (l : list A) :
  List.filter (has_key k) (JS.stable_sort comparefn l) = List.filter (has_key k) l.
Proof.
  induction l as [|x l IH]; [reflexivity|].
  cbn [JS.stable_sort]. rewrite sort_insert_stable. cbn [List.filter]. now rewrite IH.
Qed.

(** A sorted array is left as it is. *)
Lemma sort_sorted_id (l : list A) :
  StronglySorted (key_le key) l -> JS.stable_sort comparefn l = l.
Proof.
  induction 1 as [|x l Hs IH Hx]; [reflexivity|].
  cbn [JS.stable_sort]. rewrite IH. destruct l as [|y l]; [reflexivity|].
  cbn [JS.stable_insert]. inversion Hx as [|? ? (kx & ky & Hkx & Hky & Hle) _]; subst.
  unfold JS.SortCompare, comparefn, JS.date_sub. rewrite Hkx, Hky. simpl.
  destruct (Z.leb_spec (kx - ky) 0); [reflexivity|lia].
Qed.

(** With pairwise distinct keys there is one sorted arrangement. *)
Lemma sorted_arrangement_unique (l l' : list A) :
  NoDup (List.map key l) ->
  StronglySorted (key_le key) l -> StronglySorted (key_le key) l' ->
  l ≡ₚ l' -> l = l'.
Proof.
  revert l'. induction l as [|x t IH]; intros l' Hnd Hs Hs' Hp.
  - symmetry. now apply Permutation_nil.
  - destruct l' as [|x' t'].
    { symmetry in Hp. now apply Permutation_nil in Hp. }
    cbn [List.map] in Hnd. apply NoDup_cons in Hnd as [Hx Hnd].
    apply StronglySorted_inv in Hs as [Hs Hle].
    apply StronglySorted_inv in Hs' as [Hs' Hle'].
    assert (Heq : x = x').
    { assert (Hin' : x' ∈ x :: t).
      { rewrite Hp. now left. }
      apply elem_of_cons in Hin' as [Heq|Hin']; [now symmetry|].
      assert (Hin : x ∈ x' :: t').
      { rewrite <- Hp. now left. }
      apply elem_of_cons in Hin as [Heq|Hin]; [exact Heq|].
      exfalso. apply Hx.
      rewrite Forall_forall in Hle, Hle'.
      destruct (Hle x' Hin') as (a & b & Ha & Hb & Hab).
      destruct (Hle' x Hin) as (b' & a' & Hb' & Ha' & Hba).
      rewrite Ha in Ha'. rewrite Hb in Hb'.
      injection Ha' as <-. injection Hb' as <-.
      assert (a = b) as -> by lia.
      rewrite Ha, <- Hb. apply list_elem_of_In, in_map.
      now apply list_elem_of_In. }
    subst x'. f_equal. apply IH; auto.
    now apply Permutation_cons_inv in Hp.
Qed.

End SortOrder.

Lemma filter_perm {A} (f : A -> bool) (l l' : list A) :
  l ≡ₚ l' -> List.filter f l ≡ₚ List.filter f l'.
Proof.
  induction 1 as [|x l l' _ IH|x y l|l l' l'' _ IH1 _ IH2]; simpl.
  - reflexivity.
  - destruct (f x); [now constructor|exact IH].
  - destruct (f x), (f y); try reflexivity. apply perm_swap.
  - now rewrite IH1.
Qed.

Lemma filter_all {A} (f : A -> bool) (l : list A) :
  Forall (fun a => f a = true) l -> List.filter f l = l.
Proof.
  induction 1 as [|x l Hx _ IH]; simpl; [reflexivity|].
  now rewrite Hx, IH.
Qed.

Lemma StronglySorted_take {A} (R : A -> A -> Prop) (n : nat) (l : list A) :
  StronglySorted R l -> StronglySorted R (take n l).
Proof.
  intros Hs. revert n. induction Hs as [|x l Hs IH Hx]; intros [|n]; simpl;
    try constructor; auto.
  apply Forall_forall. intros y Hy. rewrite Forall_forall in Hx. apply Hx.
  apply elem_of_take in Hy as (i & Hy & _). now apply list_elem_of_lookup_2 in Hy.
Qed.

Lemma filter_take_prefix {A} (f : A -> bool) (n : nat) (l : list A) :
  exists rest, List.filter f l = List.filter f (take n l) ++ rest.
Proof.
  exists (List.filter f (drop n l)).
  rewrite <- List.filter_app. now rewrite take_drop.
Qed.

(** X1: the sort of the derivation is stable. When the start dates of the
    upcoming events are valid dates then, whatever the engine, among the
    upcoming events that start at the same time the sidebar lists a
    leading part of them in the order in which the server listed them. *)
Theorem upcoming_events_ties_keep_fetch_order :
  forall (sort : (Event.t -> Event.t -> option Z) -> list Event.t -> list Event.t),
    JS.sort_contract sort ->
    forall (now : Z) (data : list Event.t) (k : Z),
      Forall (fun e => is_Some (Event.start_date e)) (still_running now data) ->
      exists rest,
        List.filter (starts_at k) (still_running now data)
        = List.filter (starts_at k) (Feed.upcomingEvents sort now data) ++ rest.
Proof.
  intros sort Hsort now data k Hvalid.
  destruct (filter_take_prefix (starts_at k) 5
              (JS.stable_sort (fun a b => JS.date_sub (Event.start_date a) (Event.start_date b))
                 (still_running now data))) as [rest Hrest].
  exists rest.
  change (Feed.upcomingEvents sort now data)
    with (take 5
            (sort
               (fun a b => JS.date_sub (Event.start_date a) (Event.start_date b))
               (still_running now data))).
  rewrite (sort_by_valid_start_dates sort _ Hsort Hvalid).
  rewrite <- Hrest. symmetry.
  apply (sort_stable Event.start_date k).
Qed.

Lemma upcoming_events_ties_keep_fetch_order_witness :
  JS.sort_contract (@JS.stable_sort Event.t) /\
  Forall (fun e => is_Some (Event.start_date e)) (still_running 0 Sample.tied) /\
  List.filter (starts_at 7) (still_running 0 Sample.tied)
  = [Sample.event "a" 7 9; Sample.event "b" 7 9; Sample.event "c" 7 9] /\
  List.filter (starts_at 7) (Feed.upcomingEvents JS.stable_sort 0 Sample.tied)
  = [Sample.event "a" 7 9; Sample.event "b" 7 9] /\
  exists rest,
    List.filter (starts_at 7) (still_running 0 Sample.tied)
    = List.filter (starts_at 7) (Feed.upcomingEvents JS.stable_sort 0 Sample.tied) ++ rest.
Proof.
  assert (H : Forall (fun e => is_Some (Event.start_date e))
                (still_running 0 Sample.tied)).
  { repeat constructor; eexists; reflexivity. }
  split; [apply stable_sort_contract|]. split; [exact H|].
  split; [reflexivity|]. split; [reflexivity|].
  exact (upcoming_events_ties_keep_fetch_order JS.stable_sort stable_sort_contract
           0%Z Sample.tied 7%Z H).
Defined.

Lemma upcomingEvents_sorted
    (sort : (Event.t -> Event.t -> option Z) -> list Event.t -> list Event.t)
    (now : Z) (data : list Event.t) :
  JS.sort_contract sort ->
  Forall (fun e => is_Some (Event.start_date e)) (still_running now data) ->
  StronglySorted starts_no_later (Feed.upcomingEvents sort now data).
Proof.
  intros Hsort Hvalid. unfold Feed.upcomingEvents, JS.slice.
  fold (still_running now data).
  rewrite (sort_by_valid_start_dates sort _ Hsort Hvalid). rewrite drop_0.
  apply StronglySorted_take. now apply sort_sorted.
Qed.

(** X2: deriving the upcoming events from an already derived list changes
    nothing (the start dates of the kept events being valid dates),
    whatever the engine. *)
Theorem upcoming_events_idempotent :
  forall (sort : (Event.t -> Event.t -> option Z) -> list Event.t -> list Event.t),
    JS.sort_contract sort ->
    forall (now : Z) (data : list Event.t),
      Forall (fun e => is_Some (Event.start_date e)) (still_running now data) ->
      Feed.upcomingEvents sort now (Feed.upcomingEvents sort now data)
      = Feed.upcomingEvents sort now data.
Proof.
  intros sort Hsort now data Hvalid.
  pose proof (upcomingEvents_sorted sort now data Hsort Hvalid) as Hsorted.
  pose proof (upcomingEvents_length sort now data) as Hlen.
  assert (Hkept : still_running now (Feed.upcomingEvents sort now data)
                  = Feed.upcomingEvents sort now data).
  { apply filter_all, Forall_forall. intros e He.
    apply (upcomingEvents_elem sort now data e Hsort) in He as [_ He].
    now apply date_gt_ends_after. }
  assert (Hvalid' : Forall (fun e => is_Some (Event.start_date e))
                      (Feed.upcomingEvents sort now data)).
  { apply Forall_forall. intros e He.
    apply (upcomingEvents_elem sort now data e Hsort) in He.
    apply still_running_elem in He.
    rewrite Forall_forall in Hvalid. now apply Hvalid. }
  set (r := Feed.upcomingEvents sort now data) in *.
  unfold Feed.upcomingEvents at 1. fold (still_running now r). rewrite Hkept.
  rewrite (sort_by_valid_start_dates sort r Hsort Hvalid').
  rewrite (sort_sorted_id Event.start_date r Hsorted).
  unfold JS.slice. rewrite drop_0. now apply take_ge.
Qed.

Lemma upcoming_events_idempotent_witness :
  JS.sort_contract (@JS.stable_sort Event.t) /\
  Forall (fun e => is_Some (Event.start_date e)) (still_running 100 Sample.events) /\
  Feed.upcomingEvents JS.stable_sort 100
    (Feed.upcomingEvents JS.stable_sort 100 Sample.events)
  = Feed.upcomingEvents JS.stable_sort 100 Sample.events.
Proof.
  assert (H : Forall (fun e => is_Some (Event.start_date e))
                (still_running 100 Sample.events)).
  { repeat constructor; eexists; reflexivity. }
  split; [apply stable_sort_contract|].
  split; [exact H|].
  exact (upcoming_events_idempotent JS.stable_sort stable_sort_contract
           100%Z Sample.events H).
Defined.

(** X3: when the upcoming events have valid, pairwise distinct start
    dates, the sidebar does not depend on the order in which the server
    lists the events, whatever the engine. *)
Theorem upcoming_events_independent_of_fetch_order :
  forall (sort : (Event.t -> Event.t -> option Z) -> list Event.t -> list Event.t),
    JS.sort_contract sort ->
    forall (now : Z) (data data' : list Event.t),
      data ≡ₚ data' ->
      Forall (fun e => is_Some (Event.start_date e)) (still_running now data) ->
      NoDup (List.map Event.start_date (still_running now data)) ->
      Feed.upcomingEvents sort now data = Feed.upcomingEvents sort now data'.
Proof.
  intros sort Hsort now data data' Hperm Hvalid Hdistinct.
  assert (Hkept : still_running now data ≡ₚ still_running now data')
    by now apply filter_perm.
  assert (Hvalid' : Forall (fun e => is_Some (Event.start_date e))
                      (still_running now data')) by now rewrite <- Hkept.
  unfold Feed.upcomingEvents. fold (still_running now data) (still_running now data').
  rewrite (sort_by_valid_start_dates sort _ Hsort Hvalid).
  rewrite (sort_by_valid_start_dates sort _ Hsort Hvalid').
  f_equal. apply (sorted_arrangement_unique Event.start_date).
  - rewrite (Permutation_map Event.start_date (sort_perm _ (still_running now data))).
    exact Hdistinct.
  - now apply sort_sorted.
  - now apply sort_sorted.
  - now rewrite !sort_perm.
Qed.

Lemma upcoming_events_independent_of_fetch_order_witness :
  JS.sort_contract (@JS.stable_sort Event.t) /\
  Sample.events ≡ₚ rev Sample.events /\
  Forall (fun e => is_Some (Event.start_date e)) (still_running 100 Sample.events) /\
  NoDup (List.map Event.start_date (still_running 100 Sample.events)) /\
  Feed.upcomingEvents JS.stable_sort 100 Sample.events
  = Feed.upcomingEvents JS.stable_sort 100 (rev Sample.events).
Proof.
  assert (H1 : Sample.events ≡ₚ rev Sample.events) by apply Permutation_rev.
  assert (H2 : Forall (fun e => is_Some (Event.start_date e))
                 (still_running 100 Sample.events)).
  { repeat constructor; eexists; reflexivity. }
  assert (H3 : NoDup (List.map Event.start_date (still_running 100 Sample.events))).
  { exact (bool_decide_unpack
             (NoDup [Some 50%Z; Some 40%Z; Some 30%Z; Some 20%Z; Some 10%Z]) I). }
  split; [apply stable_sort_contract|].
  split; [exact H1|]. split; [exact H2|]. split; [exact H3|].
  exact (upcoming_events_independent_of_fetch_order JS.stable_sort stable_sort_contract
           100%Z Sample.events (rev Sample.events) H1 H2 H3).
Defined.

(** ** Removing entries by id *)

Section ById.
Context {A : Type}.
Variable id : A -> Id.

Lemma filter_out_removed (target : Id) (l : list A) :
  removed_by_id id target l
    (List.filter (fun x => negb (id_eq (id x) target)) l).
Proof.
  split.
  - induction l as [|x l IH]; simpl; [constructor|].
    destruct (negb (id_eq (id x) target)); now constructor.
  - intros x. rewrite !list_elem_of_In, filter_In, negb_true_iff.
    unfold id_eq. now rewrite String.eqb_neq.
Qed.

Lemma filter_out_fresh (target : Id) (l : list A) :
  target ∉ List.map id l ->
  List.filter (fun x => negb (id_eq (id x) target)) l = l.
Proof.
  induction l as [|x l IH]; intros Hout; [reflexivity|].
  cbn [List.map] in Hout. apply not_elem_of_cons in Hout as [Hx Hl].
  cbn [List.filter]. destruct (id_eq (id x) target) eqn:E.
  - apply String.eqb_eq in E. congruence.
  - simpl. now rewrite IH.
Qed.

Lemma filter_out_length (target : Id) (l : list A) :
  NoDup (List.map id l) -> target ∈ List.map id l ->
  S (length (List.filter (fun x => negb (id_eq (id x) target)) l)) = length l.
Proof.
  induction l as [|x l IH]; intros Hnd Hin.
  - inversion Hin.
  - cbn [List.map] in Hnd, Hin. apply NoDup_cons in Hnd as [Hx Hnd].
    cbn [List.filter]. destruct (id_eq (id x) target) eqn:E.
    + apply String.eqb_eq in E. simpl. rewrite filter_out_fresh; congruence.
    + apply String.eqb_neq in E.
      apply elem_of_cons in Hin as [Hin|Hin]; [congruence|].
      simpl. now rewrite IH.
Qed.

Lemma filter_out_appended (x : A) (l : list A) :
  id x ∉ List.map id l ->
  List.filter (fun y => negb (id_eq (id y) (id x))) (l ++ [x]) = l.
Proof.
  intros Hfresh. rewrite List.filter_app, filter_out_fresh by exact Hfresh.
  simpl. unfold id_eq. rewrite String.eqb_refl. simpl. apply app_nil_r.
Qed.

Lemma filter_out_prepended (x : A) (l : list A) :
  id x ∉ List.map id l ->
  List.filter (fun y => negb (id_eq (id y) (id x))) (x :: l) = l.
Proof.
  intros Hfresh. simpl. unfold id_eq at 1. rewrite String.eqb_refl. simpl.
  now apply filter_out_fresh.
Qed.

End ById.

(** Evaluate a handler whose confirmation was accepted and whose awaited
    calls resolved as the hypotheses say. *)
Ltac run_accepted :=
  autounfold with handlers; unfold resolves, rejects in *; cbn [run];
  repeat match goal with
         | H : confirms _ _ = _ |- _ => rewrite H
         end;
  cbn [negb run];
  repeat match goal with
         | H : fst (serve ?w ?r ?sigma) = _ |- context [serve ?w ?r ?sigma] =>
             let resp := fresh "resp" in
             let sigma' := fresh "sigma'" in
             destruct (serve w r sigma) as [resp sigma']; cbn [fst snd] in H;
             subst resp; cbn [fst snd run observe final trace server_state]
         end.

(** X4: a confirmed, acknowledged delete (post, comment, announcement,
    event, user) leaves the other entries in their order and leaves no
    entry with the deleted id, whether that id occurred once, several times
    or not at all. The comment count goes down by exactly one in each of
    these cases, and deleting an event closes the detail pane and keeps the
    loaded roster. *)
Theorem confirmed_delete_removes_by_id :
  forall Sigma (w : World Sigma) (sigma : Sigma),
    (forall postId s,
       confirms w "¿Eliminar esta publicación?" = true ->
       resolves w (DeletePost postId) sigma tt ->
       removed_by_id Post.id postId (Feed.posts s)
         (Feed.posts (final (run w (Feed.handleDeletePost postId s) sigma)))) /\
    (forall commentId s,
       confirms w "Â¿Eliminar este comentario?" = true ->
       resolves w (DeleteComment commentId) sigma tt ->
       removed_by_id Comment.id commentId (PostView.comments s)
         (PostView.comments
            (final (run w (PostView.handleDeleteComment commentId s) sigma))) /\
       PostView.commentsCount
         (final (run w (PostView.handleDeleteComment commentId s) sigma))
       = (PostView.commentsCount s - 1)%Z) /\
    (forall id s,
       confirms w "¿Eliminar este anuncio?" = true ->
       resolves w (DeleteAnnouncement id) sigma tt ->
       removed_by_id Announcement.id id (Announcements.announcements s)
         (Announcements.announcements
            (final (run w (Announcements.handleDeleteAnnouncement id s) sigma)))) /\
    (forall id s,
       confirms w "¿Eliminar este evento?" = true ->
       resolves w (DeleteEvent id) sigma tt ->
       removed_by_id Event.id id (Events.events s)
         (Events.events (final (run w (Events.handleDeleteEvent id s) sigma))) /\
       Events.selectedEvent (final (run w (Events.handleDeleteEvent id s) sigma))
       = None /\
       Events.attendances (final (run w (Events.handleDeleteEvent id s) sigma))
       = Events.attendances s) /\
    (forall userId s,
       confirms w "¿Eliminar este usuario y todo su contenido?" = true ->
       resolves w (DeleteUser userId) sigma tt ->
       removed_by_id User.id userId (AdminPanel.users s)
         (AdminPanel.users
            (final (run w (AdminPanel.handleDeleteUser userId s) sigma)))).
Proof.
  intros Sigma w sigma.
  split; [|split; [|split; [|split]]].
  - intros postId s Hc Hr. run_accepted. apply filter_out_removed.
  - intros commentId s Hc Hr. run_accepted.
    split; [apply filter_out_removed|reflexivity].
  - intros id s Hc Hr. run_accepted. apply filter_out_removed.
  - intros id s Hc Hr. run_accepted.
    split; [apply filter_out_removed|split; reflexivity].
  - intros userId s Hc Hr. run_accepted. unfold AdminPanel.fetchStats. cbn [run].
    destruct (serve w GetStats sigma') as [[stats|detail] sigma2]; simpl;
      apply filter_out_removed.
Qed.

Lemma confirmed_delete_removes_by_id_witness :
  confirms Sample.accepting_world "¿Eliminar esta publicación?" = true /\
  resolves Sample.accepting_world (DeletePost "p2") tt tt /\
  removed_by_id Post.id "p2" (Feed.posts Sample.feed)
    (Feed.posts
       (final (run Sample.accepting_world (Feed.handleDeletePost "p2" Sample.feed) tt))).
Proof.
  split; [reflexivity|]. split; [reflexivity|].
  exact (proj1 (confirmed_delete_removes_by_id unit Sample.accepting_world tt)
           "p2" Sample.feed eq_refl eq_refl).
Defined.

(** ** Comment thread and count *)

(** X5: the count of the comment button follows the thread by local
    arithmetic. In every outcome of adding a comment, and of deleting a
    comment of the thread whose ids are unique, the difference between the
    displayed count and the length of the thread is what it was before. *)
Theorem comment_count_follows_thread :
  forall Sigma (w : World Sigma) (sigma : Sigma) (post : Post.t)
         (s : PostView.State),
    count_offset (final (run w (PostView.handleComment post s) sigma))
    = count_offset s /\
    (forall c,
       NoDup (List.map Comment.id (PostView.comments s)) ->
       c ∈ PostView.comments s ->
       count_offset
         (final (run w (PostView.handleDeleteComment (Comment.id c) s) sigma))
       = count_offset s).
Proof.
  intros Sigma w sigma post s. split.
  - unfold PostView.handleComment.
    destruct (negb (JS.truthy (JS.trim (PostView.newComment s)))); [reflexivity|].
    cbn [run].
    destruct (serve w (AddComment (Post.id post) (PostView.newComment s)) sigma)
      as [[data|detail] sigma']; simpl; [|reflexivity].
    unfold count_offset. simpl. rewrite length_app. simpl. lia.
  - intros c Hnd Hc. unfold PostView.handleDeleteComment. cbn [run].
    destruct (confirms w "Â¿Eliminar este comentario?"); cbn [negb run];
      [|reflexivity].
    destruct (serve w (DeleteComment (Comment.id c)) sigma)
      as [[data|detail] sigma']; simpl; [|reflexivity].
    unfold count_offset. simpl.
    assert (Hin : Comment.id c ∈ List.map Comment.id (PostView.comments s)).
    { apply list_elem_of_In, in_map. now apply list_elem_of_In. }
    pose proof (filter_out_length Comment.id (Comment.id c) _ Hnd Hin) as Hlen.
    lia.
Qed.

Lemma comment_count_follows_thread_witness :
  NoDup (List.map Comment.id (PostView.comments Sample.thread)) /\
  Sample.comment "c1" ∈ PostView.comments Sample.thread /\
  count_offset
    (final (run Sample.accepting_world
              (PostView.handleDeleteComment "c1" Sample.thread) tt))
  = count_offset Sample.thread.
Proof.
  assert (H1 : NoDup (List.map Comment.id (PostView.comments Sample.thread))).
  { exact (bool_decide_unpack (NoDup ["c1"]) I). }
  assert (H2 : Sample.comment "c1" ∈ PostView.comments Sample.thread).
  { apply list_elem_of_In. left. reflexivity. }
  split; [exact H1|]. split; [exact H2|].
  exact (proj2 (comment_count_follows_thread unit Sample.accepting_world tt
                  (Sample.post "p1" []) Sample.thread)
           (Sample.comment "c1") H1 H2).
Defined.

(** ** Creating, then deleting or submitting again *)

Lemma not_blank_truthy (content : JS.jsstring) :
  ~ blank content -> JS.truthy (JS.trim content) = true.
Proof.
  intros Hnb. destruct (JS.truthy (JS.trim content)) eqn:E; [reflexivity|].
  exfalso. apply Hnb. now apply trim_blank.
Qed.

Lemma blank_falsy (content : JS.jsstring) :
  blank content -> JS.truthy (JS.trim content) = false.
Proof. apply trim_blank. Qed.

Lemma handleCreatePost_run {Sigma} (w : World Sigma) sigma (s : Feed.State) :
  ~ blank (NewPost.content (Feed.newPost s)) ->
  run w (Feed.handleCreatePost s) sigma
  = match fst (serve w (CreatePost (Feed.newPost s)) sigma) with
    | Ok data =>
        mkOutcome
          (Feed.setShowNewPost false
             (Feed.setNewPost NewPost.blank (Feed.setPosts (data :: Feed.posts s) s)))
          [ARequest (CreatePost (Feed.newPost s));
           ANotice (toast_success "¡Publicación creada!")]
          (snd (serve w (CreatePost (Feed.newPost s)) sigma))
    | Failed _ =>
        mkOutcome s
          [ARequest (CreatePost (Feed.newPost s));
           ANotice (toast_error "Error al crear publicación")]
          (snd (serve w (CreatePost (Feed.newPost s)) sigma))
    end.
Proof.
  intros Hnb. unfold Feed.handleCreatePost. rewrite (not_blank_truthy _ Hnb).
  cbn [negb run].
  destruct (serve w (CreatePost (Feed.newPost s)) sigma) as [[data|detail] sigma'];
    reflexivity.
Qed.

Lemma handleComment_run {Sigma} (w : World Sigma) sigma (post : Post.t)
    (s : PostView.State) :
  ~ blank (PostView.newComment s) ->
  run w (PostView.handleComment post s) sigma
  = match fst (serve w (AddComment (Post.id post) (PostView.newComment s)) sigma) with
    | Ok data =>
        mkOutcome
          (PostView.setNewComment []
             (PostView.setCommentsCount (PostView.commentsCount s + 1)%Z
                (PostView.setComments (PostView.comments s ++ [data]) s)))
          [ARequest (AddComment (Post.id post) (PostView.newComment s));
           ANotice (toast_success "Comentario agregado")]
          (snd (serve w (AddComment (Post.id post) (PostView.newComment s)) sigma))
    | Failed _ =>
        mkOutcome s
          [ARequest (AddComment (Post.id post) (PostView.newComment s));
           ANotice (toast_error "Error al agregar comentario")]
          (snd (serve w (AddComment (Post.id post) (PostView.newComment s)) sigma))
    end.
Proof.
  intros Hnb. unfold PostView.handleComment. rewrite (not_blank_truthy _ Hnb).
  cbn [negb run].
  destruct (serve w (AddComment (Post.id post) (PostView.newComment s)) sigma)
    as [[data|detail] sigma']; reflexivity.
Qed.

Lemma handleDeletePost_run {Sigma} (w : World Sigma) sigma postId (s : Feed.State) :
  confirms w "¿Eliminar esta publicación?" = true ->
  resolves w (DeletePost postId) sigma tt ->
  final (run w (Feed.handleDeletePost postId s) sigma)
  = Feed.setPosts
      (List.filter (fun p => negb (id_eq (Post.id p) postId)) (Feed.posts s)) s.
Proof. intros Hc Hr. run_accepted. reflexivity. Qed.

Lemma handleDeleteComment_run {Sigma} (w : World Sigma) sigma commentId
    (s : PostView.State) :
  confirms w "Â¿Eliminar este comentario?" = true ->
  resolves w (DeleteComment commentId) sigma tt ->
  final (run w (PostView.handleDeleteComment commentId s) sigma)
  = PostView.setCommentsCount (PostView.commentsCount s - 1)%Z
      (PostView.setComments
         (List.filter (fun c => negb (id_eq (Comment.id c) commentId))
            (PostView.comments s)) s).
Proof. intros Hc Hr. run_accepted. reflexivity. Qed.

(** X6: creating and then deleting the created entry is a round trip.
    After a post is created and the returned post, whose id is new to the
    list, is deleted, the post list is the one before the creation; after
    a comment is added and the returned comment is deleted, the thread
    and the displayed count are those before the addition. *)
Theorem create_then_delete_round_trip :
  forall Sigma (w : World Sigma) (sigma : Sigma),
    (forall (s : Feed.State) (created : Post.t),
       ~ blank (NewPost.content (Feed.newPost s)) ->
       resolves w (CreatePost (Feed.newPost s)) sigma created ->
       Post.id created ∉ List.map Post.id (Feed.posts s) ->
       confirms w "¿Eliminar esta publicación?" = true ->
       resolves w (DeletePost (Post.id created))
         (server_state (run w (Feed.handleCreatePost s) sigma)) tt ->
       Feed.posts
         (final (run w
                   (Feed.handleDeletePost (Post.id created)
                      (final (run w (Feed.handleCreatePost s) sigma)))
                   (server_state (run w (Feed.handleCreatePost s) sigma))))
       = Feed.posts s) /\
    (forall (post : Post.t) (s : PostView.State) (created : Comment.t),
       ~ blank (PostView.newComment s) ->
       resolves w (AddComment (Post.id post) (PostView.newComment s)) sigma created ->
       Comment.id created ∉ List.map Comment.id (PostView.comments s) ->
       confirms w "Â¿Eliminar este comentario?" = true ->
       resolves w (DeleteComment (Comment.id created))
         (server_state (run w (PostView.handleComment post s) sigma)) tt ->
       PostView.comments
         (final (run w
                   (PostView.handleDeleteComment (Comment.id created)
                      (final (run w (PostView.handleComment post s) sigma)))
                   (server_state (run w (PostView.handleComment post s) sigma))))
       = PostView.comments s /\
       PostView.commentsCount
         (final (run w
                   (PostView.handleDeleteComment (Comment.id created)
                      (final (run w (PostView.handleComment post s) sigma)))
                   (server_state (run w (PostView.handleComment post s) sigma))))
       = PostView.commentsCount s).
Proof.
  intros Sigma w sigma. split.
  - intros s created Hnb Hres Hfresh Hc Hdel.
    rewrite (handleDeletePost_run w _ _ _ Hc Hdel).
    rewrite (handleCreatePost_run w sigma s Hnb). unfold resolves in Hres.
    rewrite Hres. simpl. now apply (filter_out_prepended Post.id).
  - intros post s created Hnb Hres Hfresh Hc Hdel.
    rewrite (handleDeleteComment_run w _ _ _ Hc Hdel).
    rewrite (handleComment_run w sigma post s Hnb). unfold resolves in Hres.
    rewrite Hres. simpl. split; [now apply (filter_out_appended Comment.id)|lia].
Qed.

Lemma create_then_delete_round_trip_witness :
  ~ blank (NewPost.content (Feed.newPost Sample.feed)) /\
  Feed.posts
    (final (run Sample.accepting_world
              (Feed.handleDeletePost "p9"
                 (final (run Sample.accepting_world
                           (Feed.handleCreatePost Sample.feed) tt)))
              (server_state (run Sample.accepting_world
                               (Feed.handleCreatePost Sample.feed) tt))))
  = Feed.posts Sample.feed.
Proof.
  assert (Hnb : ~ blank (NewPost.content (Feed.newPost Sample.feed))).
  { intros Hb. inversion Hb as [|c l Hc _]. discriminate Hc. }
  split; [exact Hnb|].
  refine (proj1 (create_then_delete_round_trip unit Sample.accepting_world tt)
            Sample.feed
            (Post.mk "p9" "u1" (JS.lit "Ana") None (JS.lit "Ola a todos") None
               "general" "2024-01-02T00:00:00" (Some []))
            Hnb eq_refl _ eq_refl eq_refl).
  exact (bool_decide_unpack ("p9" ∉ ["p1"; "p2"; "p3"]) I).
Defined.

Lemma handleCreateAnnouncement_run {Sigma} (w : World Sigma) sigma
    (s : Announcements.State) :
  ~ blank (NewAnnouncement.title (Announcements.newAnnouncement s)) ->
  ~ blank (NewAnnouncement.content (Announcements.newAnnouncement s)) ->
  run w (Announcements.handleCreateAnnouncement s) sigma
  = match fst (serve w (CreateAnnouncement (Announcements.newAnnouncement s)) sigma) with
    | Ok data =>
        mkOutcome
          (Announcements.setShowNewAnnouncement false
             (Announcements.setNewAnnouncement NewAnnouncement.blank
                (Announcements.setAnnouncements
                   (data :: Announcements.announcements s) s)))
          [ARequest (CreateAnnouncement (Announcements.newAnnouncement s));
           ANotice (toast_success "¡Anuncio creado!")]
          (snd (serve w (CreateAnnouncement (Announcements.newAnnouncement s)) sigma))
    | Failed detail =>
        mkOutcome s
          [ARequest (CreateAnnouncement (Announcements.newAnnouncement s));
           ANotice
             (toast_error
                (JS.or_else detail
                   "Error al crear anuncio. Solo administradores pueden crear anuncios."))]
          (snd (serve w (CreateAnnouncement (Announcements.newAnnouncement s)) sigma))
    end.
Proof.
  intros Ht Hc. unfold Announcements.handleCreateAnnouncement.
  rewrite (not_blank_truthy _ Ht), (not_blank_truthy _ Hc). cbn [negb orb run].
  destruct (serve w (CreateAnnouncement (Announcements.newAnnouncement s)) sigma)
    as [[data|detail] sigma']; reflexivity.
Qed.

Lemma handleCreateEvent_run {Sigma} (w : World Sigma) sigma (s : Events.State) :
  ~ blank (NewEvent.title (Events.newEvent s)) ->
  NewEvent.start_date (Events.newEvent s) <> [] ->
  NewEvent.end_date (Events.newEvent s) <> [] ->
  run w (Events.handleCreateEvent s) sigma
  = match fst (serve w (CreateEvent (Events.newEvent s)) sigma) with
    | Ok data =>
        mkOutcome
          (Events.setShowNewEvent false
             (Events.setNewEvent NewEvent.blank
                (Events.setEvents (Events.events s ++ [data]) s)))
          [ARequest (CreateEvent (Events.newEvent s));
           ANotice (toast_success "¡Evento creado!")]
          (snd (serve w (CreateEvent (Events.newEvent s)) sigma))
    | Failed _ =>
        mkOutcome s
          [ARequest (CreateEvent (Events.newEvent s));
           ANotice (toast_error "Error al crear evento")]
          (snd (serve w (CreateEvent (Events.newEvent s)) sigma))
    end.
Proof.
  intros Ht Hs He. unfold Events.handleCreateEvent.
  rewrite (not_blank_truthy _ Ht).
  destruct (NewEvent.start_date (Events.newEvent s)) as [|c1 d1]; [congruence|].
  destruct (NewEvent.end_date (Events.newEvent s)) as [|c2 d2]; [congruence|].
  cbn [negb orb JS.truthy run].
  destruct (serve w (CreateEvent (Events.newEvent s)) sigma)
    as [[data|detail] sigma']; reflexivity.
Qed.

(** X7: a successful create resets the draft, so submitting the form
    again right away sends nothing; a rejected create keeps the draft, so
    submitting again sends the same body once more. This holds for the
    post form and for the comment form. *)
Theorem resubmission_after_create :
  forall Sigma (w : World Sigma) (sigma : Sigma),
    (forall (s : Feed.State),
       (forall created, resolves w (CreatePost (Feed.newPost s)) sigma created ->
        requests (trace (resubmission w sigma Feed.handleCreatePost s)) = []) /\
       (~ blank (NewPost.content (Feed.newPost s)) ->
        rejects w (CreatePost (Feed.newPost s)) sigma ->
        requests (trace (resubmission w sigma Feed.handleCreatePost s))
        = [CreatePost (Feed.newPost s)])) /\
    (forall (post : Post.t) (s : PostView.State),
       (forall created,
          resolves w (AddComment (Post.id post) (PostView.newComment s)) sigma created ->
          requests (trace (resubmission w sigma (PostView.handleComment post) s)) = []) /\
       (~ blank (PostView.newComment s) ->
        rejects w (AddComment (Post.id post) (PostView.newComment s)) sigma ->
        requests (trace (resubmission w sigma (PostView.handleComment post) s))
        = [AddComment (Post.id post) (PostView.newComment s)])).
Proof.
  intros Sigma w sigma. split.
  - intros s. split.
    + intros created Hres. unfold resubmission, resolves in *.
      destruct (JS.truthy (JS.trim (NewPost.content (Feed.newPost s)))) eqn:E.
      * assert (Hnb : ~ blank (NewPost.content (Feed.newPost s))).
        { intros Hb. apply blank_falsy in Hb. congruence. }
        rewrite !(handleCreatePost_run w sigma s Hnb), Hres. reflexivity.
      * unfold Feed.handleCreatePost at 2 3. rewrite E. simpl.
        unfold Feed.handleCreatePost. rewrite E. reflexivity.
    + intros Hnb [detail Hrej]. unfold resubmission.
      rewrite !(handleCreatePost_run w sigma s Hnb), Hrej.
      cbn [final server_state].
      rewrite (handleCreatePost_run w _ s Hnb).
      destruct (serve w (CreatePost (Feed.newPost s))
                  (snd (serve w (CreatePost (Feed.newPost s)) sigma)))
        as [[data|detail'] sigma2]; reflexivity.
  - intros post s. split.
    + intros created Hres. unfold resubmission, resolves in *.
      destruct (JS.truthy (JS.trim (PostView.newComment s))) eqn:E.
      * assert (Hnb : ~ blank (PostView.newComment s)).
        { intros Hb. apply blank_falsy in Hb. congruence. }
        rewrite !(handleComment_run w sigma post s Hnb), Hres. reflexivity.
      * unfold PostView.handleComment at 2 3. rewrite E. simpl.
        unfold PostView.handleComment. rewrite E. reflexivity.
    + intros Hnb [detail Hrej]. unfold resubmission.
      rewrite !(handleComment_run w sigma post s Hnb), Hrej.
      cbn [final server_state].
      rewrite (handleComment_run w _ post s Hnb).
      destruct (serve w (AddComment (Post.id post) (PostView.newComment s))
                  (snd (serve w (AddComment (Post.id post) (PostView.newComment s))
                          sigma)))
        as [[data|detail'] sigma2]; reflexivity.
Qed.

Lemma resubmission_after_create_witness :
  resolves Sample.accepting_world (CreatePost (Feed.newPost Sample.feed)) tt
    (Post.mk "p9" "u1" (JS.lit "Ana") None (JS.lit "Ola a todos") None "general"
       "2024-01-02T00:00:00" (Some [])) /\
  requests (trace (resubmission Sample.accepting_world tt Feed.handleCreatePost
                     Sample.feed)) = [] /\
  ~ blank (NewPost.content (Feed.newPost Sample.feed)) /\
  rejects refusing_world (CreatePost (Feed.newPost Sample.feed)) tt /\
  requests (trace (resubmission refusing_world tt Feed.handleCreatePost Sample.feed))
  = [CreatePost (Feed.newPost Sample.feed)].
Proof.
  assert (Hnb : ~ blank (NewPost.content (Feed.newPost Sample.feed))).
  { intros Hb. inversion Hb as [|c l Hc _]. discriminate Hc. }
  assert (Hrej : rejects refusing_world (CreatePost (Feed.newPost Sample.feed)) tt).
  { exists None. reflexivity. }
  split; [reflexivity|]. split.
  - exact (proj1 (proj1 (resubmission_after_create unit Sample.accepting_world tt)
                    Sample.feed) _ eq_refl).
  - split; [exact Hnb|]. split; [exact Hrej|].
    exact (proj2 (proj1 (resubmission_after_create unit refusing_world tt)
                    Sample.feed) Hnb Hrej).
Defined.

(** ** Announcement and event forms *)

(** X8: the announcement form is sent exactly when both the title and the
    content are non-blank; otherwise only the "complete all fields" toast
    is shown. An accepted announcement is put in front of the list. A
    rejected one shows the server's detail message when there is a
    non-empty one and the fixed fallback message otherwise. *)
Theorem create_announcement_guard :
  forall Sigma (w : World Sigma) (sigma : Sigma) (s : Announcements.State),
    let draft := Announcements.newAnnouncement s in
    let o := run w (Announcements.handleCreateAnnouncement s) sigma in
    (blank (NewAnnouncement.title draft) \/ blank (NewAnnouncement.content draft) ->
     trace o = [ANotice (toast_error "Complete todos los campos")] /\ final o = s) /\
    (~ blank (NewAnnouncement.title draft) ->
     ~ blank (NewAnnouncement.content draft) ->
     requests (trace o) = [CreateAnnouncement draft] /\
     (forall created,
        resolves w (CreateAnnouncement draft) sigma created ->
        Announcements.announcements (final o)
        = created :: Announcements.announcements s) /\
     (forall c d,
        fst (serve w (CreateAnnouncement draft) sigma) = Failed (Some (String c d)) ->
        last (trace o) = Some (ANotice (toast_error (String c d)))) /\
     (forall detail,
        detail = None \/ detail = Some EmptyString ->
        fst (serve w (CreateAnnouncement draft) sigma) = Failed detail ->
        last (trace o)
        = Some (ANotice
                  (toast_error
                     "Error al crear anuncio. Solo administradores pueden crear anuncios.")))).
Proof.
  intros Sigma w sigma s draft o. subst draft o. split.
  - intros Hblank. unfold Announcements.handleCreateAnnouncement.
    destruct Hblank as [Hb|Hb]; apply blank_falsy in Hb; rewrite Hb; simpl.
    + split; reflexivity.
    + rewrite orb_true_r. split; reflexivity.
  - intros Ht Hc. rewrite (handleCreateAnnouncement_run w sigma s Ht Hc).
    unfold resolves.
    destruct (fst (serve w (CreateAnnouncement (Announcements.newAnnouncement s)) sigma))
      as [data|detail]; simpl.
    + split; [reflexivity|]. split; [now intros created [= <-]|].
      split; intros; discriminate.
    + split; [reflexivity|]. split; [discriminate|]. split.
      * now intros c d [= ->].
      * intros detail' [->| ->] [= ->]; reflexivity.
Qed.

Lemma create_announcement_guard_witness :
  blank (NewAnnouncement.title (NewAnnouncement.mk [32; 10]%N (JS.lit "Ensaio") "general")) /\
  trace (run Sample.accepting_world
           (Announcements.handleCreateAnnouncement
              (Announcements.mk [] false true
                 (NewAnnouncement.mk [32; 10]%N (JS.lit "Ensaio") "general")))
           tt)
  = [ANotice (toast_error "Complete todos los campos")].
Proof.
  assert (H : blank (NewAnnouncement.title
                       (NewAnnouncement.mk [32; 10]%N (JS.lit "Ensaio") "general"))).
  { repeat constructor. }
  split; [exact H|].
  exact (proj1 (proj1 (create_announcement_guard unit Sample.accepting_world tt
                         (Announcements.mk [] false true
                            (NewAnnouncement.mk [32; 10]%N (JS.lit "Ensaio") "general")))
                  (or_introl H))).
Defined.

(** X9: the event form is sent exactly when the title is non-blank and
    the two date fields are non-empty (the dates are not trimmed, so a
    date field holding only spaces passes); otherwise only the "required
    fields" toast is shown. An accepted event is appended at the end of
    the event list, the draft is reset and the form is closed. *)
Theorem create_event_guard :
  forall Sigma (w : World Sigma) (sigma : Sigma) (s : Events.State),
    let draft := Events.newEvent s in
    let o := run w (Events.handleCreateEvent s) sigma in
    (blank (NewEvent.title draft) \/ NewEvent.start_date draft = []
     \/ NewEvent.end_date draft = [] ->
     trace o = [ANotice (toast_error "Complete todos los campos requeridos")] /\
     final o = s) /\
    (~ blank (NewEvent.title draft) ->
     NewEvent.start_date draft <> [] -> NewEvent.end_date draft <> [] ->
     requests (trace o) = [CreateEvent draft] /\
     (forall created,
        resolves w (CreateEvent draft) sigma created ->
        Events.events (final o) = Events.events s ++ [created] /\
        Events.newEvent (final o) = NewEvent.blank /\
        Events.showNewEvent (final o) = false)).
Proof.
  intros Sigma w sigma s draft o. subst draft o. split.
  - intros Hguard. unfold Events.handleCreateEvent.
    destruct Hguard as [Hb|[Hb|Hb]].
    + apply blank_falsy in Hb. rewrite Hb. simpl. split; reflexivity.
    + rewrite Hb. simpl. rewrite orb_true_r. simpl. split; reflexivity.
    + rewrite Hb. simpl. rewrite orb_true_r. split; reflexivity.
  - intros Ht Hs He. rewrite (handleCreateEvent_run w sigma s Ht Hs He).
    unfold resolves.
    destruct (fst (serve w (CreateEvent (Events.newEvent s)) sigma))
      as [data|detail]; simpl.
    + split; [reflexivity|]. intros created [= <-]. repeat split.
    + split; [reflexivity|]. discriminate.
Qed.

Lemma create_event_guard_witness :
  ~ blank (NewEvent.title (NewEvent.mk (JS.lit "Ensaio") [] [] [32]%N [32]%N "general")) /\
  NewEvent.start_date (NewEvent.mk (JS.lit "Ensaio") [] [] [32]%N [32]%N "general") <> [] /\
  NewEvent.end_date (NewEvent.mk (JS.lit "Ensaio") [] [] [32]%N [32]%N "general") <> [] /\
  requests
    (trace (run Sample.accepting_world
              (Events.handleCreateEvent
                 (Events.setNewEvent
                    (NewEvent.mk (JS.lit "Ensaio") [] [] [32]%N [32]%N "general")
                    Sample.calendar))
              tt))
  = [CreateEvent (NewEvent.mk (JS.lit "Ensaio") [] [] [32]%N [32]%N "general")].
Proof.
  assert (H1 : ~ blank (NewEvent.title
                          (NewEvent.mk (JS.lit "Ensaio") [] [] [32]%N [32]%N "general"))).
  { intros Hb. inversion Hb as [|c l Hc _]. discriminate Hc. }
  split; [exact H1|]. split; [discriminate|]. split; [discriminate|].
  refine (proj1 (proj2 (create_event_guard unit Sample.accepting_world tt
                          (Events.setNewEvent
                             (NewEvent.mk (JS.lit "Ensaio") [] [] [32]%N [32]%N "general")
                             Sample.calendar))
                   H1 _ _)); discriminate.
Defined.

(** ** Admin panel *)

Lemma handleToggleRole_run {Sigma} (w : World Sigma) sigma userId currentRole
    (s : AdminPanel.State) :
  confirms w ("¿Cambiar rol a " +:+ AdminPanel.role_name (AdminPanel.newRole currentRole)
              +:+ "?") = true ->
  resolves w (PutRole userId (AdminPanel.newRole currentRole)) sigma tt ->
  run w (AdminPanel.handleToggleRole userId currentRole s) sigma
  = mkOutcome
      (AdminPanel.setUsers
         (List.map (fun u => if id_eq (User.id u) userId
                             then User.with_role u (AdminPanel.newRole currentRole)
                             else u)
            (AdminPanel.users s)) s)
      [AConfirm ("¿Cambiar rol a "
                 +:+ AdminPanel.role_name (AdminPanel.newRole currentRole) +:+ "?") true;
       ARequest (PutRole userId (AdminPanel.newRole currentRole));
       ANotice (toast_success "Rol actualizado")]
      (snd (serve w (PutRole userId (AdminPanel.newRole currentRole)) sigma)).
Proof.
  intros Hconfirm Hres. unfold AdminPanel.handleToggleRole, resolves in *.
  cbn [run]. rewrite Hconfirm. cbn [negb run].
  destruct (serve w (PutRole userId (AdminPanel.newRole currentRole)) sigma)
    as [resp sigma'].
  cbn [fst] in Hres. subst resp. reflexivity.
Qed.

Lemma with_role_back (u : User.t) (r : Role) :
  User.with_role (User.with_role u r) (User.role u) = u.
Proof. destruct u. reflexivity. Qed.

(** X10: toggling the role of a roster row twice in succession, both
    toggles confirmed and accepted, gives back the roster as it was (the
    ids of the roster being unique). The second click is the one the
    re-rendered row offers: it carries the row's new role. *)
Theorem role_toggle_twice_restores :
  forall Sigma (w : World Sigma) (sigma : Sigma) (s : AdminPanel.State)
         (row : User.t),
    NoDup (List.map User.id (AdminPanel.users s)) ->
    row ∈ AdminPanel.users s ->
    confirms w "¿Cambiar rol a admin?" = true ->
    confirms w "¿Cambiar rol a member?" = true ->
    let first := run w (AdminPanel.handleToggleRole (User.id row) (User.role row) s) sigma in
    let second :=
      run w (AdminPanel.handleToggleRole (User.id row)
               (AdminPanel.newRole (User.role row)) (final first))
        (server_state first) in
    resolves w (PutRole (User.id row) (AdminPanel.newRole (User.role row))) sigma tt ->
    resolves w (PutRole (User.id row) (User.role row)) (server_state first) tt ->
    final second = s.
Proof.
  intros Sigma w sigma s row Hnd Hrow Hadmin Hmember first second Hres1 Hres2.
  assert (Hc1 : confirms w ("¿Cambiar rol a "
                  +:+ AdminPanel.role_name (AdminPanel.newRole (User.role row))
                  +:+ "?") = true).
  { destruct (User.role row); assumption. }
  assert (Hc2 : confirms w ("¿Cambiar rol a "
                  +:+ AdminPanel.role_name
                        (AdminPanel.newRole (AdminPanel.newRole (User.role row)))
                  +:+ "?") = true).
  { destruct (User.role row); assumption. }
  assert (Hback : AdminPanel.newRole (AdminPanel.newRole (User.role row))
                  = User.role row) by (destruct (User.role row); reflexivity).
  subst second first.
  rewrite (handleToggleRole_run w sigma _ _ s Hc1 Hres1) in *.
  cbn [final server_state] in *.
  rewrite handleToggleRole_run; [|exact Hc2|now rewrite Hback].
  cbn [final]. rewrite Hback. destruct s as [stats users loading]. simpl in *.
  unfold AdminPanel.setUsers. simpl. f_equal.
  rewrite List.map_map. rewrite <- (List.map_id users) at 2.
  apply List.map_ext_in. intros u Hu.
  destruct (id_eq (User.id u) (User.id row)) eqn:E.
  - simpl. rewrite E. apply id_eq_true in E.
    assert (u = row) as -> by
      (apply (unique_id_row users); auto; now apply list_elem_of_In).
    apply with_role_back.
  - now rewrite E.
Qed.

Lemma role_toggle_twice_restores_witness :
  NoDup (List.map User.id (AdminPanel.users Sample.roster)) /\
  Sample.user "u2" member ∈ AdminPanel.users Sample.roster /\
  final (run Sample.accepting_world
           (AdminPanel.handleToggleRole "u2" admin
              (final (run Sample.accepting_world
                        (AdminPanel.handleToggleRole "u2" member Sample.roster) tt)))
           (server_state (run Sample.accepting_world
                        (AdminPanel.handleToggleRole "u2" member Sample.roster) tt)))
  = Sample.roster.
Proof.
  assert (H1 : NoDup (List.map User.id (AdminPanel.users Sample.roster))).
  { exact (bool_decide_unpack (NoDup ["u1"; "u2"; "u3"]) I). }
  assert (H2 : Sample.user "u2" member ∈ AdminPanel.users Sample.roster).
  { apply list_elem_of_In. right. left. reflexivity. }
  split; [exact H1|]. split; [exact H2|].
  exact (role_toggle_twice_restores unit Sample.accepting_world tt Sample.roster
           (Sample.user "u2" member) H1 H2 eq_refl eq_refl eq_refl eq_refl).
Defined.

(** X11: a confirmed, accepted user deletion is followed by one read of
    the aggregate counts: the requests are the DELETE and then GET
    /admin/stats; the counts are replaced by the fresh ones when the read
    succeeds and left as they were when it fails, the user being removed
    from the roster in both cases. A declined confirmation sends
    nothing. *)
Theorem delete_user_refetches_stats :
  forall Sigma (w : World Sigma) (sigma : Sigma) (userId : Id)
         (s : AdminPanel.State),
    let o := run w (AdminPanel.handleDeleteUser userId s) sigma in
    let sigma' := snd (serve w (DeleteUser userId) sigma) in
    (confirms w "¿Eliminar este usuario y todo su contenido?" = true ->
     resolves w (DeleteUser userId) sigma tt ->
     requests (trace o) = [DeleteUser userId; GetStats] /\
     AdminPanel.users (final o)
     = List.filter (fun u => negb (id_eq (User.id u) userId)) (AdminPanel.users s) /\
     (forall fresh, resolves w GetStats sigma' fresh ->
                    AdminPanel.stats (final o) = Some fresh) /\
     (rejects w GetStats sigma' -> AdminPanel.stats (final o) = AdminPanel.stats s)) /\
    (confirms w "¿Eliminar este usuario y todo su contenido?" = false ->
     trace o = [AConfirm "¿Eliminar este usuario y todo su contenido?" false] /\
     final o = s).
Proof.
  intros Sigma w sigma userId s o sigma'. subst o sigma'. split.
  - intros Hc Hr. run_accepted. unfold AdminPanel.fetchStats. cbn [run].
    match goal with
    | |- context [serve w GetStats ?x] =>
        destruct (serve w GetStats x) as [[stats|detail] sigma2]; simpl
    end.
    + split; [reflexivity|]. split; [reflexivity|].
      split; [now intros fresh [= <-]|]. intros (? & ?). discriminate.
    + split; [reflexivity|]. split; [reflexivity|].
      split; [discriminate|reflexivity].
  - intros Hc. unfold AdminPanel.handleDeleteUser. cbn [run]. rewrite Hc.
    split; reflexivity.
Qed.

Lemma delete_user_refetches_stats_witness :
  confirms Sample.accepting_world "¿Eliminar este usuario y todo su contenido?" = true /\
  resolves Sample.accepting_world (DeleteUser "u3") tt tt /\
  requests (trace (run Sample.accepting_world
                     (AdminPanel.handleDeleteUser "u3" Sample.roster) tt))
  = [DeleteUser "u3"; GetStats].
Proof.
  split; [reflexivity|]. split; [reflexivity|].
  exact (proj1 (proj1 (delete_user_refetches_stats unit Sample.accepting_world tt
                         "u3" Sample.roster) eq_refl eq_refl)).
Defined.

(** ** Events page *)

Lemma id_eq_refl (a : Id) : id_eq a a = true.
Proof. apply String.eqb_refl. Qed.

Lemma attendanceButtons_selected (s : Events.State) (eventId : Id) (status : Status) :
  (eventId, status) ∈ Markup.attendanceButtons s ->
  Events.is_selected eventId s = true.
Proof.
  unfold Markup.attendanceButtons, Events.is_selected.
  destruct (Events.loading s); [now intros H; apply elem_of_nil in H|].
  destruct (Events.selectedEvent s) as [e|]; [|now intros H; apply elem_of_nil in H].
  intros H.
  repeat (apply elem_of_cons in H as [[= -> _]|H]; [apply id_eq_refl|]).
  now apply elem_of_nil in H.
Qed.

(** X12: every attendance button the page renders belongs to the selected
    event, so every successful attendance write made from the page is
    followed by a read of that event's roster; the three buttons are
    rendered only when an event is selected and the page is not
    loading. *)
Theorem attendance_buttons_always_refetch :
  forall Sigma (w : World Sigma) (sigma : Sigma) (s : Events.State)
         (eventId : Id) (status : Status),
    (eventId, status) ∈ Markup.attendanceButtons s ->
    (exists e, Events.selectedEvent s = Some e /\ Event.id e = eventId) /\
    Events.loading s = false /\
    (resolves w (Attend eventId status) sigma tt ->
     requests (trace (run w (Events.handleAttendance eventId status s) sigma))
     = [Attend eventId status; GetAttendances eventId]).
Proof.
  intros Sigma w sigma s eventId status Hbtn.
  pose proof (attendanceButtons_selected s eventId status Hbtn) as Hsel.
  split; [|split].
  - unfold Events.is_selected in Hsel.
    destruct (Events.selectedEvent s) as [e|]; [|discriminate].
    exists e. split; [reflexivity|]. now apply id_eq_true.
  - unfold Markup.attendanceButtons in Hbtn.
    destruct (Events.loading s); [now apply elem_of_nil in Hbtn|reflexivity].
  - intros Hres. unfold Events.handleAttendance, resolves in *. cbn [run].
    destruct (serve w (Attend eventId status) sigma) as [resp sigma1].
    cbn [fst] in Hres. subst resp. cbn [fst snd run]. rewrite Hsel.
    unfold Events.fetchAttendances. cbn [run].
    destruct (serve w (GetAttendances eventId) sigma1) as [[data|detail] sigma2];
      reflexivity.
Qed.

Lemma attendance_buttons_always_refetch_witness :
  ("e1", maybe) ∈ Markup.attendanceButtons Sample.calendar /\
  resolves Sample.accepting_world (Attend "e1" maybe) tt tt /\
  requests (trace (run Sample.accepting_world
                     (Events.handleAttendance "e1" maybe Sample.calendar) tt))
  = [Attend "e1" maybe; GetAttendances "e1"].
Proof.
  assert (H : ("e1", maybe) ∈ Markup.attendanceButtons Sample.calendar).
  { apply list_elem_of_In. right. left. reflexivity. }
  split; [exact H|]. split; [reflexivity|].
  exact (proj2 (proj2 (attendance_buttons_always_refetch unit Sample.accepting_world tt
                         Sample.calendar "e1" maybe H)) eq_refl).
Defined.

Lemma find_some_first {A} (f : A -> bool) (l : list A) (a : A) :
  List.find f l = Some a -> a ∈ l /\ f a = true.
Proof.
  intros H. apply find_some in H as [Hin Hf]. split; [now apply list_elem_of_In|exact Hf].
Qed.

Lemma unique_user_entry (roster : list Attendance.t) (a b : Attendance.t) :
  NoDup (List.map Attendance.user_id roster) ->
  a ∈ roster -> b ∈ roster -> Attendance.user_id a = Attendance.user_id b -> a = b.
Proof.
  induction roster as [|x roster IH]; intros Hnd Ha Hb Hid.
  - inversion Ha.
  - cbn [List.map] in Hnd. apply NoDup_cons in Hnd as [Hx Hnd].
    apply elem_of_cons in Ha as [->|Ha]; apply elem_of_cons in Hb as [->|Hb].
    + reflexivity.
    + exfalso. apply Hx. rewrite Hid. apply list_elem_of_In, in_map.
      now apply list_elem_of_In.
    + exfalso. apply Hx. rewrite <- Hid. apply list_elem_of_In, in_map.
      now apply list_elem_of_In.
    + now apply IH.
Qed.

(** X13: what the detail pane derives from the roster is consistent. The
    attendee list never has more entries than the roster; an entry of the
    current user shown as "attending" in the status buttons is in the
    attendee list; and when the roster holds at most one entry per user
    and an event is selected, the converse holds: a user listed among the
    attendees sees the "attending" button highlighted. *)
Theorem attendance_status_matches_attendees :
  forall (user : User.t) (s : Events.State),
    (Events.attendingCount s <= length (Events.attendances s))%nat /\
    (forall a,
       Events.userAttendance user s = Some a ->
       Attendance.user_id a = User.id user /\ a ∈ Events.attendances s /\
       (Attendance.status a = attending -> a ∈ Events.attendees s)) /\
    (NoDup (List.map Attendance.user_id (Events.attendances s)) ->
     Events.selectedEvent s <> None ->
     forall a,
       a ∈ Events.attendees s -> Attendance.user_id a = User.id user ->
       Events.userAttendance user s = Some a).
Proof.
  intros user s. split; [|split].
  - unfold Events.attendingCount, Events.attendees. apply filter_length_le.
  - intros a Hfind. unfold Events.userAttendance in Hfind.
    destruct (Events.selectedEvent s); [|discriminate].
    apply find_some_first in Hfind as [Hin Hid]. apply id_eq_true in Hid.
    split; [exact Hid|]. split; [exact Hin|].
    intros Hst. unfold Events.attendees.
    apply list_elem_of_In, filter_In. split; [now apply list_elem_of_In|].
    now rewrite Hst.
  - intros Hnd Hsel a Ha Hid. unfold Events.userAttendance.
    destruct (Events.selectedEvent s) as [e|]; [|congruence].
    unfold Events.attendees in Ha.
    apply list_elem_of_In, filter_In in Ha as [Ha _]. apply list_elem_of_In in Ha.
    destruct (List.find (fun a0 => id_eq (Attendance.user_id a0) (User.id user))
                (Events.attendances s)) as [b|] eqn:E.
    + apply find_some_first in E as [Hb Hbid]. apply id_eq_true in Hbid.
      f_equal. apply (unique_user_entry (Events.attendances s)); auto. congruence.
    + exfalso. apply list_elem_of_In in Ha.
      pose proof (find_none _ _ E a Ha) as Hno. simpl in Hno.
      rewrite Hid, id_eq_refl in Hno. discriminate.
Qed.

Lemma attendance_status_matches_attendees_witness :
  NoDup (List.map Attendance.user_id
           [Sample.attendance "a1" "u1" attending; Sample.attendance "a2" "u2" maybe]) /\
  Events.userAttendance (Sample.user "u1" member)
    (Events.setAttendances
       [Sample.attendance "a1" "u1" attending; Sample.attendance "a2" "u2" maybe]
       Sample.calendar)
  = Some (Sample.attendance "a1" "u1" attending).
Proof.
  assert (H : NoDup (List.map Attendance.user_id
                       [Sample.attendance "a1" "u1" attending;
                        Sample.attendance "a2" "u2" maybe])).
  { exact (bool_decide_unpack (NoDup ["u1"; "u2"]) I). }
  split; [exact H|].
  refine (proj2 (proj2 (attendance_status_matches_attendees (Sample.user "u1" member)
            (Events.setAttendances
               [Sample.attendance "a1" "u1" attending; Sample.attendance "a2" "u2" maybe]
               Sample.calendar)))
            H _ (Sample.attendance "a1" "u1" attending) _ eq_refl).
  - discriminate.
  - apply list_elem_of_In. left. reflexivity.
Defined.

(** X14: selecting an event is not undone by a failed roster read. After
    the click the selected event is the clicked one in every outcome; when
    the read of its roster fails, the roster in the pane is still the one
    loaded before (that of the previously selected event), with an error
    toast; when it succeeds the roster is the one read. *)
Theorem select_event_keeps_stale_roster_on_failure :
  forall Sigma (w : World Sigma) (sigma : Sigma) (event : Event.t)
         (s : Events.State),
    let o := run w (Events.handleSelectEvent event s) sigma in
    Events.selectedEvent (final o) = Some event /\
    requests (trace o) = [GetAttendances (Event.id event)] /\
    (rejects w (GetAttendances (Event.id event)) sigma ->
     Events.attendances (final o) = Events.attendances s /\
     trace o = [ARequest (GetAttendances (Event.id event));
                ANotice (toast_error "Error al cargar asistencias")]) /\
    (forall roster : list Attendance.t,
       resolves w (GetAttendances (Event.id event)) sigma roster ->
       Events.attendances (final o) = roster).
Proof.
  intros Sigma w sigma event s o. subst o.
  unfold Events.handleSelectEvent, Events.fetchAttendances, rejects, resolves.
  cbn [run].
  destruct (serve w (GetAttendances (Event.id event)) sigma) as [[data|detail] sigma'];
    simpl.
  - split; [reflexivity|]. split; [reflexivity|].
    split; [intros (? & ?); discriminate|now intros roster [= <-]].
  - split; [reflexivity|]. split; [reflexivity|].
    split; [intros _; split; reflexivity|discriminate].
Qed.

Lemma select_event_keeps_stale_roster_on_failure_witness :
  rejects refusing_world (GetAttendances (Event.id (Sample.event "e2" 40 102))) tt /\
  Events.selectedEvent
    (final (run refusing_world
              (Events.handleSelectEvent (Sample.event "e2" 40 102) Sample.calendar) tt))
  = Some (Sample.event "e2" 40 102) /\
  Events.attendances
    (final (run refusing_world
              (Events.handleSelectEvent (Sample.event "e2" 40 102) Sample.calendar) tt))
  = [Sample.attendance "a2" "u2" maybe].
Proof.
  assert (H : rejects refusing_world
                (GetAttendances (Event.id (Sample.event "e2" 40 102))) tt).
  { exists None. reflexivity. }
  split; [exact H|]. split; [reflexivity|].
  exact (proj1 (proj1 (proj2 (proj2
           (select_event_keeps_stale_roster_on_failure unit refusing_world tt
              (Sample.event "e2" 40 102) Sample.calendar))) H)).
Defined.

(** ** What a user can reach from the pages *)

(** X15: the delete buttons a member (a user who is not an administrator)
    is offered are those of the member's own posts and own comments; no
    announcement delete button, no announcement form and no event delete
    button is rendered for a member. An administrator is offered the
    delete button of every loaded post. *)
Theorem member_is_offered_own_content_only :
  forall (user : User.t),
    (User.role user = member ->
     (forall (s : Feed.State) (p : Post.t),
        p ∈ Markup.postDeleteButtons user s ->
        p ∈ Feed.posts s /\ Post.user_id p = User.id user) /\
     (forall (s : PostView.State) (c : Comment.t),
        c ∈ PostView.commentDeleteButtons user s ->
        c ∈ PostView.comments s /\ Comment.user_id c = User.id user) /\
     (forall s, Markup.announcementDeleteButtons user s = []) /\
     (forall s, Markup.announcementFormShown user s = false) /\
     (forall s, Markup.eventDeleteButton user s = None)) /\
    (User.role user = admin ->
     forall s, Feed.loading s = false ->
               Markup.postDeleteButtons user s = Feed.posts s).
Proof.
  intros user. split.
  - intros Hrole. split; [|split; [|split; [|split]]].
    + intros s p Hp. unfold Markup.postDeleteButtons in Hp.
      destruct (Feed.loading s); [now apply elem_of_nil in Hp|].
      apply list_elem_of_In, filter_In in Hp as [Hin Hcan].
      split; [now apply list_elem_of_In|].
      unfold PostView.canDelete in Hcan. rewrite Hrole, orb_false_r in Hcan.
      symmetry. now apply id_eq_true.
    + intros s c Hc. unfold PostView.commentDeleteButtons in Hc.
      destruct (PostView.showComments s); [|now apply elem_of_nil in Hc].
      destruct (PostView.loadingComments s); [now apply elem_of_nil in Hc|].
      apply list_elem_of_In, filter_In in Hc as [Hin Hcan].
      split; [now apply list_elem_of_In|].
      unfold PostView.canDeleteComment in Hcan. rewrite Hrole, orb_false_r in Hcan.
      symmetry. now apply id_eq_true.
    + intros s. unfold Markup.announcementDeleteButtons. rewrite Hrole.
      now destruct (Announcements.loading s).
    + intros s. unfold Markup.announcementFormShown. rewrite Hrole.
      apply andb_false_r.
    + intros s. unfold Markup.eventDeleteButton. rewrite Hrole.
      destruct (Events.loading s); [reflexivity|].
      now destruct (Events.selectedEvent s).
  - intros Hrole s Hload. unfold Markup.postDeleteButtons. rewrite Hload.
    apply filter_all, Forall_forall. intros p _.
    unfold PostView.canDelete. rewrite Hrole. apply orb_true_r.
Qed.

Lemma member_is_offered_own_content_only_witness :
  User.role (Sample.user "u1" member) = member /\
  Markup.postDeleteButtons (Sample.user "u1" member) Sample.feed
  = Feed.posts Sample.feed /\
  Markup.postDeleteButtons (Sample.user "u7" member) Sample.feed = [] /\
  forall p, p ∈ Markup.postDeleteButtons (Sample.user "u7" member) Sample.feed ->
            p ∈ Feed.posts Sample.feed /\ Post.user_id p = "u7".
Proof.
  split; [reflexivity|]. split; [reflexivity|]. split; [reflexivity|].
  exact (proj1 (proj1 (member_is_offered_own_content_only (Sample.user "u7" member))
                  eq_refl) Sample.feed).
Defined.

(** X16: the admin panel offers the role and delete buttons on the rows
    of the other users only, so no click on the roster can remove or
    change the administrator's own row: after any offered delete or role
    toggle, whatever the user answers and the server does, the own row is
    still in the roster as it was. *)
Theorem admin_cannot_act_on_own_row :
  forall Sigma (w : World Sigma) (sigma : Sigma) (user : User.t)
         (s : AdminPanel.State) (u : User.t),
    u ∈ Markup.adminRowButtons user s ->
    User.id u <> User.id user /\
    forall me,
      me ∈ AdminPanel.users s -> User.id me = User.id user ->
      me ∈ AdminPanel.users
             (final (run w (AdminPanel.handleDeleteUser (User.id u) s) sigma)) /\
      me ∈ AdminPanel.users
             (final (run w (AdminPanel.handleToggleRole (User.id u) (User.role u) s)
                       sigma)).
Proof.
  intros Sigma w sigma user s u Hu.
  assert (Hne : User.id u <> User.id user).
  { unfold Markup.adminRowButtons in Hu.
    destruct (AdminPanel.loading s); [now apply elem_of_nil in Hu|].
    apply list_elem_of_In, filter_In in Hu as [_ Hu].
    apply negb_true_iff in Hu. now apply id_eq_false in Hu. }
  split; [exact Hne|]. intros me Hme Hid.
  assert (Hkeep : id_eq (User.id me) (User.id u) = false).
  { apply id_eq_false. congruence. }
  split.
  - unfold AdminPanel.handleDeleteUser. cbn [run].
    destruct (confirms w _); cbn [negb run]; [|exact Hme].
    destruct (serve w (DeleteUser (User.id u)) sigma) as [[[]|detail] sigma'];
      cbn [fst snd run observe final]; [|exact Hme].
    unfold AdminPanel.fetchStats. cbn [run].
    destruct (serve w GetStats sigma') as [[stats|detail] sigma2]; simpl;
      apply list_elem_of_In, filter_In;
      (split; [now apply list_elem_of_In|now rewrite Hkeep]).
  - unfold AdminPanel.handleToggleRole. cbn [run].
    destruct (confirms w _); cbn [negb run]; [|exact Hme].
    destruct (serve w (PutRole (User.id u) (AdminPanel.newRole (User.role u))) sigma)
      as [[[]|detail] sigma']; simpl; [|exact Hme].
    apply list_elem_of_In, in_map_iff. exists me.
    split; [now rewrite Hkeep|now apply list_elem_of_In].
Qed.

Lemma admin_cannot_act_on_own_row_witness :
  Sample.user "u2" member ∈ Markup.adminRowButtons (Sample.user "u1" admin) Sample.roster /\
  Markup.adminRowButtons (Sample.user "u1" admin) Sample.roster
  = [Sample.user "u2" member; Sample.user "u3" member] /\
  User.id (Sample.user "u2" member) <> User.id (Sample.user "u1" admin).
Proof.
  assert (H : Sample.user "u2" member
              ∈ Markup.adminRowButtons (Sample.user "u1" admin) Sample.roster).
  { apply list_elem_of_In. left. reflexivity. }
  split; [exact H|]. split; [reflexivity|].
  exact (proj1 (admin_cannot_act_on_own_row unit Sample.accepting_world tt
                  (Sample.user "u1" admin) Sample.roster (Sample.user "u2" member) H)).
Defined.

(** ** Profile page *)

Lemma or_empty_shows (field : option JS.jsstring) :
  shows field (Profile.or_empty field).
Proof. destruct field; reflexivity. Qed.

Lemma form_of_filled (u : User.t) : filled_from u (Profile.form_of u).
Proof.
  unfold filled_from, Profile.form_of. cbn [ProfileForm.name ProfileForm.avatar
    ProfileForm.bio ProfileForm.position ProfileForm.phone ProfileForm.location].
  split; [reflexivity|]. repeat split; apply or_empty_shows.
Qed.

(** The fields of a user leave one way to fill the form. *)
Lemma filled_from_unique (u : User.t) (f f' : ProfileForm.t) :
  filled_from u f -> filled_from u f' -> f = f'.
Proof.
  destruct f as [n a b p t l], f' as [n' a' b' p' t' l'].
  unfold filled_from, shows. simpl.
  intros (Hn & Ha & Hb & Hp & Ht & Hl) (Hn' & Ha' & Hb' & Hp' & Ht' & Hl').
  destruct (User.avatar u), (User.bio u), (User.position u), (User.phone u),
    (User.location u); congruence.
Qed.

(** X17: on the user's own profile (no route parameter, an empty one, or
    the user's own id) loading the page and cancelling an edit send no
    request. Both show the current user and fill the form from the
    current user's fields (the name, and each optional field's text or the
    empty text), so cancelling discards whatever draft was typed and
    leaves the editing mode; saving right after opening the editor sends
    exactly one request, whose body is the form filled from the current
    user's fields. *)
Theorem own_profile_is_local :
  forall Sigma (w : World Sigma) (sigma : Sigma) (currentUser : User.t)
         (userId : option Id) (s : Profile.State),
    userId = None \/ userId = Some EmptyString \/ userId = Some (User.id currentUser) ->
    Profile.isOwnProfile currentUser userId = true /\
    (let o := run w (Profile.fetchUserProfile currentUser userId s) sigma in
     trace o = [] /\
     Profile.user (final o) = Some currentUser /\
     filled_from currentUser (Profile.formData (final o)) /\
     Profile.loading (final o) = false /\
     Profile.editing (final o) = Profile.editing s /\
     exists sent : ProfileForm.t,
       filled_from currentUser sent /\
       requests
         (trace (run w (Profile.handleSaveProfile (Profile.startEdit (final o))) sigma))
       = [PutProfile sent]) /\
    (forall draft : ProfileForm.t,
       let o := run w (Profile.cancelEdit currentUser userId
                         (Profile.editForm draft (Profile.startEdit s))) sigma in
       trace o = [] /\
       Profile.user (final o) = Some currentUser /\
       filled_from currentUser (Profile.formData (final o)) /\
       Profile.editing (final o) = false).
Proof.
  intros Sigma w sigma currentUser userId s Hown.
  assert (H : Profile.isOwnProfile currentUser userId = true).
  { destruct Hown as [->|[->| ->]]; simpl; auto.
    rewrite id_eq_refl. apply orb_true_r. }
  split; [exact H|]. split.
  - unfold Profile.fetchUserProfile. rewrite H. cbn [run final trace].
    split; [reflexivity|]. split; [reflexivity|].
    split; [apply form_of_filled|]. split; [reflexivity|]. split; [reflexivity|].
    exists (Profile.form_of currentUser). split; [apply form_of_filled|].
    simpl.
    destruct (serve w (PutProfile (Profile.form_of currentUser)) sigma)
      as [[data|detail] sigma']; reflexivity.
  - intros draft. unfold Profile.cancelEdit, Profile.fetchUserProfile. rewrite H.
    cbn [run final trace].
    split; [reflexivity|]. split; [reflexivity|].
    split; [apply form_of_filled|reflexivity].
Qed.

Lemma own_profile_is_local_witness :
  (Some "u1" = None \/ Some "u1" = Some EmptyString
   \/ Some "u1" = Some (User.id Sample.ana)) /\
  trace (run Sample.accepting_world
           (Profile.fetchUserProfile Sample.ana (Some "u1") Profile.initial) tt) = [] /\
  Profile.user
    (final (run Sample.accepting_world
              (Profile.fetchUserProfile Sample.ana (Some "u1") Profile.initial) tt))
  = Some Sample.ana /\
  filled_from Sample.ana
    (Profile.formData
       (final (run Sample.accepting_world
                 (Profile.fetchUserProfile Sample.ana (Some "u1") Profile.initial) tt))) /\
  Profile.formData
    (final (run Sample.accepting_world
              (Profile.fetchUserProfile Sample.ana (Some "u1") Profile.initial) tt))
  = ProfileForm.mk (JS.lit "Ana") [] (JS.lit "Gaiteira") [] (JS.lit "600") [].
Proof.
  assert (H : Some "u1" = None \/ Some "u1" = Some EmptyString
              \/ Some "u1" = Some (User.id Sample.ana)).
  { right. right. reflexivity. }
  split; [exact H|].
  destruct (proj1 (proj2 (own_profile_is_local unit Sample.accepting_world tt
                            Sample.ana (Some "u1") Profile.initial H)))
    as (Ht & Hu & Hf & _).
  split; [exact Ht|]. split; [exact Hu|]. split; [exact Hf|reflexivity].
Defined.

(** X18: on another user's profile the page sends one GET /users/{id} and
    leaves the form alone. When the read fails on a freshly mounted page,
    the error toast is shown, the loading flag is cleared and the shown
    user is still null, so the next render, which reads fields of the
    user, throws; when the read succeeds the page renders the user read,
    as a profile that is not the current user's own. *)
Theorem foreign_profile_failed_load_breaks_render :
  forall Sigma (w : World Sigma) (sigma : Sigma) (currentUser : User.t) (id : Id),
    id <> EmptyString -> id <> User.id currentUser ->
    let o := run w (Profile.fetchUserProfile currentUser (Some id) Profile.initial)
               sigma in
    requests (trace o) = [GetUser id] /\
    Profile.formData (final o) = Profile.formData Profile.initial /\
    (rejects w (GetUser id) sigma ->
     trace o = [ARequest (GetUser id); ANotice (toast_error "Error al cargar perfil")] /\
     Profile.render currentUser (Some id) (final o) = None) /\
    (forall shown : User.t,
       resolves w (GetUser id) sigma shown ->
       Profile.render currentUser (Some id) (final o)
       = Some (Profile.ProfileScreen shown false false)).
Proof.
  intros Sigma w sigma currentUser id Hne Hother o. subst o.
  assert (H : Profile.isOwnProfile currentUser (Some id) = false).
  { unfold Profile.isOwnProfile. destruct id as [|c t]; [congruence|].
    cbn [JS.truthy_string negb orb]. now apply id_eq_false. }
  unfold Profile.fetchUserProfile, Profile.render, rejects, resolves.
  rewrite H. cbn [run].
  destruct (serve w (GetUser id) sigma) as [[data|detail] sigma']; simpl.
  - split; [reflexivity|]. split; [reflexivity|].
    split; [intros (? & ?); discriminate|now intros shown [= <-]].
  - split; [reflexivity|]. split; [reflexivity|].
    split; [intros _; split; reflexivity|discriminate].
Qed.

Lemma foreign_profile_failed_load_breaks_render_witness :
  "u2" <> EmptyString /\ "u2" <> User.id (Sample.user "u1" member) /\
  rejects refusing_world (GetUser "u2") tt /\
  Profile.render (Sample.user "u1" member) (Some "u2")
    (final (run refusing_world
              (Profile.fetchUserProfile (Sample.user "u1" member) (Some "u2")
                 Profile.initial) tt))
  = None.
Proof.
  assert (H1 : "u2" <> EmptyString) by discriminate.
  assert (H2 : "u2" <> User.id (Sample.user "u1" member)) by discriminate.
  assert (H3 : rejects refusing_world (GetUser "u2") tt) by (exists None; reflexivity).
  split; [exact H1|]. split; [exact H2|]. split; [exact H3|].
  exact (proj2 (proj1 (proj2 (proj2
           (foreign_profile_failed_load_breaks_render unit refusing_world tt
              (Sample.user "u1" member) "u2" H1 H2))) H3)).
Defined.

(** ** Session *)

Lemma interceptor_token (c : ascii) (t : string) :
  App.interceptor (Some (String c t)) ∅ = bearer (String c t).
Proof. reflexivity. Qed.

(** X19: the start-up of the application ends with the loading flag
    cleared on every path. Without a stored token, or with an empty one,
    nothing is sent and the session is left as it was; with a token one
    request goes to /auth/me carrying it as bearer credential: an accepted
    token sets the user and stays stored, a rejected one is removed from
    the storage and leaves the user unset. *)
Theorem startup_paths :
  forall (auth_me : gmap string string -> Response User.t) (s : App.State)
         (stored : App.Storage),
    let r := App.startup auth_me s stored in
    App.loading (App.state r) = false /\
    (stored = None \/ stored = Some EmptyString ->
     App.sent r = [] /\ App.user (App.state r) = App.user s /\ App.storage r = stored) /\
    (forall c t,
       stored = Some (String c t) ->
       App.sent r = [bearer (String c t)] /\
       (forall u, auth_me (bearer (String c t)) = Ok u ->
                  App.user (App.state r) = Some u /\ App.storage r = stored) /\
       (forall detail, auth_me (bearer (String c t)) = Failed detail ->
                       App.user (App.state r) = App.user s /\ App.storage r = None)).
Proof.
  intros auth_me s stored r. subst r. split; [|split].
  - unfold App.startup. destruct stored as [[|c t]|]; try reflexivity.
    cbn [JS.truthy_string]. now destruct (auth_me _).
  - intros [-> | ->]; repeat split.
  - intros c t ->. unfold App.startup. cbn [JS.truthy_string].
    rewrite interceptor_token.
    destruct (auth_me (bearer (String c t))) as [u|detail]; simpl.
    + split; [reflexivity|]. split; [now intros u' [= <-]|discriminate].
    + split; [reflexivity|]. split; [discriminate|]. intros; split; reflexivity.
Qed.

Lemma startup_paths_witness :
  (@None string = None \/ @None string = Some EmptyString) /\
  App.sent (App.startup (fun _ => Failed None) App.initial None) = [] /\
  App.loading (App.state (App.startup (fun _ => Failed None) App.initial None)) = false.
Proof.
  assert (H : @None string = None \/ @None string = Some EmptyString) by now left.
  split; [exact H|].
  destruct (startup_paths (fun _ => Failed None) App.initial None) as (Hl & Hn & _).
  split; [exact (proj1 (Hn H))|exact Hl].
Defined.

(** X20: a successful login survives a page reload. The form is posted to
    /auth/login or /auth/register according to the mode; when the server
    answers with a user and a non-empty token, the token is stored and the
    user is set, and a reload then sends that token to /auth/me and, the
    server accepting it, restores the same user without asking for the
    credentials again. *)
Theorem login_survives_reload :
  forall (auth : string -> Login.FormData -> Response (User.t * string))
         (auth_me : gmap string string -> Response User.t)
         (s : Login.State) (app : App.State) (stored : App.Storage)
         (u : User.t) (c : ascii) (t : string),
    auth (if Login.isLogin s then "/auth/login" else "/auth/register")
      (Login.formData s) = Ok (u, String c t) ->
    auth_me (bearer (String c t)) = Ok u ->
    let logged := Login.session (Login.handleSubmit auth s app stored) in
    let reloaded := App.reload auth_me (App.storage logged) in
    App.user (App.state logged) = Some u /\
    App.storage logged = Some (String c t) /\
    Login.loading (Login.view (Login.handleSubmit auth s app stored)) = false /\
    App.sent reloaded = [bearer (String c t)] /\
    App.user (App.state reloaded) = Some u /\
    App.loading (App.state reloaded) = false /\
    App.storage reloaded = Some (String c t).
Proof.
  intros auth auth_me s app stored u c t Hauth Hme logged reloaded.
  subst reloaded logged. unfold Login.handleSubmit, Login.endpoint.
  rewrite Hauth. cbn [Login.session Login.view App.handleLogin App.storage App.state
                      fst snd].
  unfold App.reload, App.startup. cbn [JS.truthy_string].
  rewrite interceptor_token, Hme. repeat split.
Qed.

Lemma login_survives_reload_witness :
  (fun (_ : string) (_ : Login.FormData) => Ok (Sample.user "u1" member, "tok"))
    (if Login.isLogin (Login.mk true (Login.mkForm (JS.lit "a@b.gal") (JS.lit "pw") []) false)
     then "/auth/login" else "/auth/register")
    (Login.formData (Login.mk true (Login.mkForm (JS.lit "a@b.gal") (JS.lit "pw") []) false))
  = Ok (Sample.user "u1" member, "tok") /\
  App.user
    (App.state
       (App.reload (fun _ => Ok (Sample.user "u1" member))
          (App.storage
             (Login.session
                (Login.handleSubmit
                   (fun _ _ => Ok (Sample.user "u1" member, "tok"))
                   (Login.mk true (Login.mkForm (JS.lit "a@b.gal") (JS.lit "pw") []) false)
                   App.initial None)))))
  = Some (Sample.user "u1" member).
Proof.
  split; [reflexivity|].
  exact (proj1 (proj2 (proj2 (proj2 (proj2
           (login_survives_reload
              (fun _ _ => Ok (Sample.user "u1" member, "tok"))
              (fun _ => Ok (Sample.user "u1" member))
              (Login.mk true (Login.mkForm (JS.lit "a@b.gal") (JS.lit "pw") []) false)
              App.initial None (Sample.user "u1" member) "t"%char "ok"
              eq_refl eq_refl)))))).
Defined.

(** X21: the session ends for good. After a logout, whatever was stored, a
    reload sends nothing and stays logged out. After a start-up whose
    token the server rejected, the token is gone, so the next reload sends
    nothing either. A failed login leaves the session and the storage
    untouched, clears the form's loading flag and shows the server's
    detail or the fixed message. *)
Theorem session_ends :
  forall (auth_me : gmap string string -> Response User.t),
    (forall (s : App.State) (stored : App.Storage),
       let out := App.handleLogout s stored in
       App.user (App.state out) = None /\ App.storage out = None /\
       App.sent (App.reload auth_me (App.storage out)) = [] /\
       App.user (App.state (App.reload auth_me (App.storage out))) = None) /\
    (forall (stored : App.Storage),
       (forall headers u, auth_me headers <> Ok u) ->
       let first := App.reload auth_me stored in
       App.user (App.state first) = None /\
       (stored <> Some EmptyString -> App.storage first = None) /\
       App.sent (App.reload auth_me (App.storage first)) = []) /\
    (forall (auth : string -> Login.FormData -> Response (User.t * string))
            (s : Login.State) (app : App.State) (stored : App.Storage) detail,
       auth (Login.endpoint s) (Login.formData s) = Failed detail ->
       let out := Login.handleSubmit auth s app stored in
       App.state (Login.session out) = app /\
       App.storage (Login.session out) = stored /\
       Login.loading (Login.view out) = false /\
       Login.notices out
       = [toast_error (JS.or_else detail "Error en la autenticación")]).
Proof.
  intros auth_me. split; [|split].
  - intros s stored out. subst out. repeat split.
  - intros stored Hrej first. subst first. unfold App.reload, App.startup.
    destruct stored as [[|c t]|]; cbn [JS.truthy_string].
    + repeat split. congruence.
    + destruct (auth_me (App.interceptor (Some (String c t)) ∅)) as [u|detail] eqn:E.
      * exfalso. exact (Hrej _ _ E).
      * repeat split.
    + repeat split.
  - intros auth s app stored detail Hfail out. subst out. unfold Login.handleSubmit.
    rewrite Hfail. repeat split.
Qed.

Lemma session_ends_witness :
  (forall headers u, (fun _ : gmap string string => @Failed User.t None) headers <> Ok u) /\
  App.storage (App.reload (fun _ => Failed None) (Some "expired")) = None /\
  App.sent
    (App.reload (fun _ => Failed None)
       (App.storage (App.reload (fun _ => Failed None) (Some "expired"))))
  = [].
Proof.
  assert (H : forall headers u,
             (fun _ : gmap string string => @Failed User.t None) headers <> Ok u)
    by discriminate.
  split; [exact H|].
  destruct (proj1 (proj2 (session_ends (fun _ => Failed None))) (Some "expired") H)
    as (_ & Hs & Hsent).
  split; [apply Hs; discriminate|exact Hsent].
Defined.

(** ** Mounting a post *)

Lemma includes_elem (x : Id) (l : list Id) : JS.includes x l = true <-> x ∈ l.
Proof.
  unfold JS.includes. rewrite existsb_exists, list_elem_of_In. split.
  - intros (y & Hy & Heq). apply String.eqb_eq in Heq. now subst.
  - intros Hx. exists x. split; [exact Hx|apply String.eqb_refl].
Qed.

(** X22: mounting a post sends one read of its comments. The heart is
    filled exactly when the current user's id is in the post's like list
    and the like count is the length of that list (not liked and zero when
    the post carries no list); the comment count is the number of comments
    read, or stays zero with only a console message when the read fails;
    the thread itself is not loaded. Opening the thread next, the read
    answering the same comments, brings the count and the thread in
    step. *)
Theorem mount_initialises_post :
  forall Sigma (w : World Sigma) (sigma : Sigma) (post : Post.t)
         (currentUser : User.t),
    let o := run w (PostView.mount post currentUser) sigma in
    requests (trace o) = [GetComments (Post.id post)] /\
    (PostView.liked (final o) = true <->
     exists l, Post.likes post = Some l /\ User.id currentUser ∈ l) /\
    PostView.likesCount (final o)
    = Z.of_nat (length (default [] (Post.likes post))) /\
    PostView.comments (final o) = [] /\
    (rejects w (GetComments (Post.id post)) sigma ->
     PostView.commentsCount (final o) = 0%Z /\
     trace o = [ARequest (GetComments (Post.id post));
                ANotice (console_error "Error al cargar conteo de comentarios")]) /\
    (forall data : list Comment.t,
       resolves w (GetComments (Post.id post)) sigma data ->
       PostView.commentsCount (final o) = Z.of_nat (length data) /\
       (resolves w (GetComments (Post.id post)) (server_state o) data ->
        count_offset
          (final (run w (PostView.fetchComments post (final o)) (server_state o)))
        = 0%Z)).
Proof.
  intros Sigma w sigma post currentUser o. subst o.
  unfold PostView.mount, PostView.loadCommentsCount, rejects, resolves.
  cbn [run].
  destruct (serve w (GetComments (Post.id post)) sigma) as [[data|detail] sigma'];
    cbn [fst snd run observe final trace server_state].
  - split; [reflexivity|]. split.
    { simpl. destruct (Post.likes post) as [l|].
      - rewrite includes_elem. split; [eauto|]. now intros (l' & [= <-] & Hl).
      - split; [discriminate|]. now intros (l' & ? & _). }
    split; [unfold PostView.initial; simpl; destruct (Post.likes post); reflexivity|].
    split; [reflexivity|].
    split; [intros (? & ?); discriminate|].
    intros data' [= <-]. split; [reflexivity|]. intros Hres2.
    unfold PostView.fetchComments. simpl.
    destruct (serve w (GetComments (Post.id post)) sigma') as [resp sigma2].
    cbn [fst] in Hres2. subst resp. unfold count_offset. simpl. lia.
  - split; [reflexivity|]. split.
    { simpl. destruct (Post.likes post) as [l|].
      - rewrite includes_elem. split; [eauto|]. now intros (l' & [= <-] & Hl).
      - split; [discriminate|]. now intros (l' & ? & _). }
    split; [unfold PostView.initial; simpl; destruct (Post.likes post); reflexivity|].
    split; [reflexivity|].
    split; [intros _; split; reflexivity|discriminate].
Qed.

Lemma mount_initialises_post_witness :
  rejects refusing_world (GetComments (Post.id (Sample.post "p2" ["u2"]))) tt /\
  PostView.liked
    (final (run refusing_world
              (PostView.mount (Sample.post "p2" ["u2"]) (Sample.user "u2" member)) tt))
  = true /\
  PostView.commentsCount
    (final (run refusing_world
              (PostView.mount (Sample.post "p2" ["u2"]) (Sample.user "u2" member)) tt))
  = 0%Z.
Proof.
  assert (H : rejects refusing_world
                (GetComments (Post.id (Sample.post "p2" ["u2"]))) tt)
    by (exists None; reflexivity).
  split; [exact H|]. split; [reflexivity|].
  exact (proj1 (proj1 (proj2 (proj2 (proj2 (proj2
           (mount_initialises_post unit refusing_world tt
              (Sample.post "p2" ["u2"]) (Sample.user "u2" member)))))) H)).
Defined.

(** ** Refreshing the lists *)

(** X23: a refresh replaces the local list by the server's, whatever the
    list held before, and a failed refresh keeps the list that was shown
    and only adds an error toast; in both outcomes the loading flag ends
    cleared. This holds for the posts, the announcements, the events and
    the user roster. The post refresh sends the category as a parameter
    exactly when the filter is not "all". *)
Theorem refresh_replaces_or_keeps :
  forall Sigma (w : World Sigma) (sigma : Sigma),
    (forall (s : Feed.State),
       let o := run w (Feed.fetchPosts s) sigma in
       let r := GetPosts (if String.eqb (Feed.categoryFilter s) "all" then None
                          else Some (Feed.categoryFilter s)) in
       requests (trace o) = [r] /\ Feed.loading (final o) = false /\
       (forall data, resolves w r sigma data -> Feed.posts (final o) = data) /\
       (rejects w r sigma -> Feed.posts (final o) = Feed.posts s)) /\
    (forall (s : Announcements.State),
       let o := run w (Announcements.fetchAnnouncements s) sigma in
       requests (trace o) = [GetAnnouncements] /\
       Announcements.loading (final o) = false /\
       (forall data, resolves w GetAnnouncements sigma data ->
                     Announcements.announcements (final o) = data) /\
       (rejects w GetAnnouncements sigma ->
        Announcements.announcements (final o) = Announcements.announcements s)) /\
    (forall (s : Events.State),
       let o := run w (Events.fetchEvents s) sigma in
       requests (trace o) = [GetEvents] /\ Events.loading (final o) = false /\
       (forall data, resolves w GetEvents sigma data -> Events.events (final o) = data) /\
       (rejects w GetEvents sigma -> Events.events (final o) = Events.events s)) /\
    (forall (s : AdminPanel.State),
       let o := run w (AdminPanel.fetchUsers s) sigma in
       requests (trace o) = [GetUsers] /\ AdminPanel.loading (final o) = false /\
       (forall data, resolves w GetUsers sigma data -> AdminPanel.users (final o) = data) /\
       (rejects w GetUsers sigma -> AdminPanel.users (final o) = AdminPanel.users s)).
Proof.
  intros Sigma w sigma. split; [|split; [|split]].
  - intros s o r. subst o r. unfold Feed.fetchPosts, resolves, rejects.
    destruct (String.eqb (Feed.categoryFilter s) "all"); cbn [negb run];
      match goal with
      | |- context [serve w ?q sigma] =>
          destruct (serve w q sigma) as [[data|detail] sigma']; simpl
      end;
      (split; [reflexivity|]; split; [reflexivity|]; split;
       [try discriminate; now intros data' [= <-]
       |try reflexivity; intros (? & ?); discriminate]).
  - intros s o. subst o. unfold Announcements.fetchAnnouncements, resolves, rejects.
    cbn [run]. destruct (serve w GetAnnouncements sigma) as [[data|detail] sigma'];
      simpl;
      (split; [reflexivity|]; split; [reflexivity|]; split;
       [try discriminate; now intros data' [= <-]
       |try reflexivity; intros (? & ?); discriminate]).
  - intros s o. subst o. unfold Events.fetchEvents, resolves, rejects.
    cbn [run]. destruct (serve w GetEvents sigma) as [[data|detail] sigma']; simpl;
      (split; [reflexivity|]; split; [reflexivity|]; split;
       [try discriminate; now intros data' [= <-]
       |try reflexivity; intros (? & ?); discriminate]).
  - intros s o. subst o. unfold AdminPanel.fetchUsers, resolves, rejects.
    cbn [run]. destruct (serve w GetUsers sigma) as [[data|detail] sigma']; simpl;
      (split; [reflexivity|]; split; [reflexivity|]; split;
       [try discriminate; now intros data' [= <-]
       |try reflexivity; intros (? & ?); discriminate]).
Qed.

Lemma refresh_replaces_or_keeps_witness :
  rejects refusing_world (GetPosts None) tt /\
  Feed.posts (final (run refusing_world (Feed.fetchPosts Sample.feed) tt))
  = Feed.posts Sample.feed /\
  Feed.loading (final (run refusing_world (Feed.fetchPosts Sample.feed) tt)) = false.
Proof.
  assert (H : rejects refusing_world (GetPosts None) tt) by (exists None; reflexivity).
  split; [exact H|].
  destruct (proj1 (refresh_replaces_or_keeps unit refusing_world tt) Sample.feed)
    as (_ & Hl & _ & Hk).
  split; [exact (Hk H)|exact Hl].
Defined.
